(** * glTF-Blender-IO: the node importer and the specular exporter

    A shallow embedding of
      - [io_scene_gltf2/blender/imp/gltf2_blender_node.py] (class [BlenderNode]),
      - the untextured branch of [export_specular] in
        [io_scene_gltf2/blender/exp/gltf2_blender_gather_materials_specular.py],
    and the properties of the importer's hierarchy walk, bone creation,
    mesh cache and display-size heuristic; then, with properties of
    their own,
      - the whole of [export_specular],
      - [io_scene_gltf2/blender/exp/gltf2_blender_gather_cameras.py],
      - [io_scene_gltf2/blender/exp/gltf2_blender_gather_lights.py].

    Conventions.
      - Python floats are idealised as the real numbers [R]: equalities
        proved here are exact, where the running code computes them up
        to rounding.
      - Python exceptions are values of [exn]; a computation is a state
        transformer that ends in [Ok], in [Raise] or, for the recursive
        walks only, in [OutOfFuel] when the recursion budget of the
        model is used up.
      - The document and the virtual-node tree are not changed by the
        functions of [BlenderNode]; they live in the record [Gltf].
        The attributes these functions do assign ([blender_object],
        [blender_bone_name], the mesh cache [blender_name], the node
        counter, the log) and the data of the host live in [State]. *)

From stdpp Require Import base option list gmap strings pretty.
From Stdlib Require Import ZArith Reals Lra Lia.

Local Open Scope Z_scope.

(* ===================================================================== *)
(** * Python values, exceptions and the computation monad                *)
(* ===================================================================== *)

Module Py.

Inductive exn : Set :=
| IndexError
| KeyError
| TypeError
| AttributeError
| ZeroDivisionError
| AssertionError
| ReferenceError.

(** Result of running a computation over a state of type [St]. *)
Inductive outcome (St A : Type) : Type :=
| Ok (a : A) (s : St)
| Raise (e : exn) (s : St)
| OutOfFuel.
Arguments Ok {St A} a s.
Arguments Raise {St A} e s.
Arguments OutOfFuel {St A}.

Definition M (St A : Type) : Type := St -> outcome St A.

Definition ret {St A} (a : A) : M St A := fun s => Ok a s.

Definition bind {St A B} (m : M St A) (k : A -> M St B) : M St B :=
  fun s =>
    match m s with
    | Ok a s' => k a s'
    | Raise e s' => Raise e s'
    | OutOfFuel => OutOfFuel
    end.

Definition raise {St A} (e : exn) : M St A := fun s => Raise e s.
Definition out_of_fuel {St A} : M St A := fun _ => OutOfFuel.
Definition get {St} : M St St := fun s => Ok s s.
Definition modify {St} (f : St -> St) : M St unit := fun s => Ok tt (f s).

(** [x = o] where a missing value raises [e] (a failed subscript). *)
Definition from_option {St A} (e : exn) (o : option A) : M St A :=
  match o with
  | Some a => ret a
  | None => raise e
  end.

(** [for x in l: body(x)] *)
Fixpoint for_each {St A} (l : list A) (body : A -> M St unit) : M St unit :=
  match l with
  | [] => ret tt
  | x :: l' => bind (body x) (fun _ => for_each l' body)
  end.

(** The state a computation stopped in, if it stopped. *)
Definition final_state {St A} (o : outcome St A) : option St :=
  match o with
  | Ok _ s => Some s
  | Raise _ s => Some s
  | OutOfFuel => None
  end.

Definition terminated {St A} (o : outcome St A) : Prop :=
  match o with
  | OutOfFuel => False
  | _ => True
  end.

Definition is_ok {St A} (o : outcome St A) : Prop :=
  match o with
  | Ok _ _ => True
  | _ => False
  end.

(** [l[i]] on a Python list: a negative index counts from the end, an
    index out of range has no value (the caller raises [IndexError]). *)
Definition getitem {A} (l : list A) (i : Z) : option A :=
  let n := Z.of_nat (length l) in
  if decide (0 <= i) then l !! Z.to_nat i
  else if decide (- n <= i) then l !! Z.to_nat (n + i)
  else None.

(** Truth value of an optional string: [None] and [''] are falsy. *)
Definition str_truthy (s : option string) : bool :=
  match s with
  | Some EmptyString => false
  | Some _ => true
  | None => false
  end.

(** [a or b] where [a] is an optional string and [b] a string. *)
Definition str_or (a : option string) (b : string) : string :=
  match a with
  | Some s => if str_truthy a then s else b
  | None => b
  end.

(** [l or d] on an optional list: [None] and [[]] are falsy. *)
Definition list_truthy {A} (l : option (list A)) : bool :=
  match l with
  | Some (_ :: _) => true
  | _ => false
  end.

End Py.

Import Py.

(** The monad notations of stdpp: [x ← m; k] and [m;; k]. *)
#[global] Instance M_ret {St} : MRet (M St) := fun A a => ret a.
#[global] Instance M_bind {St} : MBind (M St) := fun A B k m => bind m k.

(* ===================================================================== *)
(** * mathutils: vectors, quaternions and 4x4 matrices                   *)
(* ===================================================================== *)

(** [mathutils] is the host's math library; its operations are written
    here after their C sources ([mul_qt_qtqt], [mul_qt_v3],
    [conjugate_qt], the column-vector product of a 4x4 matrix with a
    3D vector), over [R]. *)
Module Mathutils.
Local Open Scope R_scope.

Record Vector : Type := Vec { vx : R; vy : R; vz : R }.

Record Quaternion : Type := Quat { qw : R; qx : R; qy : R; qz : R }.

(** Row-major 4x4 matrix. *)
Record Matrix : Type := Mat {
  m00 : R; m01 : R; m02 : R; m03 : R;
  m10 : R; m11 : R; m12 : R; m13 : R;
  m20 : R; m21 : R; m22 : R; m23 : R;
  m30 : R; m31 : R; m32 : R; m33 : R }.

Definition vadd (a b : Vector) : Vector :=
  Vec (vx a + vx b) (vy a + vy b) (vz a + vz b).

Definition vsub (a b : Vector) : Vector :=
  Vec (vx a - vx b) (vy a - vy b) (vz a - vz b).

(** Component-wise product, as in [Vector * Vector]. *)
Definition vmul (a b : Vector) : Vector :=
  Vec (vx a * vx b) (vy a * vy b) (vz a * vz b).

(** [Vector.length] *)
Definition vlength (a : Vector) : R :=
  sqrt (vx a * vx a + vy a * vy a + vz a * vz a).

(** [Quaternion.conjugated()] *)
Definition conjugated (q : Quaternion) : Quaternion :=
  Quat (qw q) (- qx q) (- qy q) (- qz q).

(** [Quaternion @ Quaternion] ([mul_qt_qtqt]) *)
Definition qmul (a b : Quaternion) : Quaternion :=
  Quat (qw a * qw b - qx a * qx b - qy a * qy b - qz a * qz b)
       (qw a * qx b + qx a * qw b + qy a * qz b - qz a * qy b)
       (qw a * qy b + qy a * qw b + qz a * qx b - qx a * qz b)
       (qw a * qz b + qz a * qw b + qx a * qy b - qy a * qx b).

(** [Quaternion @ Vector] ([mul_qt_v3]): the vector is multiplied by
    the quaternion on the left and by its conjugate on the right. *)
Definition qrot (q : Quaternion) (r : Vector) : Vector :=
  let t0 := - qx q * vx r - qy q * vy r - qz q * vz r in
  let t1 := qw q * vx r + qy q * vz r - qz q * vy r in
  let t2 := qw q * vy r + qz q * vx r - qx q * vz r in
  let r2 := qw q * vz r + qx q * vy r - qy q * vx r in
  let r0 := t1 in
  let r1 := t2 in
  let t1' := t0 * - qx q + r0 * qw q - r1 * qz q + r2 * qy q in
  let t2' := t0 * - qy q + r1 * qw q - r2 * qx q + r0 * qz q in
  let r2' := t0 * - qz q + r2 * qw q - r0 * qy q + r1 * qx q in
  Vec t1' t2' r2'.

(** [Matrix @ Vector] for a 4x4 matrix and a 3D vector: the vector is
    extended by [w = 1] and the first three rows are returned. *)
Definition mat_vec (m : Matrix) (v : Vector) : Vector :=
  Vec (m00 m * vx v + m01 m * vy v + m02 m * vz v + m03 m)
      (m10 m * vx v + m11 m * vy v + m12 m * vz v + m13 m)
      (m20 m * vx v + m21 m * vy v + m22 m * vz v + m23 m).




(** A translation, rotation, scale triple, as returned by [VNode.trs()]. *)
Definition TRS : Type := Vector * Quaternion * Vector.

(** The point a TRS transform sends [p] to: scale, rotate, translate. *)
Definition trs_apply (x : TRS) (p : Vector) : Vector :=
  let '(t, r, s) := x in vadd t (qrot r (vmul s p)).

(** The rest transform of an edit bone has no scale. *)
Definition rest_apply (et : Vector) (er : Quaternion) (p : Vector) : Vector :=
  vadd et (qrot er p).

(** [EditBone * PoseBone]: the TRS of the rest transform [(et, er)]
    followed (on the right) by the pose transform [(pt, pr, ps)]. *)
Definition rest_compose (et : Vector) (er : Quaternion) (pose : TRS) : TRS :=
  let '(pt, pr, ps) := pose in (vadd et (qrot er pt), qmul er pr, ps).




End Mathutils.

(* ===================================================================== *)
(** * export_specular: the untextured branch                              *)
(* ===================================================================== *)

Module Specular.
Local Open Scope R_scope.

(** Python's float division: a zero divisor raises. *)
Definition py_div (x y : R) : M unit R :=
  if Req_EM_T y 0 then raise ZeroDivisionError else ret (x / y).

(** [luminance = lambda c: 0.3 * c[0] + 0.6 * c[1] + 0.1 * c[2]] *)
Definition luminance (c0 c1 c2 : R) : R := 0.3 * c0 + 0.6 * c1 + 0.1 * c2.

(** The nested function [normalize(c)] of [export_specular]. *)
Definition normalize (c : list R) : M unit (list R) :=
  match c with
  | [c0; c1; c2] =>
      let l := luminance c0 c1 c2 in
      if Req_EM_T l 0 then ret c
      else
        x0 ← py_div c0 l;
        x1 ← py_div c1 l;
        x2 ← py_div c2 l;
        ret [x0; x1; x2]
  | _ => raise AssertionError   (* assert(len(c) == 3) *)
  end.

End Specular.

(* ===================================================================== *)
(** * The document and the virtual nodes                                 *)
(* ===================================================================== *)

Import Mathutils.

(** A virtual-node id: the index of a glTF node ([isinstance(id, int)])
    or the id of a synthesized node. *)
Inductive VNodeId : Set :=
| NodeIdx (i : Z)
| Synthetic (s : string).

#[global] Instance vnode_id_eq_dec : EqDecision VNodeId.
Proof. solve_decision. Defined.

#[global] Instance vnode_id_countable : Countable VNodeId :=
  inj_countable'
    (fun v => match v with NodeIdx i => inl i | Synthetic s => inr s end)
    (fun x => match x with inl i => NodeIdx i | inr s => Synthetic s end)
    (fun v => match v with NodeIdx _ => eq_refl | Synthetic _ => eq_refl end).

Definition is_int (id : VNodeId) : bool :=
  match id with NodeIdx _ => true | Synthetic _ => false end.

(** [VNode.Object], [VNode.Bone], [VNode.DummyRoot] *)
Inductive vnode_type : Set := Object | Bone | DummyRoot.

#[global] Instance vnode_type_eq_dec : EqDecision vnode_type.
Proof. solve_decision. Defined.

(** The attributes of a [VNode] that [BlenderNode] reads.  [trs] is the
    value of the method [vnode.trs()]. *)
Record VNode : Type := mkVNode {
  name : option string;
  default_name : string;
  type : vnode_type;
  children : list VNodeId;
  parent : option VNodeId;
  is_arma : bool;
  arma_name : string;
  bone_arma : option VNodeId;
  mesh_node_idx : option Z;
  camera_node_idx : option Z;
  light_node_idx : option Z;
  trs : TRS;
  editbone_trans : Vector;
  editbone_rot : Quaternion;
  editbone_arma_mat : Matrix;
  bone_length : R }.

(** A glTF node as parsed ([gltf.data.nodes[i]]).  [weight_animation]
    is tested with [is False]: only [Some false] passes. *)
Record PyNode : Type := mkPyNode {
  mesh : option Z;
  skin : option Z;
  camera : option Z;
  weights : option (list R);
  weight_animation : option bool;
  extras : option string;
  extensions : option (gmap string (gmap string Z)) }.

Record PyMesh : Type := mkPyMesh {
  mesh_name : option string;
  shapekey_names : option (list (option string));
  mesh_weights : option (list R) }.

Record PySkin : Type := mkPySkin { joints : list Z }.

(** What the functions of [BlenderNode] only read. *)
Record Gltf : Type := mkGltf {
  nodes : list PyNode;
  meshes : list PyMesh;
  skins : list PySkin;
  vnodes : gmap VNodeId VNode;
  blender_scene : string }.

(* ===================================================================== *)
(** * The host: bpy data                                                 *)
(* ===================================================================== *)

(** The data of an object.  A mesh, camera or light datablock is named
    by its (unique) name in [bpy.data]; an armature by its position in
    [bpy.data.armatures]. *)
Inductive ob_data : Type :=
| MeshData (n : string)
| CameraData (n : string)
| LightData (n : string)
| ArmatureData (a : nat).

Inductive rotation_mode_t : Set := XYZ | QUATERNION.
Inductive parent_type_t : Set := PARENT_OBJECT | PARENT_BONE.
Inductive mode_t : Set := MODE_OBJECT | MODE_EDIT | MODE_OTHER.

#[global] Instance mode_t_eq_dec : EqDecision mode_t.
Proof. solve_decision. Defined.

Record Modifier : Type := mkModifier {
  mod_name : string;
  mod_type : string;
  mod_object : option nat }.

Record PoseBone : Type := mkPoseBone {
  pb_name : string;
  pb_location : Vector;
  pb_rotation_mode : rotation_mode_t;
  pb_rotation_quaternion : Quaternion;
  pb_scale : Vector;
  pb_extras : option string }.

Record EditBone : Type := mkEditBone {
  eb_name : string;
  eb_use_connect : bool;
  eb_head : Vector;
  eb_tail : Vector;
  eb_roll : R;
  eb_parent : option nat;
  eb_extras : option string }.

Record BArmature : Type := mkBArmature {
  arm_name : string;
  edit_bones : list EditBone }.

Record KeyBlock : Type := mkKeyBlock {
  kb_name : string;
  slider_min : R;
  slider_max : R;
  kb_value : R }.

Record BMesh : Type := mkBMesh {
  shape_keys : option (list KeyBlock) }.

Record BObject : Type := mkBObject {
  ob_name : string;
  data : option ob_data;
  empty_display_size : R;
  location : Vector;
  rotation_mode : rotation_mode_t;
  rotation_quaternion : Quaternion;
  scale : Vector;
  ob_parent : option nat;
  parent_type : parent_type_t;
  parent_bone : option string;
  gltf2_animation_rest : option Matrix;
  gltf2_animation_weight_rest : list R;
  modifiers : list Modifier;
  pose_bones : list PoseBone;
  ob_extras : option string }.

(** [bpy.data] and [bpy.context].  Objects and armatures are referred to
    by their position in the list (a Python reference), meshes by name
    ([bpy.data.meshes[name]]). *)
Record Bpy : Type := mkBpy {
  objects : list BObject;
  armatures : list BArmature;
  bmeshes : gmap string BMesh;
  scenes : gmap string (list nat);
  mode : mode_t;
  window_scene : option string;
  active_object : option nat }.

(** A line of [gltf.log]. *)
Inductive log_entry : Type :=
| LogNode (current : Z) (total : nat) (id : VNodeId)
| LogCreateMesh (label : string + Z).

(** The key the Blender mesh of a glTF mesh is cached by: the tuples
    [(skin,)] and [(skin, tuple(weights))]. *)
Inductive cache_key : Type :=
| Key1 (skin : option Z)
| Key2 (skin : option Z) (weights : list R).

#[global] Instance R_eq_dec : EqDecision R := Req_EM_T.

#[global] Instance cache_key_eq_dec : EqDecision cache_key.
Proof. solve_decision. Defined.

(** What the functions of [BlenderNode] assign.  [blender_object] and
    [blender_bone_name] hold these attributes of the virtual nodes; an
    id without entry has the attribute [None]. *)
Record State : Type := mkState {
  display_current_node : Z;
  log : list log_entry;
  blender_object : gmap VNodeId nat;
  blender_bone_name : gmap VNodeId string;
  blender_name : gmap Z (list (cache_key * string));
  bpy : Bpy }.

(** The part of the host and of the add-on that is not in the source of
    [BlenderNode]: how the host makes a name unique, what the [length]
    setter and [align_roll] of an edit bone compute, the registered
    properties tested with [hasattr], [bpy.app.debug_value],
    [set_extras] of [gltf2_blender_extras], which gives the custom
    properties of a target from those it has and the extras of a glTF
    node, and the creators of mesh, camera and light data, which return
    the name of the datablock they made or raise. *)
Class BlenderHost : Type := {
  unique_name : list string -> string -> string;
  set_extras : option string -> option string -> option string;
  editbone_set_length : Vector -> Vector -> R -> Vector;
  editbone_align_roll : Vector -> Vector -> R -> Vector -> R;
  app_debug_value : Z;
  has_gltf2_animation_rest : bool;
  has_gltf2_animation_weight_rest : bool;
  BlenderMesh_create : Gltf -> Z -> option Z -> Bpy -> (exn + string) * Bpy;
  BlenderCamera_create : Gltf -> VNode -> option Z -> Bpy -> (exn + string) * Bpy;
  BlenderLight_create : Gltf -> VNode -> Z -> Bpy -> (exn + string) * Bpy }.

(* ===================================================================== *)
(** * Assignments to the state and to host data                          *)
(* ===================================================================== *)

Definition set_display_current_node (n : Z) (s : State) : State :=
  mkState n (log s) (blender_object s) (blender_bone_name s) (blender_name s) (bpy s).
Definition set_log (l : list log_entry) (s : State) : State :=
  mkState (display_current_node s) l (blender_object s) (blender_bone_name s)
          (blender_name s) (bpy s).
Definition set_blender_object (m : gmap VNodeId nat) (s : State) : State :=
  mkState (display_current_node s) (log s) m (blender_bone_name s) (blender_name s) (bpy s).
Definition set_blender_bone_name (m : gmap VNodeId string) (s : State) : State :=
  mkState (display_current_node s) (log s) (blender_object s) m (blender_name s) (bpy s).
Definition set_blender_name (m : gmap Z (list (cache_key * string))) (s : State) : State :=
  mkState (display_current_node s) (log s) (blender_object s) (blender_bone_name s) m (bpy s).
Definition set_bpy (b : Bpy) (s : State) : State :=
  mkState (display_current_node s) (log s) (blender_object s) (blender_bone_name s)
          (blender_name s) b.

Definition set_objects (l : list BObject) (b : Bpy) : Bpy :=
  mkBpy l (armatures b) (bmeshes b) (scenes b) (mode b) (window_scene b) (active_object b).
Definition set_armatures (l : list BArmature) (b : Bpy) : Bpy :=
  mkBpy (objects b) l (bmeshes b) (scenes b) (mode b) (window_scene b) (active_object b).
Definition set_bmeshes (m : gmap string BMesh) (b : Bpy) : Bpy :=
  mkBpy (objects b) (armatures b) m (scenes b) (mode b) (window_scene b) (active_object b).
Definition set_scenes (m : gmap string (list nat)) (b : Bpy) : Bpy :=
  mkBpy (objects b) (armatures b) (bmeshes b) m (mode b) (window_scene b) (active_object b).
Definition set_mode (m : mode_t) (b : Bpy) : Bpy :=
  mkBpy (objects b) (armatures b) (bmeshes b) (scenes b) m (window_scene b) (active_object b).
Definition set_window_scene (w : option string) (b : Bpy) : Bpy :=
  mkBpy (objects b) (armatures b) (bmeshes b) (scenes b) (mode b) w (active_object b).
Definition set_active_object (a : option nat) (b : Bpy) : Bpy :=
  mkBpy (objects b) (armatures b) (bmeshes b) (scenes b) (mode b) (window_scene b) a.

(** Assignments to the attributes of one object. *)
Definition set_empty_display_size (x : R) (o : BObject) : BObject :=
  mkBObject (ob_name o) (data o) x (location o) (rotation_mode o)
    (rotation_quaternion o) (scale o) (ob_parent o) (parent_type o) (parent_bone o)
    (gltf2_animation_rest o) (gltf2_animation_weight_rest o) (modifiers o)
    (pose_bones o) (ob_extras o).
Definition set_location (x : Vector) (o : BObject) : BObject :=
  mkBObject (ob_name o) (data o) (empty_display_size o) x (rotation_mode o)
    (rotation_quaternion o) (scale o) (ob_parent o) (parent_type o) (parent_bone o)
    (gltf2_animation_rest o) (gltf2_animation_weight_rest o) (modifiers o)
    (pose_bones o) (ob_extras o).
Definition set_rotation_mode (x : rotation_mode_t) (o : BObject) : BObject :=
  mkBObject (ob_name o) (data o) (empty_display_size o) (location o) x
    (rotation_quaternion o) (scale o) (ob_parent o) (parent_type o) (parent_bone o)
    (gltf2_animation_rest o) (gltf2_animation_weight_rest o) (modifiers o)
    (pose_bones o) (ob_extras o).
Definition set_rotation_quaternion (x : Quaternion) (o : BObject) : BObject :=
  mkBObject (ob_name o) (data o) (empty_display_size o) (location o) (rotation_mode o)
    x (scale o) (ob_parent o) (parent_type o) (parent_bone o)
    (gltf2_animation_rest o) (gltf2_animation_weight_rest o) (modifiers o)
    (pose_bones o) (ob_extras o).
Definition set_scale (x : Vector) (o : BObject) : BObject :=
  mkBObject (ob_name o) (data o) (empty_display_size o) (location o) (rotation_mode o)
    (rotation_quaternion o) x (ob_parent o) (parent_type o) (parent_bone o)
    (gltf2_animation_rest o) (gltf2_animation_weight_rest o) (modifiers o)
    (pose_bones o) (ob_extras o).
Definition set_ob_parent (x : option nat) (o : BObject) : BObject :=
  mkBObject (ob_name o) (data o) (empty_display_size o) (location o) (rotation_mode o)
    (rotation_quaternion o) (scale o) x (parent_type o) (parent_bone o)
    (gltf2_animation_rest o) (gltf2_animation_weight_rest o) (modifiers o)
    (pose_bones o) (ob_extras o).
Definition set_parent_type (x : parent_type_t) (o : BObject) : BObject :=
  mkBObject (ob_name o) (data o) (empty_display_size o) (location o) (rotation_mode o)
    (rotation_quaternion o) (scale o) (ob_parent o) x (parent_bone o)
    (gltf2_animation_rest o) (gltf2_animation_weight_rest o) (modifiers o)
    (pose_bones o) (ob_extras o).
Definition set_parent_bone (x : option string) (o : BObject) : BObject :=
  mkBObject (ob_name o) (data o) (empty_display_size o) (location o) (rotation_mode o)
    (rotation_quaternion o) (scale o) (ob_parent o) (parent_type o) x
    (gltf2_animation_rest o) (gltf2_animation_weight_rest o) (modifiers o)
    (pose_bones o) (ob_extras o).
Definition set_gltf2_animation_rest (x : option Matrix) (o : BObject) : BObject :=
  mkBObject (ob_name o) (data o) (empty_display_size o) (location o) (rotation_mode o)
    (rotation_quaternion o) (scale o) (ob_parent o) (parent_type o) (parent_bone o)
    x (gltf2_animation_weight_rest o) (modifiers o) (pose_bones o) (ob_extras o).
Definition set_gltf2_animation_weight_rest (x : list R) (o : BObject) : BObject :=
  mkBObject (ob_name o) (data o) (empty_display_size o) (location o) (rotation_mode o)
    (rotation_quaternion o) (scale o) (ob_parent o) (parent_type o) (parent_bone o)
    (gltf2_animation_rest o) x (modifiers o) (pose_bones o) (ob_extras o).
Definition set_modifiers (x : list Modifier) (o : BObject) : BObject :=
  mkBObject (ob_name o) (data o) (empty_display_size o) (location o) (rotation_mode o)
    (rotation_quaternion o) (scale o) (ob_parent o) (parent_type o) (parent_bone o)
    (gltf2_animation_rest o) (gltf2_animation_weight_rest o) x (pose_bones o) (ob_extras o).
Definition set_pose_bones (x : list PoseBone) (o : BObject) : BObject :=
  mkBObject (ob_name o) (data o) (empty_display_size o) (location o) (rotation_mode o)
    (rotation_quaternion o) (scale o) (ob_parent o) (parent_type o) (parent_bone o)
    (gltf2_animation_rest o) (gltf2_animation_weight_rest o) (modifiers o) x (ob_extras o).
Definition set_ob_extras (x : option string) (o : BObject) : BObject :=
  mkBObject (ob_name o) (data o) (empty_display_size o) (location o) (rotation_mode o)
    (rotation_quaternion o) (scale o) (ob_parent o) (parent_type o) (parent_bone o)
    (gltf2_animation_rest o) (gltf2_animation_weight_rest o) (modifiers o)
    (pose_bones o) x.

(** Assignments to the attributes of an edit bone and of a pose bone. *)
Definition set_eb_use_connect (x : bool) (e : EditBone) : EditBone :=
  mkEditBone (eb_name e) x (eb_head e) (eb_tail e) (eb_roll e) (eb_parent e) (eb_extras e).
Definition set_eb_head (x : Vector) (e : EditBone) : EditBone :=
  mkEditBone (eb_name e) (eb_use_connect e) x (eb_tail e) (eb_roll e) (eb_parent e) (eb_extras e).
Definition set_eb_tail (x : Vector) (e : EditBone) : EditBone :=
  mkEditBone (eb_name e) (eb_use_connect e) (eb_head e) x (eb_roll e) (eb_parent e) (eb_extras e).
Definition set_eb_roll (x : R) (e : EditBone) : EditBone :=
  mkEditBone (eb_name e) (eb_use_connect e) (eb_head e) (eb_tail e) x (eb_parent e) (eb_extras e).
Definition set_eb_parent (x : option nat) (e : EditBone) : EditBone :=
  mkEditBone (eb_name e) (eb_use_connect e) (eb_head e) (eb_tail e) (eb_roll e) x (eb_extras e).
Definition set_eb_extras (x : option string) (e : EditBone) : EditBone :=
  mkEditBone (eb_name e) (eb_use_connect e) (eb_head e) (eb_tail e) (eb_roll e) (eb_parent e) x.

Definition set_pb_location (x : Vector) (p : PoseBone) : PoseBone :=
  mkPoseBone (pb_name p) x (pb_rotation_mode p) (pb_rotation_quaternion p) (pb_scale p)
             (pb_extras p).
Definition set_pb_rotation_mode (x : rotation_mode_t) (p : PoseBone) : PoseBone :=
  mkPoseBone (pb_name p) (pb_location p) x (pb_rotation_quaternion p) (pb_scale p)
             (pb_extras p).
Definition set_pb_rotation_quaternion (x : Quaternion) (p : PoseBone) : PoseBone :=
  mkPoseBone (pb_name p) (pb_location p) (pb_rotation_mode p) x (pb_scale p) (pb_extras p).
Definition set_pb_scale (x : Vector) (p : PoseBone) : PoseBone :=
  mkPoseBone (pb_name p) (pb_location p) (pb_rotation_mode p) (pb_rotation_quaternion p) x
             (pb_extras p).
Definition set_pb_extras (x : option string) (p : PoseBone) : PoseBone :=
  mkPoseBone (pb_name p) (pb_location p) (pb_rotation_mode p) (pb_rotation_quaternion p)
             (pb_scale p) x.

Definition set_edit_bones (l : list EditBone) (a : BArmature) : BArmature :=
  mkBArmature (arm_name a) l.

(* ===================================================================== *)
(** * Python and host primitives used by BlenderNode                     *)
(* ===================================================================== *)

(** [min(sizes, default=d)]: the first least element. *)
Definition py_min (l : list R) (d : R) : R :=
  match l with
  | [] => d
  | x :: l' => fold_left (fun m y => if Rlt_dec y m then y else m) l' x
  end.

(** [max(a, b)]: [b] only when it is greater than [a]. *)
Definition py_max2 (a b : R) : R := if Rlt_dec a b then b else a.

(** A Python dict in insertion order: [k in d], [d[k]] and [d[k] = v]. *)
Fixpoint dict_get {K V} `{EqDecision K} (d : list (K * V)) (k : K) : option V :=
  match d with
  | [] => None
  | (k', v) :: d' => if decide (k' = k) then Some v else dict_get d' k
  end.

Fixpoint dict_set {K V} `{EqDecision K} (d : list (K * V)) (k : K) (v : V)
  : list (K * V) :=
  match d with
  | [] => [(k, v)]
  | (k', v') :: d' =>
      if decide (k' = k) then (k', v) :: d' else (k', v') :: dict_set d' k v
  end.

(** The position of the first element that satisfies [p]: the lookup by
    name in a collection of the host. *)
Fixpoint find_index {A} (p : A -> bool) (l : list A) : option nat :=
  match l with
  | [] => None
  | x :: l' => if p x then Some O else S <$> find_index p l'
  end.

Definition String_eqb (a b : string) : bool := bool_decide (a = b).

Definition default_object (n : string) (d : option ob_data) : BObject :=
  mkBObject n d 1%R (Vec 0 0 0) XYZ (Quat 1 0 0 0) (Vec 1 1 1) None PARENT_OBJECT
            None None [] [] [] None.

Definition default_pose_bone (n : string) : PoseBone :=
  mkPoseBone n (Vec 0 0 0) QUATERNION (Quat 1 0 0 0) (Vec 1 1 1) None.

Definition default_edit_bone (n : string) : EditBone :=
  mkEditBone n false (Vec 0 0 0) (Vec 0 0 0) 0%R None None.

(** [Matrix.LocRotScale(loc, rot, scale)] *)
Definition LocRotScale (l : Vector) (q : Quaternion) (s : Vector) : Matrix :=
  let '(w, x, y, z) := (qw q, qx q, qy q, qz q) in
  (Mat ((1 - 2 * (y * y + z * z)) * vx s) (2 * (x * y - w * z) * vy s)
       (2 * (x * z + w * y) * vz s) (vx l)
       (2 * (x * y + w * z) * vx s) ((1 - 2 * (x * x + z * z)) * vy s)
       (2 * (y * z - w * x) * vz s) (vy l)
       (2 * (x * z - w * y) * vx s) (2 * (y * z + w * x) * vy s)
       ((1 - 2 * (x * x + y * y)) * vz s) (vz l)
       0 0 0 1)%R.

(** The pose bones of an armature object after leaving edit mode: one
    for each edit bone, those that existed kept. *)
Definition sync_pose_bones (ebs : list EditBone) (pbs : list PoseBone)
  : list PoseBone :=
  (fun eb =>
     match find_index (fun pb => String_eqb (pb_name pb) (eb_name eb)) pbs with
     | Some i => default (default_pose_bone (eb_name eb)) (pbs !! i)
     | None => default_pose_bone (eb_name eb)
     end) <$> ebs.

Section BlenderNode.
Context `{host : BlenderHost}.

Definition modify_bpy (f : Bpy -> Bpy) : M State unit :=
  modify (fun s => set_bpy (f (bpy s)) s).

(** A creator of the add-on that is not part of this source. *)
Definition lift_host {A} (f : Bpy -> (exn + A) * Bpy) : M State A :=
  fun s =>
    match f (bpy s) with
    | (inr a, b) => Ok a (set_bpy b s)
    | (inl e, b) => Raise e (set_bpy b s)
    end.

(** An assignment to attributes of the object [obj]. *)
Definition update_object (obj : nat) (f : BObject -> BObject) : M State unit :=
  modify_bpy (fun b => set_objects (alter f obj (objects b)) b).

(** [bpy.data.objects.new(name, data)] *)
Definition objects_new (n : string) (d : option ob_data) : M State nat :=
  s ← get;
  let objs := objects (bpy s) in
  modify_bpy (set_objects (objs ++ [default_object (unique_name (ob_name <$> objs) n) d]));;
  ret (length objs).

(** [bpy.data.armatures.new(name)] *)
Definition armatures_new (n : string) : M State nat :=
  s ← get;
  let arms := armatures (bpy s) in
  modify_bpy (set_armatures (arms ++ [mkBArmature (unique_name (arm_name <$> arms) n) []]));;
  ret (length arms).

(** [bpy.ops.object.mode_set(mode=m)]: leaving edit mode gives the
    bones of the active armature object their pose bones. *)
Definition mode_set (m : mode_t) : M State unit :=
  s ← get;
  let b := bpy s in
  match mode b, m with
  | MODE_EDIT, MODE_OBJECT =>
      match active_object b with
      | Some obj =>
          match objects b !! obj with
          | Some o =>
              match data o with
              | Some (ArmatureData a) =>
                  match armatures b !! a with
                  | Some arm =>
                      update_object obj
                        (fun o => set_pose_bones
                                    (sync_pose_bones (edit_bones arm) (pose_bones o)) o)
                  | None => ret tt
                  end
              | _ => ret tt
              end
          | None => ret tt
          end
      | None => ret tt
      end
  | _, _ => ret tt
  end;;
  modify_bpy (set_mode m).

(** [gltf.vnodes[id]] *)
Definition lookup_vnode (gltf : Gltf) (id : VNodeId) : M State VNode :=
  from_option KeyError (vnodes gltf !! id).

(** [gltf.vnodes[id]] where [id] may be [None] *)
Definition lookup_vnode_opt (gltf : Gltf) (id : option VNodeId) : M State VNode :=
  match id with
  | Some i => lookup_vnode gltf i
  | None => raise KeyError
  end.

(** [gltf.data.nodes[i]] *)
Definition lookup_node (gltf : Gltf) (i : Z) : M State PyNode :=
  from_option IndexError (getitem (nodes gltf) i).

(** [if isinstance(id, int): set_extras(target, gltf.data.nodes[id].extras)],
    giving the custom properties of the target from those it has. *)
Definition node_extras (gltf : Gltf) (id : VNodeId) (old : option string)
  : M State (option string) :=
  match id with
  | NodeIdx i => pynode ← lookup_node gltf i; ret (set_extras old (extras pynode))
  | Synthetic _ => ret old
  end.

(* ------------------------------------------------------------------- *)
(** ** calc_empty_display_size                                          *)
(* ------------------------------------------------------------------- *)

(** The loop [for vid in vids: ... sizes.append(dist * 0.4)]. *)
Fixpoint display_sizes (gltf : Gltf) (vids : list VNodeId) (sizes : list R)
  : M State (list R) :=
  match vids with
  | [] => ret sizes
  | vid :: vids' =>
      vnode ← lookup_vnode gltf vid;
      let dist := vlength (trs vnode).1.1 in
      display_sizes gltf vids' (sizes ++ [(dist * 0.4)%R])
  end.

Definition calc_empty_display_size (gltf : Gltf) (vnode_id : VNodeId) : M State R :=
  vnode ← lookup_vnode gltf vnode_id;
  let vids := [vnode_id] ++ children vnode in
  sizes ← display_sizes gltf vids [];
  ret (py_max2 (py_min sizes 1) 0.001).

(* ------------------------------------------------------------------- *)
(** ** set_morph_weights and setup_skinning                             *)
(* ------------------------------------------------------------------- *)

(** [gltf.data.meshes[pynode.mesh]] *)
Definition lookup_mesh (gltf : Gltf) (pynode : PyNode) : M State PyMesh :=
  match mesh pynode with
  | Some mi => from_option IndexError (getitem (meshes gltf) mi)
  | None => raise TypeError
  end.

(** [obj.data.shape_keys.key_blocks[name]]: the mesh of the object and
    the position of the key block in it. *)
Definition lookup_key_block (obj : nat) (n : string) : M State (string * nat * KeyBlock) :=
  s ← get;
  o ← from_option ReferenceError (objects (bpy s) !! obj);
  match data o with
  | Some (MeshData m) =>
      bm ← from_option ReferenceError (bmeshes (bpy s) !! m);
      match shape_keys bm with
      | Some kbs =>
          match find_index (fun kb => String_eqb (kb_name kb) n) kbs with
          | Some i => kb ← from_option KeyError (kbs !! i); ret (m, i, kb)
          | None => raise KeyError
          end
      | None => raise AttributeError
      end
  | _ => raise AttributeError
  end.

Definition store_key_block (m : string) (i : nat) (kb : KeyBlock) : M State unit :=
  modify_bpy (fun b =>
    set_bmeshes (alter (fun bm => mkBMesh (alter (fun _ => kb) i <$> shape_keys bm))
                       m (bmeshes b)) b).

(** The body of the loop of [set_morph_weights]. *)
Definition set_morph_weight (pymesh : PyMesh) (obj : nat) (iw : nat * R) : M State unit :=
  let '(i, weight) := iw in
  match shapekey_names pymesh with
  | None => raise TypeError
  | Some names =>
      n ← from_option IndexError (names !! i);
      match n with
      | None => ret tt
      | Some n =>
          '(m, k, kb) ← lookup_key_block obj n;
          (* extend range if needed *)
          let kb := if Rlt_dec weight (slider_min kb)
                    then mkKeyBlock (kb_name kb) weight (slider_max kb) (kb_value kb)
                    else kb in
          let kb := if Rlt_dec (slider_max kb) weight
                    then mkKeyBlock (kb_name kb) (slider_min kb) weight (kb_value kb)
                    else kb in
          let kb := mkKeyBlock (kb_name kb) (slider_min kb) (slider_max kb) weight in
          store_key_block m k kb;;
          (* Store default weight *)
          if has_gltf2_animation_weight_rest
          then update_object obj (fun o =>
                 set_gltf2_animation_weight_rest (gltf2_animation_weight_rest o ++ [weight]) o)
          else ret tt
      end
  end.

(** [pynode.weights or pymesh.weights or []] *)
Definition morph_weights (pynode : PyNode) (pymesh : PyMesh) : list R :=
  if list_truthy (weights pynode) then default [] (weights pynode)
  else if list_truthy (mesh_weights pymesh) then default [] (mesh_weights pymesh)
  else [].

Definition set_morph_weights (gltf : Gltf) (pynode : PyNode) (obj : nat) : M State unit :=
  pymesh ← lookup_mesh gltf pynode;
  let ws := morph_weights pynode pymesh in
  for_each (zip (seq 0 (length ws)) ws) (set_morph_weight pymesh obj).

Definition setup_skinning (gltf : Gltf) (pynode : PyNode) (obj : nat) : M State unit :=
  pyskin ← match skin pynode with
           | Some si => from_option IndexError (getitem (skins gltf) si)
           | None => raise TypeError
           end;
  (* Create an Armature modifier *)
  j0 ← from_option IndexError (getitem (joints pyskin) 0);
  first_bone ← lookup_vnode gltf (NodeIdx j0);
  arma_id ← from_option KeyError (bone_arma first_bone);
  _ ← lookup_vnode gltf arma_id;
  s ← get;
  update_object obj (fun o =>
    set_modifiers
      (modifiers o ++
         [mkModifier (unique_name (mod_name <$> modifiers o) "Armature") "ARMATURE"
                     (blender_object s !! arma_id)]) o).

(* ------------------------------------------------------------------- *)
(** ** create_mesh_object                                               *)
(* ------------------------------------------------------------------- *)

(** The label of a mesh in the log: [pymesh.name or pynode.mesh]. *)
Definition mesh_label (pymesh : PyMesh) (mi : Z) : string + Z :=
  if str_truthy (mesh_name pymesh) then inl (default "" (mesh_name pymesh)) else inr mi.

(** The key to cache the Blender mesh by; [None]: don't use the cache. *)
Definition mesh_cache_key (pymesh : PyMesh) (pynode : PyNode) : option cache_key :=
  if negb (list_truthy (shapekey_names pymesh)) then Some (Key1 (skin pynode))
  else match weight_animation pynode with
       | Some false => Some (Key2 (skin pynode) (default [] (weights pynode)))
       | _ => None
       end.

(** [pymesh.blender_name], the cache of the glTF mesh [mi]. *)
Definition mesh_cache (s : State) (mi : Z) : list (cache_key * string) :=
  default [] (blender_name s !! mi).

Definition create_mesh_object (gltf : Gltf) (vnode : VNode) : M State nat :=
  pynode ← match mesh_node_idx vnode with
           | Some i => lookup_node gltf i
           | None => raise TypeError
           end;
  mi ← from_option TypeError (mesh pynode);
  if negb (bool_decide (0 <= mi < Z.of_nat (length (meshes gltf)))) then
    (* Avoid traceback for invalid gltf file: invalid reference to meshes array
       So return an empty blender object *)
    objects_new (str_or (name vnode) "Invalid Mesh Index") None
  else
    pymesh ← from_option IndexError (getitem (meshes gltf) mi);
    let cache_key := mesh_cache_key pymesh pynode in
    s ← get;
    m ← match cache_key ≫= dict_get (mesh_cache s mi) with
        | Some n =>
            _ ← from_option KeyError (bmeshes (bpy s) !! n);
            ret n
        | None =>
            modify (fun s => set_log (log s ++ [LogCreateMesh (mesh_label pymesh mi)]) s);;
            m ← lift_host (BlenderMesh_create gltf mi (skin pynode));
            match cache_key with
            | Some k =>
                modify (fun s => set_blender_name
                  (<[mi := dict_set (mesh_cache s mi) k m]> (blender_name s)) s)
            | None => ret tt
            end;;
            ret m
        end;
    obj ← objects_new (str_or (name vnode) m) (Some (MeshData m));
    (if list_truthy (shapekey_names pymesh)
     then set_morph_weights gltf pynode obj else ret tt);;
    (if bool_decide (skin pynode ≠ None)
     then setup_skinning gltf pynode obj else ret tt);;
    ret obj.

(* ------------------------------------------------------------------- *)
(** ** create_object                                                    *)
(* ------------------------------------------------------------------- *)

(** [pynode.extensions['KHR_lights_punctual']['light']] *)
Definition light_of (pynode : PyNode) : M State Z :=
  match extensions pynode with
  | None => raise TypeError
  | Some ext =>
      khr ← from_option KeyError (ext !! "KHR_lights_punctual");
      from_option KeyError (khr !! "light")
  end.

(** [bpy.data.scenes[gltf.blender_scene].collection.objects.link(obj)] *)
Definition scene_link (gltf : Gltf) (obj : nat) : M State unit :=
  s ← get;
  linked ← from_option KeyError (scenes (bpy s) !! blender_scene gltf);
  modify_bpy (fun b => set_scenes (<[blender_scene gltf := linked ++ [obj]]> (scenes b)) b).

Definition create_object (gltf : Gltf) (vnode_id : VNodeId) : M State nat :=
  vnode ← lookup_vnode gltf vnode_id;
  obj ← match mesh_node_idx vnode, camera_node_idx vnode, light_node_idx vnode with
        | Some _, _, _ => create_mesh_object gltf vnode
        | None, Some ci, _ =>
            pynode ← lookup_node gltf ci;
            cam ← lift_host (BlenderCamera_create gltf vnode (camera pynode));
            objects_new (str_or (name vnode) cam) (Some (CameraData cam))
        | None, None, Some li =>
            pynode ← lookup_node gltf li;
            l ← light_of pynode;
            light ← lift_host (BlenderLight_create gltf vnode l);
            objects_new (str_or (name vnode) light) (Some (LightData light))
        | None, None, None =>
            if is_arma vnode then
              armature ← armatures_new (arma_name vnode);
              s ← get;
              let an := default "" (arm_name <$> armatures (bpy s) !! armature) in
              objects_new (str_or (name vnode) an) (Some (ArmatureData armature))
            else
              (* Empty *)
              obj ← objects_new (str_or (name vnode) (default_name vnode)) None;
              size ← calc_empty_display_size gltf vnode_id;
              update_object obj (set_empty_display_size size);;
              ret obj
        end;
  modify (fun s => set_blender_object (<[vnode_id := obj]> (blender_object s)) s);;
  (* Set extras (if came from a glTF node) *)
  s ← get;
  ex ← node_extras gltf vnode_id (objects (bpy s) !! obj ≫= ob_extras);
  update_object obj (set_ob_extras ex);;
  (* Set transform *)
  let '(trans, rot, scl) := trs vnode in
  update_object obj (set_location trans);;
  update_object obj (set_rotation_mode QUATERNION);;
  update_object obj (set_rotation_quaternion rot);;
  update_object obj (set_scale scl);;
  (* Set parent *)
  match parent vnode with
  | Some p =>
      parent_vnode ← lookup_vnode gltf p;
      match type parent_vnode with
      | Object =>
          s ← get;
          update_object obj (set_ob_parent (blender_object s !! p))
      | Bone =>
          arma_id ← from_option KeyError (bone_arma parent_vnode);
          _ ← lookup_vnode gltf arma_id;
          s ← get;
          update_object obj (set_ob_parent (blender_object s !! arma_id));;
          update_object obj (set_parent_type PARENT_BONE);;
          update_object obj (set_parent_bone (blender_bone_name s !! p));;
          (* Nodes with a bone parent need to be translated
             backwards from the tip to the root *)
          update_object obj (fun o =>
            set_location (vadd (location o) (Vec 0 (- bone_length parent_vnode) 0)) o)
      | DummyRoot => ret tt
      end
  | None => ret tt
  end;;
  (* Store Rest matrix of object *)
  (if has_gltf2_animation_rest
   then update_object obj (fun o =>
          set_gltf2_animation_rest
            (Some (LocRotScale (location o) (rotation_quaternion o) (scale o))) o)
   else ret tt);;
  scene_link gltf obj;;
  ret obj.

(* ------------------------------------------------------------------- *)
(** ** create_bones                                                     *)
(* ------------------------------------------------------------------- *)

(** The nested function [visit] of [create_bones]; the state of the
    walk is the list [bone_ids] it appends to. *)
Fixpoint visit (fuel : nat) (gltf : Gltf) (id : VNodeId) : M (list VNodeId) unit :=
  match fuel with
  | O => out_of_fuel
  | S fuel' =>
      vnode ← from_option KeyError (vnodes gltf !! id);
      if decide (type vnode = Bone) then
        modify (fun bone_ids => bone_ids ++ [id]);;
        for_each (children vnode) (visit fuel' gltf)
      else ret tt
  end.

(** [bone_ids = []; for child in arma.children: visit(child)] *)
Definition find_bones (fuel : nat) (gltf : Gltf) (arma : VNode)
  : M State (list VNodeId) :=
  fun s =>
    match for_each (children arma) (visit fuel gltf) [] with
    | Ok _ bone_ids => Ok bone_ids s
    | Raise e _ => Raise e s
    | OutOfFuel => OutOfFuel
    end.

(** [armature.edit_bones] where [armature = blender_arma.data] *)
Definition armature_of (armature : option ob_data) : M State nat :=
  match armature with
  | Some (ArmatureData a) => ret a
  | _ => raise AttributeError
  end.

Definition update_edit_bone (a i : nat) (f : EditBone -> EditBone) : M State unit :=
  modify_bpy (fun b =>
    set_armatures
      (alter (fun arm => set_edit_bones (alter f i (edit_bones arm)) arm) a (armatures b)) b).

Definition update_pose_bone (obj i : nat) (f : PoseBone -> PoseBone) : M State unit :=
  update_object obj (fun o => set_pose_bones (alter f i (pose_bones o)) o).

(** [armature.edit_bones[name]] where [name] may be unset *)
Definition edit_bone_named (a : nat) (n : option string) : M State nat :=
  s ← get;
  arm ← from_option ReferenceError (armatures (bpy s) !! a);
  n ← from_option KeyError n;
  from_option KeyError (find_index (fun eb => String_eqb (eb_name eb) n) (edit_bones arm)).

(** First loop: create all edit bones. *)
Definition create_edit_bone (gltf : Gltf) (armature : option ob_data) (id : VNodeId)
  : M State unit :=
  vnode ← lookup_vnode gltf id;
  a ← armature_of armature;
  s ← get;
  arm ← from_option ReferenceError (armatures (bpy s) !! a);
  let editbone := length (edit_bones arm) in
  let n := unique_name (eb_name <$> edit_bones arm)
                       (str_or (name vnode) (default_name vnode)) in
  modify_bpy (fun b =>
    set_armatures
      (alter (set_edit_bones (edit_bones arm ++ [default_edit_bone n])) a (armatures b)) b);;
  modify (fun s => set_blender_bone_name (<[id := n]> (blender_bone_name s)) s);;
  update_edit_bone a editbone (set_eb_use_connect false);;
  (* Give the position of the bone in armature space *)
  let arma_mat := editbone_arma_mat vnode in
  update_edit_bone a editbone (set_eb_head (mat_vec arma_mat (Vec 0 0 0)));;
  update_edit_bone a editbone (set_eb_tail (mat_vec arma_mat (Vec 0 1 0)));;
  update_edit_bone a editbone (fun eb =>
    set_eb_tail (editbone_set_length (eb_head eb) (eb_tail eb) (bone_length vnode)) eb);;
  update_edit_bone a editbone (fun eb =>
    set_eb_roll (editbone_align_roll (eb_head eb) (eb_tail eb) (eb_roll eb)
                   (vsub (mat_vec arma_mat (Vec 0 0 1)) (eb_head eb))) eb);;
  ex ← node_extras gltf id None;
  update_edit_bone a editbone (set_eb_extras ex).

(** Second loop: set all bone parents. *)
Definition set_bone_parent (gltf : Gltf) (armature : option ob_data) (id : VNodeId)
  : M State unit :=
  vnode ← lookup_vnode gltf id;
  parent_vnode ← lookup_vnode_opt gltf (parent vnode);
  if decide (type parent_vnode = Bone) then
    a ← armature_of armature;
    s ← get;
    editbone ← edit_bone_named a (blender_bone_name s !! id);
    parent_editbone ← edit_bone_named a (parent vnode ≫= fun p => blender_bone_name s !! p);
    update_edit_bone a editbone (set_eb_parent (Some parent_editbone))
  else ret tt.

(** [er.conjugated() @ (t - et)] and [er.conjugated() @ r] *)
Definition pose_location (vnode : VNode) : Vector :=
  let '(t, r, s) := trs vnode in
  let '(et, er) := (editbone_trans vnode, editbone_rot vnode) in
  qrot (conjugated er) (vsub t et).

Definition pose_rotation (vnode : VNode) : Quaternion :=
  let '(t, r, s) := trs vnode in
  let '(et, er) := (editbone_trans vnode, editbone_rot vnode) in
  qmul (conjugated er) r.

Definition pose_scale (vnode : VNode) : Vector :=
  let '(t, r, s) := trs vnode in s.

(** Third loop: do pose bones. *)
Definition set_pose_bone (gltf : Gltf) (blender_arma : nat) (id : VNodeId)
  : M State unit :=
  vnode ← lookup_vnode gltf id;
  s ← get;
  o ← from_option ReferenceError (objects (bpy s) !! blender_arma);
  _ ← armature_of (data o);
  n ← from_option KeyError (blender_bone_name s !! id);
  pose_bone ← from_option KeyError
                (find_index (fun pb => String_eqb (pb_name pb) n) (pose_bones o));
  (* BoneTRS = EditBone * PoseBone
     Set PoseBone to make BoneTRS = vnode.trs. *)
  update_pose_bone blender_arma pose_bone (set_pb_location (pose_location vnode));;
  update_pose_bone blender_arma pose_bone (set_pb_rotation_mode QUATERNION);;
  update_pose_bone blender_arma pose_bone (set_pb_rotation_quaternion (pose_rotation vnode));;
  update_pose_bone blender_arma pose_bone (set_pb_scale (pose_scale vnode));;
  ex ← node_extras gltf id (pose_bones o !! pose_bone ≫= pb_extras);
  update_pose_bone blender_arma pose_bone (set_pb_extras ex).

Definition create_bones (fuel : nat) (gltf : Gltf) (arma_id : VNodeId) : M State unit :=
  arma ← lookup_vnode gltf arma_id;
  s ← get;
  blender_arma ← from_option AttributeError (blender_object s !! arma_id);
  o ← from_option ReferenceError (objects (bpy s) !! blender_arma);
  let armature := data o in
  (* Find all bones for this arma *)
  bone_ids ← find_bones fuel gltf arma;
  (* Switch into edit mode to create all edit bones *)
  (if bool_decide (mode (bpy s) ≠ MODE_OBJECT) then mode_set MODE_OBJECT else ret tt);;
  _ ← from_option KeyError (scenes (bpy s) !! blender_scene gltf);
  modify_bpy (set_window_scene (Some (blender_scene gltf)));;
  modify_bpy (set_active_object (Some blender_arma));;
  mode_set MODE_EDIT;;
  for_each bone_ids (create_edit_bone gltf armature);;
  (* Set all bone parents *)
  for_each bone_ids (set_bone_parent gltf armature);;
  (* Switch back to object mode and do pose bones *)
  mode_set MODE_OBJECT;;
  for_each bone_ids (set_pose_bone gltf blender_arma).

(* ------------------------------------------------------------------- *)
(** ** create_vnode                                                     *)
(* ------------------------------------------------------------------- *)

(** Create VNode and all its descendants.  The hooks of
    [import_user_extensions] do nothing: no user extension is
    registered. *)
Fixpoint create_vnode (fuel : nat) (gltf : Gltf) (vnode_id : VNodeId) : M State unit :=
  match fuel with
  | O => out_of_fuel
  | S fuel' =>
      vnode ← lookup_vnode gltf vnode_id;
      modify (fun s => set_display_current_node (display_current_node s + 1) s);;
      (if bool_decide (app_debug_value = 101) then
         modify (fun s => set_log
           (log s ++ [LogNode (display_current_node s) (size (vnodes gltf)) vnode_id]) s)
       else ret tt);;
      match type vnode with
      | Object =>
          _ ← match vnode_id with
              | NodeIdx i => n ← lookup_node gltf i; ret (Some n)
              | Synthetic _ => ret None
              end;
          _ ← create_object gltf vnode_id;
          if is_arma vnode then create_bones fuel' gltf vnode_id else ret tt
      | Bone =>
          (* These are created with their armature *)
          ret tt
      | DummyRoot =>
          (* Don't actually create this *)
          modify (fun s => set_blender_object (delete vnode_id (blender_object s)) s)
      end;;
      for_each (children vnode) (create_vnode fuel' gltf)
  end.

End BlenderNode.

(* ===================================================================== *)
(** * The exporters: cameras, punctual lights, the specular extension    *)
(* ===================================================================== *)

(** The entries of [export_settings] that these exporters read; the
    exporter sets both before it gathers anything. *)
Record ExportSettings : Type := mkExportSettings {
  gltf_extras : bool;
  gltf_lighting_mode : string }.

(** [a >= b] and [a < b] on floats. *)
Definition py_ge (a b : R) : bool := if Rle_dec b a then true else false.
Definition py_lt (a b : R) : bool := if Rlt_dec a b then true else false.

(* ------------------------------------------------------------------- *)
(** ** gltf2_blender_gather_cameras                                     *)
(* ------------------------------------------------------------------- *)

(** [math.tan] and [math.atan] are the functions [tan] and [atan] of
    the reals.  The decorator [cached] (a memo table of the exporter)
    and the hook [export_user_extensions] (no user extension is
    registered) are left out; the result of [generate_extras], of
    [gltf2_blender_extras], is a parameter. *)
Module Cameras.
Import Specular.
Local Open Scope R_scope.

(** [bpy.context.scene.render] *)
Record RenderSettings : Type := mkRenderSettings {
  resolution_x : Z;
  resolution_y : Z;
  pixel_aspect_x : R;
  pixel_aspect_y : R }.

(** The attributes of a camera of the host that [gather_camera] reads. *)
Record BlenderCamera : Type := mkBlenderCamera {
  name : string;
  type : string;
  ortho_scale : R;
  clip_start : R;
  clip_end : R;
  sensor_fit : string;
  angle : R }.

(** [gltf2_io.CameraOrthographic] and [gltf2_io.CameraPerspective];
    their [extensions] and [extras] are always [None]. *)
Record CameraOrthographic : Type := mkCameraOrthographic {
  xmag : R;
  ymag : R;
  ortho_zfar : R;
  ortho_znear : R }.

Record CameraPerspective : Type := mkCameraPerspective {
  aspect_ratio : R;
  yfov : R;
  zfar : R;
  znear : R }.

(** [gltf2_io.Camera] *)
Record Camera : Type := mkCamera {
  extensions : option string;
  extras : option string;
  camera_name : string;
  orthographic : option CameraOrthographic;
  perspective : option CameraPerspective;
  camera_type : option string }.

Section GatherCamera.
Variable generate_extras : BlenderCamera -> option string.

Definition __gather_type (blender_camera : BlenderCamera) (export_settings : ExportSettings)
  : option string :=
  if String_eqb (type blender_camera) "PERSP" then Some "perspective"
  else if String_eqb (type blender_camera) "ORTHO" then Some "orthographic"
  else None.

(** [bool(__gather_type(blender_camera, export_settings))] *)
Definition __filter_camera (blender_camera : BlenderCamera) (export_settings : ExportSettings)
  : bool :=
  str_truthy (__gather_type blender_camera export_settings).

Definition __gather_extensions (blender_camera : BlenderCamera)
           (export_settings : ExportSettings) : option string := None.

Definition __gather_extras (blender_camera : BlenderCamera) (export_settings : ExportSettings)
  : option string :=
  if gltf_extras export_settings then generate_extras blender_camera else None.

Definition __gather_name (blender_camera : BlenderCamera) (export_settings : ExportSettings)
  : string := name blender_camera.

Definition __gather_orthographic (_render : RenderSettings) (blender_camera : BlenderCamera)
           (export_settings : ExportSettings) : M unit (option CameraOrthographic) :=
  if bool_decide (__gather_type blender_camera export_settings = Some "orthographic") then
    let scene_x := IZR (resolution_x _render) * pixel_aspect_x _render in
    let scene_y := IZR (resolution_y _render) * pixel_aspect_y _render in
    let scene_square := py_max2 scene_x scene_y in
    rx ← py_div scene_x scene_square;
    let xmag := ortho_scale blender_camera * rx / 2 in
    ry ← py_div scene_y scene_square;
    let ymag := ortho_scale blender_camera * ry / 2 in
    let znear := clip_start blender_camera in
    let zfar := clip_end blender_camera in
    ret (Some (mkCameraOrthographic xmag ymag zfar znear))
  else ret None.

(** The test that selects the branch of [yfov]:
    [width >= height and sensor_fit != 'VERTICAL'
     or width < height and sensor_fit == 'HORIZONTAL'] *)
Definition fits_width (width height : R) (blender_camera : BlenderCamera) : bool :=
  py_ge width height && negb (String_eqb (sensor_fit blender_camera) "VERTICAL")
  || py_lt width height && String_eqb (sensor_fit blender_camera) "HORIZONTAL".

Definition __gather_perspective (_render : RenderSettings) (blender_camera : BlenderCamera)
           (export_settings : ExportSettings) : M unit (option CameraPerspective) :=
  if negb (bool_decide (__gather_type blender_camera export_settings = Some "perspective"))
  then ret None
  else
    let width := pixel_aspect_x _render * IZR (resolution_x _render) in
    let height := pixel_aspect_y _render * IZR (resolution_y _render) in
    aspect_ratio ← py_div width height;
    yfov ← (if fits_width width height blender_camera
            then t ← py_div (tan (angle blender_camera * 0.5)) aspect_ratio;
                 ret (2.0 * atan t)
            else ret (angle blender_camera));
    let znear := clip_start blender_camera in
    let zfar := clip_end blender_camera in
    ret (Some (mkCameraPerspective aspect_ratio yfov zfar znear)).

Definition gather_camera (_render : RenderSettings) (blender_camera : BlenderCamera)
           (export_settings : ExportSettings) : M unit (option Camera) :=
  if negb (__filter_camera blender_camera export_settings) then ret None
  else
    let extensions := __gather_extensions blender_camera export_settings in
    let extras := __gather_extras blender_camera export_settings in
    let name := __gather_name blender_camera export_settings in
    orthographic ← __gather_orthographic _render blender_camera export_settings;
    perspective ← __gather_perspective _render blender_camera export_settings;
    let type := __gather_type blender_camera export_settings in
    ret (Some (mkCamera extensions extras name orthographic perspective type)).

End GatherCamera.

End Cameras.

(* ------------------------------------------------------------------- *)
(** ** gltf2_blender_gather_lights                                      *)
(* ------------------------------------------------------------------- *)

(** A computation of this exporter prints warnings on the console and
    returns or raises.  The searches of [gltf2_blender_search_node_tree]
    through the node tree of a lamp are not part of this source: what
    [from_socket] finds from a socket is given with the node.  The
    constant [PBR_WATTS_TO_LUMENS], [gather_light_spot] and
    [generate_extras] are parameters; [Light.to_dict()] serializes the
    record that is returned here. *)
Module Lights.
Local Open Scope R_scope.

Inductive error : Type :=
| KeyError (key : string)
| ValueError (arg : string).

Inductive result (A : Type) : Type :=
| Return (a : A)
| Raise (e : error).
Arguments Return {A} a.
Arguments Raise {A} e.

(** The lines printed by [gltf2_io_debug.print_console], in order, and
    the result. *)
Definition L (A : Type) : Type := list (string * string) * result A.

Definition ret {A} (a : A) : L A := ([], Return a).

Definition bind {A B} (m : L A) (k : A -> L B) : L B :=
  match m with
  | (w, Return a) => let '(w', r) := k a in (w ++ w', r)
  | (w, Raise e) => (w, Raise e)
  end.

Definition raise {A} (e : error) : L A := ([], Raise e).

Definition print_console (level msg : string) : L unit := ([(level, msg)], Return tt).

#[global] Instance L_ret : MRet L := fun A a => ret a.
#[global] Instance L_bind : MBind L := fun A B k m => bind m k.

(** A node of type [ShaderNodeEmission]: the values of its inputs
    [Color] and [Strength], and the [Strength] inputs of the nodes of
    type [ShaderNodeLightFalloff] that [from_socket] finds from its
    input [Strength]. *)
Record EmissionNode : Type := mkEmissionNode {
  Color_default_value : list R;
  Strength_default_value : R;
  Strength_falloff_nodes : list R }.

(** A node of the tree of a lamp: whether it is a
    [ShaderNodeOutputLight], whether it is the active output, and the
    emission nodes that [from_socket] finds from its input [Surface]. *)
Record TreeNode : Type := mkTreeNode {
  is_shadernode_output : bool;
  is_active_output : bool;
  Surface_emission_nodes : list EmissionNode }.

(** The attributes of a light of the host that are read. *)
Record BlenderLamp : Type := mkBlenderLamp {
  name : string;
  type : string;
  color : list R;
  energy : R;
  use_custom_distance : bool;
  cutoff_distance : R;
  use_nodes : bool;
  node_tree : option (list TreeNode) }.

Section GatherLights.
Variable PBR_WATTS_TO_LUMENS : R.
Variable LightSpot : Type.
Variable gather_light_spot : BlenderLamp -> ExportSettings -> option LightSpot.
Variable generate_extras : BlenderLamp -> option string.

(** [gltf2_io_lights_punctual.Light] *)
Record Light : Type := mkLight {
  light_color : list R;
  light_intensity : R;
  light_spot : option LightSpot;
  light_type : string;
  light_range : option R;
  light_name : string;
  light_extensions : option string;
  light_extras : option string }.

Definition __filter_lights_punctual (blender_lamp : BlenderLamp)
           (export_settings : ExportSettings) : L bool :=
  if bool_decide (type blender_lamp ∈ ["HEMI"; "AREA"]) then
    print_console "WARNING" ("Unsupported light source " +:+ type blender_lamp);;
    mret false
  else mret true.

(** The loop of [__get_cycles_emission_node] over the nodes of the tree. *)
Fixpoint emission_of_nodes (nodes : list TreeNode) : option EmissionNode :=
  match nodes with
  | [] => None
  | currentNode :: nodes' =>
      if is_shadernode_output currentNode then
        if negb (is_active_output currentNode) then emission_of_nodes nodes'
        else match Surface_emission_nodes currentNode with
             | result0 :: _ => Some result0
             | [] => emission_of_nodes nodes'
             end
      else emission_of_nodes nodes'
  end.

Definition __get_cycles_emission_node (blender_lamp : BlenderLamp) : option EmissionNode :=
  match node_tree blender_lamp with
  | Some nodes => if use_nodes blender_lamp then emission_of_nodes nodes else None
  | None => None
  end.

Definition __gather_color (blender_lamp : BlenderLamp) (export_settings : ExportSettings)
  : list R :=
  match __get_cycles_emission_node blender_lamp with
  | Some emission_node => take 3 (Color_default_value emission_node)
  | None => color blender_lamp
  end.

Definition __gather_intensity (blender_lamp : BlenderLamp) (export_settings : ExportSettings)
  : L R :=
  emission_strength ←
    match __get_cycles_emission_node blender_lamp with
    | None => mret (energy blender_lamp)
    | Some emission_node =>
        if negb (String_eqb (type blender_lamp) "SUN") then
          match Strength_falloff_nodes emission_node with
          | quadratic_falloff_node :: _ => mret (quadratic_falloff_node / (PI * 4.0))
          | [] =>
              print_console "WARNING"
                "No quadratic light falloff node attached to emission strength property";;
              mret (energy blender_lamp)
          end
        else mret (Strength_default_value emission_node)
    end;
  if String_eqb (gltf_lighting_mode export_settings) "RAW" then mret emission_strength
  else
    let emission_luminous :=
      if String_eqb (type blender_lamp) "SUN" then emission_strength
      else emission_strength / (4 * PI) in
    if String_eqb (gltf_lighting_mode export_settings) "SPEC"
    then mret (emission_luminous * PBR_WATTS_TO_LUMENS)
    else if negb (String_eqb (gltf_lighting_mode export_settings) "COMPAT")
         then raise (ValueError (gltf_lighting_mode export_settings))
         else mret emission_luminous.

Definition __gather_spot (blender_lamp : BlenderLamp) (export_settings : ExportSettings)
  : option LightSpot :=
  if String_eqb (type blender_lamp) "SPOT"
  then gather_light_spot blender_lamp export_settings
  else None.

Definition __gather_type (blender_lamp : BlenderLamp) (_ : ExportSettings) : L string :=
  match dict_get [("POINT", "point"); ("SUN", "directional"); ("SPOT", "spot")]
                 (type blender_lamp) with
  | Some t => mret t
  | None => raise (KeyError (type blender_lamp))
  end.

Definition __gather_range (blender_lamp : BlenderLamp) (export_settings : ExportSettings)
  : option R :=
  if use_custom_distance blender_lamp then Some (cutoff_distance blender_lamp) else None.

Definition __gather_name (blender_lamp : BlenderLamp) (export_settings : ExportSettings)
  : string := name blender_lamp.

Definition __gather_extensions (blender_lamp : BlenderLamp) (export_settings : ExportSettings)
  : option string := None.

Definition __gather_extras (blender_lamp : BlenderLamp) (export_settings : ExportSettings)
  : option string :=
  if gltf_extras export_settings then generate_extras blender_lamp else None.

Definition gather_lights_punctual (blender_lamp : BlenderLamp)
           (export_settings : ExportSettings) : L (option Light) :=
  ok ← __filter_lights_punctual blender_lamp export_settings;
  if negb ok then mret None
  else
    let color := __gather_color blender_lamp export_settings in
    intensity ← __gather_intensity blender_lamp export_settings;
    let spot := __gather_spot blender_lamp export_settings in
    type ← __gather_type blender_lamp export_settings;
    let range := __gather_range blender_lamp export_settings in
    let name := __gather_name blender_lamp export_settings in
    let extensions := __gather_extensions blender_lamp export_settings in
    let extras := __gather_extras blender_lamp export_settings in
    mret (Some (mkLight color intensity spot type range name extensions extras)).

End GatherLights.

End Lights.

(* ------------------------------------------------------------------- *)
(** ** export_specular, whole                                           *)
(* ------------------------------------------------------------------- *)

(** The sockets of the shader node come from [get_socket], of
    [gltf2_blender_get]: a material is given by the five sockets read,
    each [None] when the node has no such socket.  The constant
    [GLTF_IOR] and [gather_texture_info] are parameters.  The value of
    a colour socket is an array of the host, and a slice of it a
    tuple; [np.array] is an array of numpy, whose arithmetic works
    element by element. *)
Module SpecularExtension.
Import Specular.
Local Open Scope R_scope.

Record NodeSocket (V : Type) : Type := mkNodeSocket {
  is_linked : bool;
  default_value : V }.
Arguments mkNodeSocket {V} _ _.
Arguments is_linked {V} _.
Arguments default_value {V} _.

Record BlenderMaterial : Type := mkBlenderMaterial {
  specular_socket : option (NodeSocket R);
  specular_tint_socket : option (NodeSocket R);
  base_color_socket : option (NodeSocket (list R));
  transmission_socket : option (NodeSocket R);
  ior_socket : option (NodeSocket R) }.

(** A socket of either kind, as [gather_texture_info] takes it. *)
Inductive socket : Type :=
| FloatSocket (s : NodeSocket R)
| ColorSocket (s : NodeSocket (list R)).


(** [isinstance(socket, bpy.types.NodeSocket) and not socket.is_linked] *)
Definition not_linked {V} (s : option (NodeSocket V)) : bool :=
  match s with
  | Some s => negb (is_linked s)
  | None => false
  end.

(** [x == y] and [x != y] where [x] may be [None] *)
Definition float_eq (x : option R) (y : R) : bool :=
  match x with
  | Some v => bool_decide (v = y)
  | None => false
  end.

Definition float_ne (x : option R) (y : R) : bool := negb (float_eq x y).

(** The operand of an arithmetic operation: [None] has none. *)
Definition float_of (x : option R) : M unit R := from_option TypeError x.

(** [normalize(c) * x]: [normalize] returns an array of numpy, which is
    multiplied element by element, unless the luminance is zero: then
    it returns [c] itself, a tuple, and a tuple times a float raises. *)
Definition normalize_times (c : list R) (x : R) : M unit (list R) :=
  n ← normalize c;
  match c with
  | [c0; c1; c2] =>
      if Req_EM_T (luminance c0 c1 c2) 0 then raise TypeError
      else ret ((fun v => v * x) <$> n)
  | _ => raise TypeError
  end.

(** The dictionary [specular_extension] and
    [Extension('KHR_materials_specular', specular_extension, False)]. *)
Record SpecularDict (Texture : Type) : Type := mkSpecularDict {
  specularColorFactor : option (list R);
  specularColorTexture : option Texture }.
Arguments mkSpecularDict {Texture} _ _.
Arguments specularColorFactor {Texture} _.
Arguments specularColorTexture {Texture} _.

Record Extension (Texture : Type) : Type := mkExtension {
  extension_name : string;
  extension : SpecularDict Texture;
  required : bool }.
Arguments mkExtension {Texture} _ _ _.
Arguments extension_name {Texture} _.
Arguments extension {Texture} _.
Arguments required {Texture} _.

Section ExportSpecular.
Variable GLTF_IOR : R.
Variable Texture : Type.
Variable gather_texture_info :
  option socket -> list (option socket) -> ExportSettings ->
  option Texture * bool * option (list R).

(** [no_texture] *)
Definition no_texture (blender_material : BlenderMaterial) : bool :=
  let specular_not_linked := not_linked (specular_socket blender_material) in
  let specular_tint_not_linked := not_linked (specular_tint_socket blender_material) in
  let base_color_not_linked := not_linked (base_color_socket blender_material) in
  let transmission_not_linked := not_linked (transmission_socket blender_material) in
  let specular_tint :=
    if specular_tint_not_linked
    then default_value <$> specular_tint_socket blender_material else None in
  transmission_not_linked && specular_not_linked && specular_tint_not_linked &&
  (float_eq specular_tint 0.0 || (float_ne specular_tint 0.0 && base_color_not_linked)).

(** The socket [primary_socket] of the branch with a texture. *)
Definition primary_socket (blender_material : BlenderMaterial) : option socket :=
  let specular_not_linked := not_linked (specular_socket blender_material) in
  let specular_tint_not_linked := not_linked (specular_tint_socket blender_material) in
  let base_color_not_linked := not_linked (base_color_socket blender_material) in
  if specular_not_linked then
    if specular_tint_not_linked then
      if base_color_not_linked
      then FloatSocket <$> transmission_socket blender_material
      else ColorSocket <$> base_color_socket blender_material
    else FloatSocket <$> specular_tint_socket blender_material
  else FloatSocket <$> specular_socket blender_material.

(** The branch without texture: [specularColorFactor]. *)
Definition specular_color_factor (specular specular_tint transmission : option R) (ior : R)
           (base_color : list R) : M unit (list R) :=
  r ← py_div (ior - 1) (ior + 1);
  let f0_from_ior := r ^ 2 in
  specular_tint ← float_of specular_tint;
  nt ← normalize_times base_color specular_tint;
  let tint_strength := (fun v => (1 - specular_tint) + v) <$> nt in
  transmission ← float_of transmission;
  i ← py_div 1 f0_from_ior;
  specular ← float_of specular;
  let specular_color :=
    (fun v => (1 - transmission) * i * 0.08 * specular * v + transmission * v)
      <$> tint_strength in
  ret specular_color.

Definition export_specular (blender_material : BlenderMaterial)
           (export_settings : ExportSettings)
  : M unit (option (Extension Texture) * option (list string)) :=
  match base_color_socket blender_material with
  | None => ret (None, None)
  | Some base_color_socket' =>
      let specular_not_linked := not_linked (specular_socket blender_material) in
      let specular_tint_not_linked := not_linked (specular_tint_socket blender_material) in
      let transmission_not_linked := not_linked (transmission_socket blender_material) in
      let ior_not_linked := not_linked (ior_socket blender_material) in
      let specular :=
        if specular_not_linked
        then default_value <$> specular_socket blender_material else None in
      let specular_tint :=
        if specular_tint_not_linked
        then default_value <$> specular_tint_socket blender_material else None in
      let transmission :=
        if transmission_not_linked
        then default_value <$> transmission_socket blender_material else None in
      let ior :=
        if ior_not_linked
        then default GLTF_IOR (default_value <$> ior_socket blender_material)
        else GLTF_IOR in
      let base_color := take 3 (default_value base_color_socket') in
      if no_texture blender_material then
        specular_color ← specular_color_factor specular specular_tint transmission ior
                           base_color;
        ret (Some (mkExtension "KHR_materials_specular"
                     (mkSpecularDict (Some specular_color) None) false),
             Some [])
      else
        let sockets :=
          [FloatSocket <$> specular_socket blender_material;
           FloatSocket <$> specular_tint_socket blender_material;
           ColorSocket <$> base_color_socket blender_material;
           FloatSocket <$> transmission_socket blender_material;
           FloatSocket <$> ior_socket blender_material] in
        let '(specularColorTexture, use_active_uvmap, specularColorFactor) :=
          gather_texture_info (primary_socket blender_material) sockets export_settings in
        match specularColorTexture with
        | None => ret (None, None)
        | Some texture =>
            let use_actives_uvmaps :=
              if use_active_uvmap then ["specularColorTexture"] else [] in
            ret (Some (mkExtension "KHR_materials_specular"
                         (mkSpecularDict specularColorFactor (Some texture)) false),
                 Some use_actives_uvmaps)
        end
  end.

End ExportSpecular.

End SpecularExtension.

(* ===================================================================== *)
(** * Notions used to state the properties                               *)
(* ===================================================================== *)

(** [m] stops from every state, and relates the state it started in to
    the state it stopped in, returning or raising, by [P]. *)
Definition post {A} (P : State -> State -> Prop) (m : M State A) : Prop :=
  forall s,
    match m s with
    | Ok _ s' => P s s'
    | Raise _ s' => P s s'
    | OutOfFuel => False
    end.

(** [m] never returns: it raises (or the model runs out of fuel). *)
Definition fails {St A} (m : M St A) : Prop := forall s, ~ is_ok (m s).

(** The node counter is left as it is. *)
Definition same_counter (s s' : State) : Prop :=
  display_current_node s' = display_current_node s.

(** The node counter went up by at most [n]. *)
Definition counted (n : nat) (s s' : State) : Prop :=
  display_current_node s <= display_current_node s' <= display_current_node s + Z.of_nat n.

(** The log and the mesh caches are left as they are, objects are only
    added, and the objects there keep their data. *)
Definition same_meshes (s s' : State) : Prop :=
  log s' = log s /\ blender_name s' = blender_name s /\
  forall i o, objects (bpy s) !! i = Some o ->
              exists o', objects (bpy s') !! i = Some o' /\ data o' = data o.


(** [0.4] times the length of the local translation of each of the
    nodes [ids]. *)
Definition translation_sizes (gltf : Gltf) (ids : list VNodeId) : list R :=
  omap (fun id => (fun v => (vlength (trs v).1.1 * 0.4)%R) <$> vnodes gltf !! id) ids.





(** The armatures are left as they are. *)
Definition same_armatures (s s' : State) : Prop :=
  armatures (bpy s') = armatures (bpy s).

(** Two edit bones at the same place. *)
Definition same_placement (eb eb' : EditBone) : Prop :=
  eb_head eb' = eb_head eb /\ eb_tail eb' = eb_tail eb /\ eb_roll eb' = eb_roll eb.

(** The edit bones of the armature [a] stay, each at its place. *)
Definition keeps_placement (a : nat) (s s' : State) : Prop :=
  forall arm, armatures (bpy s) !! a = Some arm ->
    exists arm', armatures (bpy s') !! a = Some arm' /\
      length (edit_bones arm') = length (edit_bones arm) /\
      forall j eb, edit_bones arm !! j = Some eb ->
        exists eb', edit_bones arm' !! j = Some eb' /\ same_placement eb eb'.

(** [c] is in the children list of the node [p]. *)
Definition child_of (gltf : Gltf) (p c : VNodeId) : Prop :=
  exists vp, vnodes gltf !! p = Some vp /\ c ∈ children vp.

(** The virtual nodes form a forest: every child is a node whose parent
    link points back, no child is listed twice, and there is no cycle
    (a height decreases along every edge). *)
Record forest (gltf : Gltf) : Prop := {
  forest_parent : forall p c, child_of gltf p c ->
                    exists vc, vnodes gltf !! c = Some vc /\ parent vc = Some p;
  forest_nodup : forall p vp, vnodes gltf !! p = Some vp -> NoDup (children vp);
  forest_acyclic : exists h : VNodeId -> nat, forall p c, child_of gltf p c -> (h c < h p)%nat }.

(** [x] is [a] or a descendant of [a]. *)
Inductive descendant (gltf : Gltf) (a : VNodeId) : VNodeId -> Prop :=
| descendant_refl : descendant gltf a a
| descendant_step y x : descendant gltf a y -> child_of gltf y x -> descendant gltf a x.

(** The subtree at [id] in depth-first pre-order, children in the order
    of the children lists; each node comes with a flag telling whether
    it and all nodes above it in this subtree are bones ([linked] says
    so for the nodes above the subtree). *)
Fixpoint preorder (fuel : nat) (gltf : Gltf) (linked : bool) (id : VNodeId)
  : list (VNodeId * bool) :=
  match fuel with
  | O => []
  | S fuel' =>
      match vnodes gltf !! id with
      | Some v =>
          let l := linked && bool_decide (type v = Bone) in
          (id, l) :: flat_map (preorder fuel' gltf l) (children v)
      | None => [(id, false)]
      end
  end.

Definition is_bone (gltf : Gltf) (id : VNodeId) : bool :=
  match vnodes gltf !! id with
  | Some v => bool_decide (type v = Bone)
  | None => false
  end.

(** The descendants of the node [arma], in pre-order. *)
Definition descendants (fuel : nat) (gltf : Gltf) (arma : VNode) : list VNodeId :=
  fst <$> flat_map (preorder fuel gltf true) (children arma).

(** Every Bone-kind descendant of [arma], in pre-order. *)
Definition bone_descendants (fuel : nat) (gltf : Gltf) (arma : VNode) : list VNodeId :=
  filter (fun id => Is_true (is_bone gltf id)) (descendants fuel gltf arma).

(** The ids of a walk that are flagged as joined to the armature. *)
Definition linked_ids (l : list (VNodeId * bool)) : list VNodeId :=
  (filter (fun x : VNodeId * bool => Is_true (snd x)) l).*1.

(** The Bone-kind descendants of [arma] joined to it by bones only, in
    pre-order. *)
Definition linked_bones (fuel : nat) (gltf : Gltf) (arma : VNode) : list VNodeId :=
  linked_ids (flat_map (preorder fuel gltf true) (children arma)).

(** Below the node [a], the parent of a bone is [a] or a bone. *)
Definition bones_joined (gltf : Gltf) (a : VNodeId) : Prop :=
  forall p c, descendant gltf a p -> child_of gltf p c ->
              is_bone gltf c -> p = a \/ is_bone gltf p.


(** The key block [kb'] has the name of [kb] and a slider range that
    contains that of [kb]; its value is within its range if that of
    [kb] was. *)
Definition widens (kb kb' : KeyBlock) : Prop :=
  kb_name kb' = kb_name kb /\
  (slider_min kb' <= slider_min kb)%R /\ (slider_max kb <= slider_max kb')%R /\
  ((slider_min kb <= kb_value kb <= slider_max kb)%R ->
   (slider_min kb' <= kb_value kb' <= slider_max kb')%R).

(** Every mesh stays, and each of its key blocks is widened. *)
Definition sliders_widen (s s' : State) : Prop :=
  forall m bm, bmeshes (bpy s) !! m = Some bm ->
    exists bm', bmeshes (bpy s') !! m = Some bm' /\
      match shape_keys bm, shape_keys bm' with
      | Some kbs, Some kbs' => Forall2 widens kbs kbs'
      | None, None => True
      | _, _ => False
      end.


(** Whenever [m] returns, [P] relates the state it started in to the
    state it returned in. *)
Definition returns {A} (P : State -> State -> Prop) (m : M State A) : Prop :=
  forall s a s', m s = Ok a s' -> P s s'.

(** The attributes [blender_object] and [blender_bone_name] of the
    virtual nodes are left as they are. *)
Definition same_handles (s s' : State) : Prop :=
  blender_object s' = blender_object s /\ blender_bone_name s' = blender_bone_name s.

(** The objects there stay, with the parent and the transform they
    have. *)
Definition keeps_parents (s s' : State) : Prop :=
  forall i o, objects (bpy s) !! i = Some o ->
    exists o', objects (bpy s') !! i = Some o' /\
      ob_parent o' = ob_parent o /\ parent_type o' = parent_type o /\
      parent_bone o' = parent_bone o.

(** The parent of the node, when it is a bone. *)
Definition bone_parent (gltf : Gltf) (vnode : VNode) : option VNode :=
  p ← parent vnode;
  parent_vnode ← vnodes gltf !! p;
  if decide (type parent_vnode = Bone) then Some parent_vnode else None.

(** The parent of the node, when it is an object. *)
Definition object_parent (gltf : Gltf) (vnode : VNode) : option VNodeId :=
  p ← parent vnode;
  parent_vnode ← vnodes gltf !! p;
  if decide (type parent_vnode = Object) then Some p else None.

(** From [s] to [s'] the object [obj] has been assigned to as [f]
    tells, and the handles and the scenes are left as they are. *)
Definition object_updated (obj : nat) (f : BObject -> BObject) (s s' : State) : Prop :=
  blender_object s' = blender_object s /\
  blender_bone_name s' = blender_bone_name s /\
  scenes (bpy s') = scenes (bpy s) /\
  objects (bpy s') !! obj = f <$> objects (bpy s) !! obj.

(** The nodes of kind Object that have a [blender_object] keep one. *)
Definition keeps_object_handles (gltf : Gltf) (s s' : State) : Prop :=
  forall x v, vnodes gltf !! x = Some v -> type v = Object ->
    is_Some (blender_object s !! x) -> is_Some (blender_object s' !! x).

(** The virtual nodes that have a [blender_bone_name] keep one. *)
Definition keeps_bone_names (s s' : State) : Prop :=
  forall x, is_Some (blender_bone_name s !! x) -> is_Some (blender_bone_name s' !! x).

(** The object [obj] stays, with pose bones of the same names. *)
Definition keeps_pose_names (obj : nat) (s s' : State) : Prop :=
  forall o, objects (bpy s) !! obj = Some o ->
    exists o', objects (bpy s') !! obj = Some o' /\
               pb_name <$> pose_bones o' = pb_name <$> pose_bones o.

(** The mode, the active object, the scene of the window and the
    scenes are left as they are. *)
Definition same_context (s s' : State) : Prop :=
  mode (bpy s') = mode (bpy s) /\ active_object (bpy s') = active_object (bpy s) /\
  window_scene (bpy s') = window_scene (bpy s) /\ scenes (bpy s') = scenes (bpy s).

(** The size of the image that [__gather_perspective] computes
    ([width], [height]) and that [__gather_orthographic] computes
    ([scene_x], [scene_y]). *)
Definition render_width (r : Cameras.RenderSettings) : R :=
  (Cameras.pixel_aspect_x r * IZR (Cameras.resolution_x r))%R.
Definition render_height (r : Cameras.RenderSettings) : R :=
  (Cameras.pixel_aspect_y r * IZR (Cameras.resolution_y r))%R.
Definition render_scene_x (r : Cameras.RenderSettings) : R :=
  (IZR (Cameras.resolution_x r) * Cameras.pixel_aspect_x r)%R.
Definition render_scene_y (r : Cameras.RenderSettings) : R :=
  (IZR (Cameras.resolution_y r) * Cameras.pixel_aspect_y r)%R.

(** The index of refraction that [export_specular] computes with: the
    value of the socket IOR when there is one and it is not linked,
    and [GLTF_IOR] otherwise. *)
Definition ior_of (GLTF_IOR : R) (ior_socket : option (SpecularExtension.NodeSocket R)) : R :=
  match ior_socket with
  | Some s =>
      if SpecularExtension.is_linked s then GLTF_IOR else SpecularExtension.default_value s
  | None => GLTF_IOR
  end.

(** A material whose sockets Specular, Specular Tint and Transmission
    are there and not linked, with the values [specular], [tint] and
    [transmission]. *)
Definition unlinked_material (specular tint transmission : R)
           (base_color : SpecularExtension.NodeSocket (list R))
           (ior_socket : option (SpecularExtension.NodeSocket R))
  : SpecularExtension.BlenderMaterial :=
  SpecularExtension.mkBlenderMaterial
    (Some (SpecularExtension.mkNodeSocket false specular))
    (Some (SpecularExtension.mkNodeSocket false tint))
    (Some base_color)
    (Some (SpecularExtension.mkNodeSocket false transmission))
    ior_socket.

(** One channel of [specular_color]: [c] is the channel of the base
    color divided by its luminance. *)
Definition specular_channel (specular tint transmission ior c : R) : R :=
  let f0_from_ior := (((ior - 1) / (ior + 1)) ^ 2)%R in
  let tint_strength := ((1 - tint) + c * tint)%R in
  ((1 - transmission) * (1 / f0_from_ior) * 0.08 * specular * tint_strength
   + transmission * tint_strength)%R.

(* ===================================================================== *)
(** * An example host and example documents                              *)
(* ===================================================================== *)

(** A host to run the importer on concrete documents.  Names are made
    unique by a numeric suffix; the [length] setter keeps the head and
    the direction of the bone; [align_roll] leaves the roll as it is;
    a mesh is created with one key block per named shape key; the
    extras of a node replace the custom properties of the target; no
    property of the add-on is registered. *)
Module SimpleHost.

Definition candidate_names (l : list string) (n : string) : list string :=
  n :: ((fun k => n +:+ "." +:+ pretty k) <$> seq 1 (length l)).

Definition unique_name (l : list string) (n : string) : string :=
  default n (head (filter (fun c => c ∉ l) (candidate_names l n))).

Definition set_length (head tail : Vector) (len : R) : Vector :=
  let delta := vsub tail head in
  let l := vlength delta in
  if Req_EM_T l 0 then vadd head (Vec 0 0 len)
  else vadd head (Vec (vx delta / l * len) (vy delta / l * len) (vz delta / l * len))%R.

Definition align_roll (head tail : Vector) (roll : R) (v : Vector) : R := roll.

Definition key_blocks_of (pymesh : PyMesh) : option (list KeyBlock) :=
  if list_truthy (shapekey_names pymesh)
  then Some (omap (fun n => (fun n => mkKeyBlock n 0 1 0) <$> n)
                  (default [] (shapekey_names pymesh)))
  else None.

Definition mesh_create (gltf : Gltf) (mi : Z) (skin : option Z) (b : Bpy)
  : (exn + string) * Bpy :=
  match getitem (meshes gltf) mi with
  | Some pymesh =>
      let n := unique_name (fst <$> map_to_list (bmeshes b))
                           (str_or (mesh_name pymesh) "Mesh") in
      (inr n, set_bmeshes (<[n := mkBMesh (key_blocks_of pymesh)]> (bmeshes b)) b)
  | None => (inl IndexError, b)
  end.

Definition camera_create (gltf : Gltf) (vnode : VNode) (cam : option Z) (b : Bpy)
  : (exn + string) * Bpy := (inr "Camera", b).

Definition light_create (gltf : Gltf) (vnode : VNode) (light : Z) (b : Bpy)
  : (exn + string) * Bpy := (inr "Light", b).

Definition copy_extras (old new : option string) : option string :=
  match new with
  | Some e => Some e
  | None => old
  end.

Definition host : BlenderHost :=
  Build_BlenderHost unique_name copy_extras set_length align_roll 0 false false
                    mesh_create camera_create light_create.

End SimpleHost.

Module Examples.

Definition identity_trs : TRS := (Vec 0 0 0, Quat 1 0 0 0, Vec 1 1 1).

Definition identity_matrix : Matrix :=
  Mat 1 0 0 0  0 1 0 0  0 0 1 0  0 0 0 1.

(** A glTF node with no reference, and one with a mesh and a skin. *)
Definition plain_node : PyNode := mkPyNode None None None None (Some false) None None.

Definition mesh_node (m : Z) (skin : option Z) : PyNode :=
  mkPyNode (Some m) skin None None (Some false) None None.

(** A virtual node of kind Object with the identity transform. *)
Definition object_vnode (n : string) (cs : list VNodeId) (p : option VNodeId)
           (m : option Z) : VNode :=
  mkVNode (Some n) "Node" Object cs p false "Armature" None m None None
          identity_trs (Vec 0 0 0) (Quat 1 0 0 0) identity_matrix 0.

Definition arma_vnode (n : string) (cs : list VNodeId) (p : option VNodeId) : VNode :=
  mkVNode (Some n) "Node" Object cs p true "Armature" None None None None
          identity_trs (Vec 0 0 0) (Quat 1 0 0 0) identity_matrix 0.

Definition bone_vnode (n : string) (cs : list VNodeId) (p : option VNodeId)
           (arma : VNodeId) (t : TRS) (et : Vector) (er : Quaternion) (m : Matrix)
           (len : R) : VNode :=
  mkVNode (Some n) "Bone" Bone cs p false "Armature" (Some arma) None None None
          t et er m len.

Definition plain_mesh (n : string) : PyMesh := mkPyMesh (Some n) None None.

Definition scene : string := "Scene".

(** The host before the import: one empty scene, object mode. *)
Definition initial_state : State :=
  mkState 0 [] ∅ ∅ ∅ (mkBpy [] [] ∅ {[ scene := [] ]} MODE_OBJECT None None).

(** Two meshes, one skin; node 1 refers to mesh 99, node 2 to mesh 0
    and to skin 3, node 3 to nothing. *)
Definition invalid_refs : Gltf :=
  mkGltf [plain_node; mesh_node 99 None; mesh_node 0 (Some 3); plain_node]
         [plain_mesh "Cube"; plain_mesh "Sphere"]
         [mkPySkin [3]]
         (list_to_map
            [(NodeIdx 0, object_vnode "Root" [NodeIdx 1; NodeIdx 2; NodeIdx 3] None None);
             (NodeIdx 1, object_vnode "A" [] (Some (NodeIdx 0)) (Some 1));
             (NodeIdx 2, object_vnode "B" [] (Some (NodeIdx 0)) (Some 2));
             (NodeIdx 3, object_vnode "C" [] (Some (NodeIdx 0)) None)])
         scene.

(** Node 1 refers to mesh 0 and to skin 0, whose joint list is empty;
    node 2 is unrelated. *)
Definition empty_joints : Gltf :=
  mkGltf [plain_node; mesh_node 0 (Some 0); plain_node]
         [plain_mesh "Cube"]
         [mkPySkin []]
         (list_to_map
            [(NodeIdx 0, object_vnode "Root" [NodeIdx 1; NodeIdx 2] None None);
             (NodeIdx 1, object_vnode "Skinned" [] (Some (NodeIdx 0)) (Some 1));
             (NodeIdx 2, object_vnode "Other" [] (Some (NodeIdx 0)) None)])
         scene.

(** An armature (node 0) above an object (node 1) above a bone (node 2). *)
Definition bone_below_object : Gltf :=
  mkGltf [plain_node; plain_node; plain_node] [] []
         (list_to_map
            [(NodeIdx 0, arma_vnode "Armature" [NodeIdx 1] None);
             (NodeIdx 1, object_vnode "Holder" [NodeIdx 2] (Some (NodeIdx 0)) None);
             (NodeIdx 2, bone_vnode "Joint" [] (Some (NodeIdx 1)) (NodeIdx 0)
                           identity_trs (Vec 0 0 0) (Quat 1 0 0 0) identity_matrix 1)])
         scene.

(** An armature (node 0) with a chain of two bones (nodes 1 and 2);
    the rest rotation of node 1 is the half turn about the X axis. *)
Definition upper_bone : VNode :=
  bone_vnode "Upper" [NodeIdx 2] (Some (NodeIdx 0)) (NodeIdx 0)
             (Vec 1 2 3, Quat 1 0 0 0, Vec 1 1 1) (Vec 1 0 0) (Quat 0 1 0 0)
             (Mat 1 0 0 1  0 (-1) 0 0  0 0 (-1) 0  0 0 0 1) 1.

Definition lower_bone : VNode :=
  bone_vnode "Lower" [] (Some (NodeIdx 1)) (NodeIdx 0)
             identity_trs (Vec 0 0 0) (Quat 1 0 0 0) identity_matrix 1.

Definition skeleton_root : VNode := arma_vnode "Skeleton" [NodeIdx 1] None.

Definition skeleton : Gltf :=
  mkGltf [plain_node; plain_node; plain_node] [] []
         (list_to_map
            [(NodeIdx 0, skeleton_root); (NodeIdx 1, upper_bone); (NodeIdx 2, lower_bone)])
         scene.

Definition skeleton_height (id : VNodeId) : nat :=
  match id with
  | NodeIdx 0 => 2
  | NodeIdx 1 => 1
  | _ => 0
  end.

(** Two root nodes under a synthesized root. *)
Definition dummy_root : VNode :=
  mkVNode None "Root" DummyRoot [NodeIdx 0; NodeIdx 1] None false "Armature" None
          None None None identity_trs (Vec 0 0 0) (Quat 1 0 0 0) identity_matrix 0.

Definition two_roots : Gltf :=
  mkGltf [plain_node; plain_node] [] []
         (list_to_map
            [(Synthetic "root", dummy_root);
             (NodeIdx 0, object_vnode "Left" [] (Some (Synthetic "root")) None);
             (NodeIdx 1, object_vnode "Right" [] (Some (Synthetic "root")) None)])
         scene.

Definition two_roots_height (id : VNodeId) : nat :=
  match id with
  | Synthetic _ => 1
  | _ => 0
  end.



(** The host after [create_object] has made the armature object of
    the root of [skeleton]. *)
Definition skeleton_state : State :=
  mkState 1 [] {[ NodeIdx 0 := 0%nat ]} ∅ ∅
          (mkBpy [default_object "Skeleton" (Some (ArmatureData 0))]
                 [mkBArmature "Armature" []] ∅ {[ scene := [0%nat] ]}
                 MODE_OBJECT None None).

End Examples.

(** Cameras, lamps and materials to run the exporters on. *)
Module ExporterExamples.
Local Open Scope R_scope.

(** An image of 1920 by 1080 square pixels, and one of height zero. *)
Definition full_hd : Cameras.RenderSettings := Cameras.mkRenderSettings 1920 1080 1 1.
Definition flat_image : Cameras.RenderSettings := Cameras.mkRenderSettings 1920 0 1 1.
Definition empty_image : Cameras.RenderSettings := Cameras.mkRenderSettings 0 0 1 1.

Definition persp_camera : Cameras.BlenderCamera :=
  Cameras.mkBlenderCamera "Camera" "PERSP" 6 0.1 100 "AUTO" 1.

Definition ortho_camera : Cameras.BlenderCamera :=
  Cameras.mkBlenderCamera "Ortho" "ORTHO" 6 0.1 100 "AUTO" 1.

Definition settings : ExportSettings := mkExportSettings false "SPEC".

(** A point lamp whose active output has an emission node, with a
    quadratic falloff node at its strength. *)
Definition emission : Lights.EmissionNode := Lights.mkEmissionNode [1; 1; 1; 1] 100 [50].

Definition point_lamp : Lights.BlenderLamp :=
  Lights.mkBlenderLamp "Point" "POINT" [1; 1; 1] 1000 false 40 true
    (Some [Lights.mkTreeNode true false []; Lights.mkTreeNode true true [emission]]).

(** A white and a black base color, not linked. *)
Definition white : SpecularExtension.NodeSocket (list R) :=
  SpecularExtension.mkNodeSocket false [1; 1; 1; 1].



Definition no_texture_info (primary : option SpecularExtension.socket)
           (sockets : list (option SpecularExtension.socket)) (s : ExportSettings)
  : option unit * bool * option (list R) := (None, false, None).

End ExporterExamples.

(** More documents to run the importer on. *)
Module MoreExamples.
Import Examples.


(** A mesh with one shape key, a node with one weight for it and a
    node with two. *)
Definition smile : PyMesh := mkPyMesh (Some "Face") (Some [Some "Smile"]) None.

Definition one_weight : PyNode :=
  mkPyNode (Some 0) None None (Some [2%R]) (Some false) None None.

Definition two_weights : PyNode :=
  mkPyNode (Some 0) None None (Some [1%R; 2%R]) (Some false) None None.

Definition face : Gltf :=
  mkGltf [one_weight; two_weights] [smile] []
         (list_to_map
            [(NodeIdx 0, object_vnode "Face" [] None (Some 0));
             (NodeIdx 1, object_vnode "Mask" [] None (Some 1))])
         scene.


End MoreExamples.

(* ===================================================================== *)
(** * Properties                                                         *)
(* ===================================================================== *)

(** ** Quaternions and the pose of a bone *)

Section PoseTransform.
Local Open Scope R_scope.

Lemma vec_eq (a b : Vector) :
  vx a = vx b -> vy a = vy b -> vz a = vz b -> a = b.
Proof. destruct a, b; simpl; intros; subst; reflexivity. Qed.







(** The rotation of a product is the composition of the rotations:
    [rest_compose] is the composition of the two transforms. *)
Lemma qrot_qmul (a b : Quaternion) (v : Vector) :
  qrot (qmul a b) v = qrot a (qrot b v).
Proof. apply vec_eq; simpl; ring. Qed.

Lemma qrot_vadd (q : Quaternion) (a b : Vector) :
  qrot q (vadd a b) = vadd (qrot q a) (qrot q b).
Proof. apply vec_eq; simpl; ring. Qed.

Lemma rest_compose_apply (et : Vector) (er : Quaternion) (pose : TRS) (p : Vector) :
  trs_apply (rest_compose et er pose) p = rest_apply et er (trs_apply pose p).
Proof.
  destruct pose as [[pt pr] ps]. unfold rest_apply. simpl trs_apply.
  rewrite qrot_qmul, qrot_vadd. apply vec_eq; simpl; ring.
Qed.





End PoseTransform.

(** ** The normalization of the base color *)

Section SpecularFacts.
Import Specular.
Local Open Scope R_scope.

Lemma py_div_ok (x y : R) : y <> 0 -> py_div x y tt = Ok (x / y) tt.
Proof. intros Hy. unfold py_div. destruct (Req_EM_T y 0); [contradiction|reflexivity]. Qed.

(** C9.  [normalize] divides the channels by the luminance
    [0.3*r + 0.6*g + 0.1*b] only when it is not zero and returns the
    color unchanged when it is zero: for no color does it raise
    [ZeroDivisionError]. *)
Theorem normalize_never_divides_by_zero :
  (forall c, normalize c tt <> Raise ZeroDivisionError tt) /\
  (forall c0 c1 c2,
     normalize [c0; c1; c2] tt =
     Ok (if Req_EM_T (luminance c0 c1 c2) 0 then [c0; c1; c2]
         else [c0 / luminance c0 c1 c2; c1 / luminance c0 c1 c2;
               c2 / luminance c0 c1 c2]) tt).
Proof.
  assert (H3 : forall c0 c1 c2,
     normalize [c0; c1; c2] tt =
     Ok (if Req_EM_T (luminance c0 c1 c2) 0 then [c0; c1; c2]
         else [c0 / luminance c0 c1 c2; c1 / luminance c0 c1 c2;
               c2 / luminance c0 c1 c2]) tt).
  { intros c0 c1 c2. unfold normalize.
    destruct (Req_EM_T (luminance c0 c1 c2) 0) as [Hl|Hl]; [reflexivity|].
    unfold mbind, M_bind, bind. rewrite !py_div_ok by assumption. reflexivity. }
  split; [|exact H3].
  intros c.
  destruct c as [|c0 [|c1 [|c2 [|c3 c]]]]; try discriminate.
  rewrite H3. discriminate.
Qed.

End SpecularFacts.

(** ** Computations: what holds of a state after each step *)

Section PostFacts.
Context (P : State -> State -> Prop) `{!PreOrder P}.

Lemma post_ret {A} (a : A) : post P (ret a).
Proof. intros s. simpl. reflexivity. Qed.

Lemma post_mret {A} (a : A) : post P (mret a).
Proof. apply post_ret. Qed.

Lemma post_raise {A} (e : exn) : post P (raise e : M State A).
Proof. intros s. simpl. reflexivity. Qed.

Lemma post_get : post P get.
Proof. intros s. simpl. reflexivity. Qed.

Lemma post_from_option {A} (e : exn) (o : option A) : post P (from_option e o).
Proof. destruct o; [apply post_ret|apply post_raise]. Qed.

Lemma post_modify (f : State -> State) : (forall s, P s (f s)) -> post P (modify f).
Proof. intros Hf s. simpl. apply Hf. Qed.

Lemma post_bind {A B} (m : M State A) (k : A -> M State B) :
  post P m -> (forall a, post P (k a)) -> post P (m ≫= k).
Proof.
  intros Hm Hk s. unfold mbind, M_bind, bind.
  specialize (Hm s). destruct (m s) as [a s1|e s1|]; [|assumption|assumption].
  specialize (Hk a s1). destruct (k a s1); [| |assumption]; etrans; eassumption.
Qed.

Lemma post_bind_from_option {A B} (e : exn) (o : option A) (k : A -> M State B) :
  (forall a, o = Some a -> post P (k a)) -> post P (from_option e o ≫= k).
Proof.
  intros Hk s. unfold mbind, M_bind, bind. destruct o as [a|]; simpl.
  - apply (Hk a eq_refl).
  - reflexivity.
Qed.

Lemma post_for_each {A} (l : list A) (body : A -> M State unit) :
  (forall x, x ∈ l -> post P (body x)) -> post P (for_each l body).
Proof.
  induction l as [|x l IH]; intros Hb; simpl.
  - apply post_ret.
  - apply (post_bind (body x)).
    + apply Hb. left.
    + intros _. apply IH. intros y Hy. apply Hb. right. exact Hy.
Qed.

End PostFacts.

(** One step of a proof that a computation satisfies [post P]. *)
Ltac post_step :=
  lazymatch goal with
  | |- post _ (_ ≫= _) => apply post_bind; [typeclasses eauto| |intros ?]
  | |- post _ (ret _) => apply post_ret; typeclasses eauto
  | |- post _ (mret _) => apply post_mret; typeclasses eauto
  | |- post _ (raise _) => apply post_raise; typeclasses eauto
  | |- post _ get => apply post_get; typeclasses eauto
  | |- post _ (from_option _ _) => apply post_from_option; typeclasses eauto
  | |- post _ (match ?x with _ => _ end) => destruct x
  end.

#[global] Instance same_counter_preorder : PreOrder same_counter.
Proof.
  split.
  - intros s. reflexivity.
  - intros s1 s2 s3 H1 H2. unfold same_counter in *. congruence.
Qed.

#[global] Instance same_meshes_preorder : PreOrder same_meshes.
Proof.
  split.
  - intros s. unfold same_meshes. split_and!; [done..|]. eauto.
  - intros s1 s2 s3 (Hl1 & Hn1 & Ho1) (Hl2 & Hn2 & Ho2).
    unfold same_meshes. split_and!; [congruence..|].
    intros i o Hi. destruct (Ho1 i o Hi) as (o1 & Hi1 & Hd1).
    destruct (Ho2 i o1 Hi1) as (o2 & Hi2 & Hd2).
    exists o2. split; [assumption|congruence].
Qed.

Section CounterFacts.
Context `{host : BlenderHost}.

Lemma counter_modify_bpy (f : Bpy -> Bpy) : post same_counter (modify_bpy f).
Proof. apply post_modify. intros s. reflexivity. Qed.

Lemma counter_lift_host {A} (f : Bpy -> (exn + A) * Bpy) :
  post same_counter (lift_host f).
Proof.
  intros s. unfold lift_host. destruct (f (bpy s)) as [[e|a] b]; reflexivity.
Qed.

Lemma counter_update_object (obj : nat) (f : BObject -> BObject) :
  post same_counter (update_object obj f).
Proof. apply counter_modify_bpy. Qed.

Lemma counter_objects_new (n : string) (d : option ob_data) :
  post same_counter (objects_new n d).
Proof. unfold objects_new. repeat post_step; apply counter_modify_bpy. Qed.

End CounterFacts.

(** A proof that a computation leaves the node counter alone, from the
    same fact for the computations it is made of. *)
Ltac counter :=
  repeat first
    [ assumption
    | post_step
    | apply counter_modify_bpy
    | apply counter_lift_host
    | apply counter_update_object
    | apply counter_objects_new
    | apply post_modify; intros ?; reflexivity
    | apply post_for_each; [typeclasses eauto|intros ? ?] ].

Section CounterFacts2.
Context `{host : BlenderHost}.

Lemma counter_armatures_new (n : string) : post same_counter (armatures_new n).
Proof. unfold armatures_new. counter. Qed.

Lemma counter_mode_set (m : mode_t) : post same_counter (mode_set m).
Proof. unfold mode_set. counter. Qed.

Lemma counter_lookup_vnode gltf id : post same_counter (lookup_vnode gltf id).
Proof. unfold lookup_vnode. counter. Qed.

Lemma counter_lookup_node gltf i : post same_counter (lookup_node gltf i).
Proof. unfold lookup_node. counter. Qed.

Lemma counter_node_extras gltf id old : post same_counter (node_extras gltf id old).
Proof. unfold node_extras, lookup_node. counter. Qed.

Lemma counter_display_sizes gltf vids sizes :
  post same_counter (display_sizes gltf vids sizes).
Proof.
  revert sizes. induction vids as [|vid vids IH]; intros sizes; simpl.
  - counter.
  - unfold lookup_vnode. counter. apply IH.
Qed.

Lemma counter_calc_empty_display_size gltf id :
  post same_counter (calc_empty_display_size gltf id).
Proof.
  unfold calc_empty_display_size, lookup_vnode. counter.
  apply counter_display_sizes.
Qed.

Lemma counter_set_morph_weights gltf pynode obj :
  post same_counter (set_morph_weights gltf pynode obj).
Proof.
  unfold set_morph_weights, lookup_mesh. counter.
  all: unfold set_morph_weight; counter.
  all: unfold lookup_key_block, store_key_block; counter.
Qed.

Lemma counter_setup_skinning gltf pynode obj :
  post same_counter (setup_skinning gltf pynode obj).
Proof. unfold setup_skinning, lookup_vnode. counter. Qed.

Lemma counter_create_mesh_object gltf vnode :
  post same_counter (create_mesh_object gltf vnode).
Proof.
  unfold create_mesh_object, lookup_node. counter.
  - apply counter_set_morph_weights.
  - apply counter_setup_skinning.
Qed.

Lemma counter_create_object gltf id : post same_counter (create_object gltf id).
Proof.
  unfold create_object, lookup_vnode, lookup_node, light_of, scene_link.
  counter;
    first [ apply counter_create_mesh_object | apply counter_armatures_new
          | apply counter_calc_empty_display_size | apply counter_node_extras ].
Qed.

End CounterFacts2.

(** ** The forest of virtual nodes *)

Section ForestFacts.
Context (gltf : Gltf) (h : VNodeId -> nat).
Hypothesis h_decreases : forall p c, child_of gltf p c -> (h c < h p)%nat.
Hypothesis parent_link :
  forall p c, child_of gltf p c ->
    exists vc, vnodes gltf !! c = Some vc /\ parent vc = Some p.
Hypothesis children_nodup :
  forall p vp, vnodes gltf !! p = Some vp -> NoDup (children vp).

Lemma descendant_height a x : descendant gltf a x -> (h x <= h a)%nat.
Proof.
  induction 1 as [|y x _ IH Hc]; [lia|].
  apply h_decreases in Hc. lia.
Qed.

Lemma child_descendant a c x :
  child_of gltf a c -> descendant gltf c x -> descendant gltf a x.
Proof.
  intros Hc. induction 1 as [|y x _ IH Hyx].
  - eapply descendant_step; [apply descendant_refl|exact Hc].
  - eapply descendant_step; [exact IH|exact Hyx].
Qed.

Lemma parent_unique p1 p2 c : child_of gltf p1 c -> child_of gltf p2 c -> p1 = p2.
Proof.
  intros H1 H2.
  destruct (parent_link _ _ H1) as (v1 & Hv1 & Hp1).
  destruct (parent_link _ _ H2) as (v2 & Hv2 & Hp2).
  congruence.
Qed.

(** Two nodes above the same node are one above the other. *)
Lemma descendant_linear a b x :
  descendant gltf a x -> descendant gltf b x ->
  descendant gltf a b \/ descendant gltf b a.
Proof.
  intros Ha. revert b. induction Ha as [|y x Hay IH Hyx]; intros b Hb.
  - right. exact Hb.
  - inversion Hb as [|y' x' Hby Hy'x]; subst.
    + left. eapply descendant_step; eassumption.
    + assert (y' = y) by (eapply parent_unique; eassumption). subst y'.
      apply IH, Hby.
Qed.

(** The subtrees of two children of a node share no node. *)
Lemma sibling_subtrees_disjoint p c1 c2 x :
  child_of gltf p c1 -> child_of gltf p c2 ->
  descendant gltf c1 x -> descendant gltf c2 x -> c1 = c2.
Proof.
  assert (Hone : forall c c', child_of gltf p c -> child_of gltf p c' ->
                              descendant gltf c c' -> c = c').
  { intros c c' Hc Hc' Hd.
    inversion Hd as [|y x' Hcy Hyc']; subst; [reflexivity|].
    assert (y = p) by (eapply parent_unique; eassumption). subst y.
    apply descendant_height in Hcy. apply h_decreases in Hc. lia. }
  intros Hc1 Hc2 H1 H2.
  destruct (descendant_linear _ _ _ H1 H2) as [Hd|Hd].
  - apply Hone; assumption.
  - symmetry. apply Hone; assumption.
Qed.

Lemma NoDup_flat_map {A B} (f : A -> list B) (l : list A) :
  NoDup l ->
  (forall a, a ∈ l -> NoDup (f a)) ->
  (forall a1 a2 b, a1 ∈ l -> a2 ∈ l -> b ∈ f a1 -> b ∈ f a2 -> a1 = a2) ->
  NoDup (flat_map f l).
Proof.
  induction 1 as [|a l Hnotin Hnd IH]; intros Hf Hdisj; simpl.
  - constructor.
  - apply NoDup_app. split_and!.
    + apply Hf. left.
    + intros b Hb Hb'. apply list_elem_of_In, in_flat_map in Hb'.
      destruct Hb' as (a' & Ha' & Hb'). apply list_elem_of_In in Ha', Hb'.
      assert (a = a') by (eapply Hdisj; [left|right; eassumption|eassumption..]).
      subst a'. contradiction.
    + apply IH.
      * intros a' Ha'. apply Hf. right. exact Ha'.
      * intros a1 a2 b H1 H2. apply Hdisj; right; assumption.
Qed.

Lemma elem_of_flat_map {A B} (f : A -> list B) (l : list A) (b : B) :
  b ∈ flat_map f l <-> exists a, a ∈ l /\ b ∈ f a.
Proof.
  rewrite list_elem_of_In, in_flat_map.
  split; intros (a & Ha & Hb); exists a; rewrite ?list_elem_of_In in *; auto.
Qed.

Lemma fmap_flat_map {A B C} (g : B -> C) (f : A -> list B) (l : list A) :
  g <$> flat_map f l = flat_map (fun a => g <$> f a) l.
Proof.
  induction l as [|a l IH]; simpl; [reflexivity|].
  rewrite fmap_app, IH. reflexivity.
Qed.

(** The nodes of the pre-order walk from an existing node are nodes of
    the forest below it, each listed once. *)
Lemma preorder_subtree fuel linked id :
  is_Some (vnodes gltf !! id) ->
  (forall x, x ∈ (preorder fuel gltf linked id).*1 ->
             descendant gltf id x /\ is_Some (vnodes gltf !! x)) /\
  NoDup (preorder fuel gltf linked id).*1.
Proof.
  revert linked id. induction fuel as [|fuel IH]; intros linked id [v Hv]; simpl.
  - split; [intros x Hx; inversion Hx|constructor].
  - rewrite Hv. simpl.
    set (l := linked && bool_decide (type v = Bone)).
    rewrite fmap_flat_map.
    assert (Hch : forall c, c ∈ children v ->
              child_of gltf id c /\ is_Some (vnodes gltf !! c)).
    { intros c Hc. assert (Hcc : child_of gltf id c) by (exists v; auto).
      split; [exact Hcc|]. destruct (parent_link _ _ Hcc) as (vc & Hvc & _). eauto. }
    assert (Hin : forall x,
              x ∈ flat_map (fun c => (preorder fuel gltf l c).*1) (children v) ->
              exists c, child_of gltf id c /\ descendant gltf c x /\
                        is_Some (vnodes gltf !! x)).
    { intros x Hx. apply elem_of_flat_map in Hx as (c & Hc & Hx).
      destruct (Hch c Hc) as [Hcc Hsome].
      destruct (IH l c Hsome) as [Hsub _]. destruct (Hsub x Hx) as [Hd Hs].
      eauto. }
    split.
    + intros x Hx. apply elem_of_cons in Hx as [->|Hx].
      * split; [apply descendant_refl|eauto].
      * destruct (Hin x Hx) as (c & Hcc & Hd & Hs).
        split; [eapply child_descendant; eassumption|exact Hs].
    + apply NoDup_cons. split.
      * intros Hx. destruct (Hin id Hx) as (c & Hcc & Hd & _).
        apply descendant_height in Hd. apply h_decreases in Hcc. lia.
      * apply NoDup_flat_map.
        -- eapply children_nodup, Hv.
        -- intros c Hc. destruct (Hch c Hc) as [_ Hsome].
           apply (IH l c Hsome).
        -- intros c1 c2 x Hc1 Hc2 Hx1 Hx2.
           destruct (Hch c1 Hc1) as [Hcc1 Hs1]. destruct (Hch c2 Hc2) as [Hcc2 Hs2].
           destruct (IH l c1 Hs1) as [Hsub1 _]. destruct (IH l c2 Hs2) as [Hsub2 _].
           eapply sibling_subtrees_disjoint;
             [exact Hcc1|exact Hcc2|apply Hsub1, Hx1|apply Hsub2, Hx2].
Qed.

(** So the walk lists no more nodes than there are. *)
Lemma preorder_length fuel linked id :
  (length (preorder fuel gltf linked id) <= S (size (vnodes gltf)))%nat /\
  (is_Some (vnodes gltf !! id) ->
   (length (preorder fuel gltf linked id) <= size (vnodes gltf))%nat).
Proof.
  assert (Hsome : is_Some (vnodes gltf !! id) ->
            (length (preorder fuel gltf linked id) <= size (vnodes gltf))%nat).
  { intros Hid. destruct (preorder_subtree fuel linked id Hid) as [Hsub Hnd].
    rewrite <- (length_fmap fst).
    rewrite <- (size_dom (D := gset VNodeId)).
    rewrite <- (size_list_to_set (C := gset VNodeId)) by exact Hnd.
    apply subseteq_size. intros x Hx. apply elem_of_list_to_set in Hx.
    apply elem_of_dom. apply Hsub, Hx. }
  split; [|exact Hsome].
  destruct (vnodes gltf !! id) as [v|] eqn:Hv.
  - etrans; [apply Hsome; eauto|lia].
  - destruct fuel; simpl; [lia|]. rewrite Hv. simpl. lia.
Qed.

End ForestFacts.

(** ** The walk of create_vnode stops, and counts each node once *)

Section Termination.
Context `{host : BlenderHost} (gltf : Gltf) (h : VNodeId -> nat).
Hypothesis h_decreases : forall p c, child_of gltf p c -> (h c < h p)%nat.

Lemma for_each_terminated {St A} (l : list A) (body : A -> M St unit) (s : St) :
  (forall x s, x ∈ l -> terminated (body x s)) -> terminated (for_each l body s).
Proof.
  revert s. induction l as [|x l IH]; intros s Hb; simpl; [exact I|].
  unfold bind. pose proof (Hb x s (list_elem_of_here _ _)) as Hx.
  destruct (body x s) as [[] s1|e s1|]; [|exact I|exact Hx].
  apply IH. intros y s' Hy. apply Hb. right. exact Hy.
Qed.

Lemma visit_terminated fuel id bone_ids :
  (h id < fuel)%nat -> terminated (visit fuel gltf id bone_ids).
Proof.
  revert id bone_ids. induction fuel as [|fuel IH]; intros id bone_ids Hlt; [lia|].
  simpl. unfold mbind, M_bind, bind.
  destruct (vnodes gltf !! id) as [v|] eqn:Hv; simpl; [|exact I].
  destruct (decide (type v = Bone)); simpl; [|exact I].
  apply for_each_terminated. intros c s Hc. apply IH.
  assert (child_of gltf id c) as Hcc by (exists v; auto).
  apply h_decreases in Hcc. lia.
Qed.

Lemma counter_find_bones fuel id arma :
  vnodes gltf !! id = Some arma -> (h id <= fuel)%nat ->
  post same_counter (find_bones fuel gltf arma).
Proof.
  intros Hv Hle s. unfold find_bones.
  assert (Ht : terminated (for_each (children arma) (visit fuel gltf) [])).
  { apply for_each_terminated. intros c s' Hc. apply visit_terminated.
    assert (child_of gltf id c) as Hcc by (exists arma; auto).
    apply h_decreases in Hcc. lia. }
  destruct (for_each (children arma) (visit fuel gltf) []); [reflexivity..|exact Ht].
Qed.

Lemma counter_create_bones fuel id :
  (h id <= fuel)%nat -> post same_counter (create_bones fuel gltf id).
Proof.
  intros Hle. unfold create_bones, lookup_vnode.
  apply post_bind_from_option; [typeclasses eauto|]. intros arma Hv.
  counter; try apply counter_mode_set.
  - eapply counter_find_bones; eassumption.
  - unfold create_edit_bone, lookup_vnode, armature_of, update_edit_bone.
    counter. apply counter_node_extras.
  - unfold set_bone_parent, lookup_vnode, lookup_vnode_opt, lookup_vnode, armature_of,
      edit_bone_named, update_edit_bone.
    counter.
  - unfold set_pose_bone, lookup_vnode, armature_of, update_pose_bone.
    counter. apply counter_node_extras.
Qed.

Lemma counted_of_same {A} (m : M State A) n : post same_counter m -> post (counted n) m.
Proof.
  intros Hm s. specialize (Hm s). unfold same_counter, counted in *.
  destruct (m s); [lia..|assumption].
Qed.

Lemma counted_bind {A B} (m : M State A) (k : A -> M State B) n1 n2 :
  post (counted n1) m -> (forall a, post (counted n2) (k a)) ->
  post (counted (n1 + n2)) (m ≫= k).
Proof.
  intros Hm Hk s. unfold mbind, M_bind, bind.
  specialize (Hm s). unfold counted in *.
  destruct (m s) as [a s1|e s1|]; [|lia|assumption].
  specialize (Hk a s1). destruct (k a s1); [lia..|assumption].
Qed.

Lemma counted_for_each {A B} (g : A -> list B) (l : list A) (body : A -> M State unit) :
  (forall x, x ∈ l -> post (counted (length (g x))) (body x)) ->
  post (counted (length (flat_map g l))) (for_each l body).
Proof.
  induction l as [|x l IH]; intros Hb; simpl.
  - apply counted_of_same, post_ret. typeclasses eauto.
  - rewrite length_app. apply (counted_bind (body x)).
    + apply Hb. left.
    + intros _. apply IH. intros y Hy. apply Hb. right. exact Hy.
Qed.

Lemma post_ret_bind {A B} (P : State -> State -> Prop) (a : A) (k : A -> M State B) :
  post P (k a) -> post P (ret a ≫= k).
Proof. intros Hk s. apply Hk. Qed.

(** With more fuel than the height of the node, [create_vnode] stops
    and has counted no more nodes than the pre-order walk lists. *)
Lemma create_vnode_counted fuel linked id :
  (h id < fuel)%nat ->
  post (counted (length (preorder fuel gltf linked id))) (create_vnode fuel gltf id).
Proof.
  revert linked id. induction fuel as [|fuel IH]; intros linked id Hlt; [lia|].
  simpl. unfold lookup_vnode.
  destruct (vnodes gltf !! id) as [v|] eqn:Hv; simpl.
  - apply post_ret_bind.
    set (l := linked && bool_decide (type v = Bone)).
    set (n := length (flat_map (preorder fuel gltf l) (children v))).
    change (S n) with (1 + (0 + (0 + n)))%nat.
    apply counted_bind.
    { intros s. simpl. unfold counted. simpl. lia. }
    intros _. apply counted_bind.
    { apply counted_of_same. counter. }
    intros _. apply counted_bind.
    { apply counted_of_same. unfold lookup_node. counter.
      - apply counter_create_object.
      - apply counter_create_bones. lia. }
    intros _. apply counted_for_each.
    intros c Hc. apply IH.
    assert (child_of gltf id c) as Hcc by (exists v; auto).
    apply h_decreases in Hcc. lia.
  - intros s. simpl. unfold counted. simpl. lia.
Qed.

End Termination.

Section TerminationTheorem.
Context `{host : BlenderHost}.

(** C7.  On a forest of virtual nodes (every child is a node whose
    parent link points back, no child is listed twice, no cycle),
    [create_vnode] started at any id stops, by returning or by
    raising, as soon as the recursion budget of the model exceeds the
    height of the node; and whenever it stops it has entered at most
    as many nodes as there are virtual nodes ([display_current_node],
    incremented once per call, has grown by at most
    [len(gltf.vnodes)]). *)
Theorem create_vnode_terminates (gltf : Gltf) (id : VNodeId) (s : State) :
  forest gltf ->
  exists n, forall fuel, (n <= fuel)%nat ->
    terminated (create_vnode fuel gltf id s) /\
    forall s', final_state (create_vnode fuel gltf id s) = Some s' ->
      display_current_node s <= display_current_node s' <=
      display_current_node s + Z.of_nat (size (vnodes gltf)).
Proof.
  intros [Hparent Hnodup [h Hh]].
  exists (S (h id)). intros fuel Hfuel.
  pose proof (create_vnode_counted gltf h Hh fuel true id ltac:(lia) s) as Hpost.
  destruct (vnodes gltf !! id) as [v|] eqn:Hv.
  - pose proof (preorder_length gltf h Hh Hparent Hnodup fuel true id) as [_ Hlen].
    specialize (Hlen ltac:(eauto)). unfold counted in Hpost.
    destruct (create_vnode fuel gltf id s) as [[] s1|e s1|]; simpl;
      [|  |contradiction]; (split; [exact I|]); intros s' [= <-]; lia.
  - destruct fuel as [|fuel]; [lia|].
    simpl. unfold lookup_vnode. rewrite Hv. simpl.
    split; [exact I|]. intros s' [= <-]. lia.
Qed.

End TerminationTheorem.

(** ** The display size of an empty *)

Section DisplaySize.
Context `{host : BlenderHost}.
Local Open Scope R_scope.




Lemma py_max2_Rmax (a b : R) : py_max2 a b = Rmax b a.
Proof.
  unfold py_max2, Rmax. destruct (Rlt_dec a b), (Rle_dec b a); lra.
Qed.


End DisplaySize.

(** ** Nodes that get no object of their own *)

Section NoObject.
Context `{host : BlenderHost}.

(** C5.  For a virtual node of kind DummyRoot, [create_vnode] sets
    [blender_object] to [None] and leaves the data of the host as it
    is (no object is created for the node), and then visits the
    children in order; a node of kind Bone likewise gets no object in
    [create_vnode] (its [blender_object] is not even assigned) and
    its children are visited. *)
Theorem create_vnode_no_object fuel gltf id vnode s :
  vnodes gltf !! id = Some vnode ->
  type vnode = DummyRoot \/ type vnode = Bone ->
  exists s1,
    bpy s1 = bpy s /\
    display_current_node s1 = display_current_node s + 1 /\
    (type vnode = DummyRoot ->
       blender_object s1 !! id = None /\
       blender_object s1 = delete id (blender_object s)) /\
    (type vnode = Bone -> blender_object s1 = blender_object s) /\
    create_vnode (S fuel) gltf id s =
      for_each (children vnode) (create_vnode fuel gltf) s1.
Proof.
  intros Hv Htype. simpl. unfold lookup_vnode. rewrite Hv.
  cbv [mbind M_bind bind from_option ret modify].
  destruct (bool_decide (app_debug_value = 101)).
  - destruct Htype as [Ht|Ht]; rewrite Ht; eexists; (split_and!; [| | | |reflexivity]);
      simpl; try reflexivity; try (intros; congruence).
    intros _. split; [apply lookup_delete_eq|reflexivity].
  - destruct Htype as [Ht|Ht]; rewrite Ht; eexists; (split_and!; [| | | |reflexivity]);
      simpl; try reflexivity; try (intros; congruence).
    intros _. split; [apply lookup_delete_eq|reflexivity].
Qed.

End NoObject.

(** ** Edit bones *)

Section EditBones.
Context `{host : BlenderHost}.
Local Open Scope R_scope.





End EditBones.

(** ** The bones found for an armature *)

Section FindBones.
Context `{host : BlenderHost} (gltf : Gltf) (h : VNodeId -> nat).
Hypothesis h_decreases : forall p c, child_of gltf p c -> (h c < h p)%nat.
Hypothesis children_exist :
  forall p c, child_of gltf p c -> is_Some (vnodes gltf !! c).

Lemma linked_ids_app l1 l2 : linked_ids (l1 ++ l2) = linked_ids l1 ++ linked_ids l2.
Proof. unfold linked_ids. rewrite filter_app, fmap_app. reflexivity. Qed.

(** Below a node that is not joined to the armature nothing is. *)
Lemma preorder_unlinked fuel id : linked_ids (preorder fuel gltf false id) = [].
Proof.
  revert id. induction fuel as [|fuel IH]; intros id; simpl; [reflexivity|].
  destruct (vnodes gltf !! id) as [v|]; [|reflexivity].
  simpl. change ((id, false) :: ?l) with ([(id, false)] ++ l).
  rewrite linked_ids_app. simpl.
  induction (children v) as [|c cs IHcs]; simpl; [reflexivity|].
  rewrite linked_ids_app, IH. exact IHcs.
Qed.

Lemma for_each_visit fuel (cs : list VNodeId) bone_ids :
  (forall c bone_ids, c ∈ cs ->
     visit fuel gltf c bone_ids
     = Ok tt (bone_ids ++ linked_ids (preorder fuel gltf true c))) ->
  for_each cs (visit fuel gltf) bone_ids
  = Ok tt (bone_ids ++ linked_ids (flat_map (preorder fuel gltf true) cs)).
Proof.
  revert bone_ids. induction cs as [|c cs IH]; intros bone_ids Hc; simpl.
  - rewrite app_nil_r. reflexivity.
  - unfold bind. rewrite Hc by left.
    rewrite IH by (intros; apply Hc; right; assumption).
    rewrite linked_ids_app, app_assoc. reflexivity.
Qed.

(** [visit] appends the bones of the subtree that are joined to the
    armature by bones, in pre-order. *)
Lemma visit_linked fuel id bone_ids :
  (h id < fuel)%nat -> is_Some (vnodes gltf !! id) ->
  visit fuel gltf id bone_ids
  = Ok tt (bone_ids ++ linked_ids (preorder fuel gltf true id)).
Proof.
  revert id bone_ids. induction fuel as [|fuel IH]; intros id bone_ids Hlt [v Hv]; [lia|].
  simpl. rewrite Hv. unfold mbind, M_bind, bind. simpl.
  destruct (decide (type v = Bone)) as [Hb|Hb].
  - rewrite bool_decide_true by assumption. simpl.
    rewrite for_each_visit.
    + unfold linked_ids at 2. simpl. rewrite <- app_assoc. reflexivity.
    + intros c acc Hc. assert (child_of gltf id c) as Hcc by (exists v; auto).
      apply IH; [|eauto]. apply h_decreases in Hcc. lia.
  - rewrite bool_decide_false by assumption. simpl.
    change ((id, false) :: ?l) with ([(id, false)] ++ l).
    rewrite linked_ids_app. simpl.
    assert (Hnil : forall cs, linked_ids (flat_map (preorder fuel gltf false) cs) = []).
    { induction cs as [|c cs IHcs]; simpl; [reflexivity|].
      rewrite linked_ids_app, preorder_unlinked. exact IHcs. }
    rewrite Hnil, app_nil_r. reflexivity.
Qed.

Lemma find_bones_linked fuel arma_id arma s :
  vnodes gltf !! arma_id = Some arma -> (h arma_id <= fuel)%nat ->
  find_bones fuel gltf arma s = Ok (linked_bones fuel gltf arma) s.
Proof.
  intros Hv Hle. unfold find_bones.
  rewrite for_each_visit.
  - reflexivity.
  - intros c acc Hc. assert (child_of gltf arma_id c) as Hcc by (exists arma; auto).
    apply visit_linked; [|eauto]. apply h_decreases in Hcc. lia.
Qed.

Lemma descendant_unfold a x :
  descendant gltf a x ->
  x = a \/ exists c, child_of gltf a c /\ descendant gltf c x.
Proof.
  induction 1 as [|y x _ IH Hyx]; [left; reflexivity|right].
  destruct IH as [->|(c & Hc & Hd)].
  - exists x. split; [exact Hyx|apply descendant_refl].
  - exists c. split; [exact Hc|]. eapply descendant_step; eassumption.
Qed.

(** With enough fuel the walk lists every node of the subtree. *)
Lemma preorder_complete fuel linked id x :
  descendant gltf id x -> (h id < fuel)%nat ->
  x ∈ (preorder fuel gltf linked id).*1.
Proof.
  revert linked id. induction fuel as [|fuel IH]; intros linked id Hd Hlt; [lia|].
  simpl. destruct (descendant_unfold _ _ Hd) as [->|(c & Hc & Hdc)].
  - destruct (vnodes gltf !! id); simpl; left.
  - pose proof (h_decreases _ _ Hc) as Hh.
    destruct Hc as (v & Hv & Hc). rewrite Hv. simpl. right.
    rewrite fmap_flat_map. apply elem_of_flat_map. exists c. split; [exact Hc|].
    apply IH; [exact Hdc|lia].
Qed.

Lemma linked_ids_flat_map (f : VNodeId -> list (VNodeId * bool)) (cs : list VNodeId) :
  (forall c, c ∈ cs ->
     linked_ids (f c) = filter (fun id => Is_true (is_bone gltf id)) (f c).*1) ->
  linked_ids (flat_map f cs)
  = filter (fun id => Is_true (is_bone gltf id)) (flat_map f cs).*1.
Proof.
  induction cs as [|c cs IH]; intros Hc; simpl; [reflexivity|].
  rewrite linked_ids_app, fmap_app, filter_app, Hc by left.
  rewrite IH by (intros; apply Hc; right; assumption). reflexivity.
Qed.

(** Where no bone hangs below a node that is not a bone, the bones
    joined to the top are all the bones of the subtree. *)
Lemma linked_ids_all_bones fuel linked id :
  (forall p c, descendant gltf id p -> child_of gltf p c ->
               is_bone gltf c -> is_bone gltf p) ->
  (linked = false -> ~ is_bone gltf id) ->
  linked_ids (preorder fuel gltf linked id)
  = filter (fun id => Is_true (is_bone gltf id)) (preorder fuel gltf linked id).*1.
Proof.
  revert linked id. induction fuel as [|fuel IH]; intros linked id Hjoin Hl; simpl;
    [reflexivity|].
  destruct (vnodes gltf !! id) as [v|] eqn:Hv.
  - assert (Hbone : is_bone gltf id = bool_decide (type v = Bone))
      by (unfold is_bone; rewrite Hv; reflexivity).
    assert (Hsub : forall l', (l' = false -> ~ is_bone gltf id) ->
              linked_ids (flat_map (preorder fuel gltf l') (children v))
              = filter (fun id => Is_true (is_bone gltf id))
                       (flat_map (preorder fuel gltf l') (children v)).*1).
    { intros l' Hl'. apply linked_ids_flat_map. intros c Hc.
      assert (child_of gltf id c) as Hcc by (exists v; auto).
      apply IH.
      - intros p c' Hd. apply Hjoin. eapply child_descendant; eassumption.
      - intros -> Hbc. apply Hl'; [reflexivity|].
        eapply Hjoin; [apply descendant_refl|exact Hcc|exact Hbc]. }
    simpl. unfold linked_ids. rewrite !filter_cons. simpl. rewrite Hbone.
    destruct linked, (bool_decide (type v = Bone)) eqn:Hb; simpl.
    + f_equal. apply (Hsub true). discriminate.
    + apply (Hsub false). intros _. rewrite Hbone. simpl. auto.
    + exfalso. apply Hl; [reflexivity|]. rewrite Hbone. exact I.
    + apply (Hsub false). intros _. rewrite Hbone. simpl. auto.
  - unfold linked_ids. simpl. rewrite !filter_cons. simpl.
    unfold is_bone. rewrite Hv. reflexivity.
Qed.

(** Under the armature, the walk of [create_bones] and the walk over
    all descendants find the same bones when the bones are joined. *)
Lemma linked_bones_all_bones fuel arma_id arma :
  vnodes gltf !! arma_id = Some arma ->
  bones_joined gltf arma_id ->
  linked_bones fuel gltf arma = bone_descendants fuel gltf arma.
Proof.
  intros Hv Hjoin. unfold linked_bones, bone_descendants, descendants.
  apply linked_ids_flat_map. intros c Hc.
  assert (child_of gltf arma_id c) as Hcc by (exists arma; auto).
  apply linked_ids_all_bones; [|discriminate].
  intros p c' Hd Hpc Hb.
  destruct (Hjoin p c') as [->|Hp]; [eapply child_descendant; eassumption|assumption..| |exact Hp].
  eapply (descendant_height gltf h h_decreases) in Hd.
  apply h_decreases in Hcc. lia.
Qed.

End FindBones.

(** ** References that cannot be followed *)

Section Failures.
Context `{host : BlenderHost}.

Lemma fails_bind_l {St A B} (m : M St A) (k : A -> M St B) :
  fails m -> fails (m ≫= k).
Proof.
  intros Hm s. unfold mbind, M_bind, bind. specialize (Hm s).
  destruct (m s); simpl in *; auto.
Qed.

Lemma fails_bind_r {St A B} (m : M St A) (k : A -> M St B) :
  (forall a, fails (k a)) -> fails (m ≫= k).
Proof.
  intros Hk s. unfold mbind, M_bind, bind.
  destruct (m s) as [a s1|e s1|]; simpl; auto. apply Hk.
Qed.

Lemma fails_ret_bind {St A B} (a : A) (k : A -> M St B) :
  fails (k a) -> fails (ret a ≫= k).
Proof. intros Hk s. apply Hk. Qed.

Lemma fails_for_each {St A} (l : list A) (body : A -> M St unit) (x : A) :
  x ∈ l -> fails (body x) -> fails (for_each l body).
Proof.
  intros Hx Hb. induction Hx as [x l|x y l _ IH]; simpl.
  - apply (fails_bind_l (body x)), Hb.
  - apply (fails_bind_r (body y)). intros _. exact (IH Hb).
Qed.

(** A skin index that is out of range is not tested for: the
    subscript [gltf.data.skins[pynode.skin]] raises. *)
Lemma setup_skinning_out_of_range gltf pynode obj si s :
  skin pynode = Some si -> getitem (skins gltf) si = None ->
  setup_skinning gltf pynode obj s = Raise IndexError s.
Proof. intros Hs Hg. unfold setup_skinning. rewrite Hs, Hg. reflexivity. Qed.

(** Nor is an empty joint list: [pyskin.joints[0]] raises. *)
Lemma setup_skinning_empty_joints gltf pynode obj si pyskin s :
  skin pynode = Some si -> getitem (skins gltf) si = Some pyskin ->
  joints pyskin = [] ->
  setup_skinning gltf pynode obj s = Raise IndexError s.
Proof.
  intros Hs Hg Hj. unfold setup_skinning. rewrite Hs, Hg.
  cbv [mbind M_bind bind from_option ret]. rewrite Hj. reflexivity.
Qed.

(** Nothing catches what [setup_skinning] raises. *)
Lemma create_mesh_object_skinning_fails gltf vnode i pynode mi :
  mesh_node_idx vnode = Some i -> getitem (nodes gltf) i = Some pynode ->
  mesh pynode = Some mi -> 0 <= mi < Z.of_nat (length (meshes gltf)) ->
  skin pynode <> None ->
  (forall obj, fails (setup_skinning gltf pynode obj)) ->
  fails (create_mesh_object gltf vnode).
Proof.
  intros Hi Hn Hm Hrange Hskin Hfail.
  unfold create_mesh_object, lookup_node. rewrite Hi, Hn. simpl.
  apply fails_ret_bind. rewrite Hm. simpl. apply fails_ret_bind.
  rewrite bool_decide_true by assumption. simpl.
  do 5 (apply fails_bind_r; intros ?).
  apply fails_bind_l. rewrite bool_decide_true by assumption. apply Hfail.
Qed.

Lemma create_object_mesh_fails gltf id vnode :
  vnodes gltf !! id = Some vnode -> is_Some (mesh_node_idx vnode) ->
  fails (create_mesh_object gltf vnode) -> fails (create_object gltf id).
Proof.
  intros Hv [i Hi] Hfail. unfold create_object, lookup_vnode. rewrite Hv. simpl.
  apply fails_ret_bind. rewrite Hi. apply fails_bind_l, Hfail.
Qed.

Lemma create_vnode_object_fails fuel gltf id vnode :
  vnodes gltf !! id = Some vnode -> type vnode = Object ->
  fails (create_object gltf id) -> fails (create_vnode fuel gltf id).
Proof.
  intros Hv Ht Hfail. destruct fuel as [|fuel]; [intros s; simpl; auto|].
  simpl. unfold lookup_vnode. rewrite Hv. simpl. apply fails_ret_bind.
  do 2 (apply fails_bind_r; intros ?). apply fails_bind_l. rewrite Ht.
  apply fails_bind_r; intros ?. apply fails_bind_l, Hfail.
Qed.

(** A mesh index that is out of range is tested for: the node gets an
    object without data, and the import goes on. *)
Lemma create_mesh_object_invalid_mesh_index gltf vnode i pynode mi s :
  mesh_node_idx vnode = Some i -> getitem (nodes gltf) i = Some pynode ->
  mesh pynode = Some mi -> ~ (0 <= mi < Z.of_nat (length (meshes gltf))) ->
  exists o,
    data o = None /\
    ob_name o = unique_name (ob_name <$> objects (bpy s))
                            (str_or (name vnode) "Invalid Mesh Index") /\
    create_mesh_object gltf vnode s
    = Ok (length (objects (bpy s)))
         (set_bpy (set_objects (objects (bpy s) ++ [o]) (bpy s)) s).
Proof.
  intros Hi Hn Hm Hrange. unfold create_mesh_object, lookup_node.
  rewrite Hi, Hn. cbv [mbind M_bind bind from_option ret]. rewrite Hm.
  rewrite bool_decide_false by assumption. simpl.
  exists (default_object (unique_name (ob_name <$> objects (bpy s))
                                      (str_or (name vnode) "Invalid Mesh Index")) None).
  split_and!; reflexivity.
Qed.

(** C3, as the code has it.  A skin whose joint list is empty makes
    [setup_skinning] raise [IndexError] at [pyskin.joints[0]]; no
    handler catches it: [create_mesh_object] returns no object for a
    node with a valid mesh that uses this skin, and [create_vnode]
    on that node raises before the rest of the tree is visited.
    (No [InvalidSkinError] exists and no mesh is imported unskinned.) *)
Theorem empty_joints_raise_index_error gltf id vnode i pynode mi si pyskin :
  vnodes gltf !! id = Some vnode -> type vnode = Object ->
  mesh_node_idx vnode = Some i -> getitem (nodes gltf) i = Some pynode ->
  mesh pynode = Some mi -> 0 <= mi < Z.of_nat (length (meshes gltf)) ->
  skin pynode = Some si -> getitem (skins gltf) si = Some pyskin ->
  joints pyskin = [] ->
  (forall obj s, setup_skinning gltf pynode obj s = Raise IndexError s) /\
  fails (create_mesh_object gltf vnode) /\
  forall fuel, fails (create_vnode fuel gltf id).
Proof.
  intros Hv Ht Hi Hn Hm Hrange Hs Hg Hj.
  assert (Hraise : forall obj s, setup_skinning gltf pynode obj s = Raise IndexError s)
    by (intros; eapply setup_skinning_empty_joints; eassumption).
  assert (Hmesh : fails (create_mesh_object gltf vnode)).
  { eapply create_mesh_object_skinning_fails; try eassumption.
    - rewrite Hs. discriminate.
    - intros obj s. rewrite Hraise. simpl. auto. }
  split_and!; [exact Hraise|exact Hmesh|].
  intros fuel. eapply create_vnode_object_fails; try eassumption.
  eapply create_object_mesh_fails; eauto.
Qed.

End Failures.

Section FailuresAbove.
Context `{host : BlenderHost}.

(** What a child raises, the walk above it raises. *)
Lemma create_vnode_child_fails fuel gltf id vnode c :
  vnodes gltf !! id = Some vnode -> c ∈ children vnode ->
  (forall fuel', fails (create_vnode fuel' gltf c)) ->
  fails (create_vnode fuel gltf id).
Proof.
  intros Hv Hc Hfail. destruct fuel as [|fuel]; [intros s; simpl; auto|].
  simpl. unfold lookup_vnode. rewrite Hv. simpl. apply fails_ret_bind.
  do 3 (apply fails_bind_r; intros ?).
  eapply fails_for_each; [exact Hc|apply Hfail].
Qed.

Lemma invalid_refs_fails fuel :
  fails (create_vnode fuel Examples.invalid_refs (NodeIdx 0)).
Proof.
  eapply (create_vnode_child_fails _ _ _ _ (NodeIdx 2)); [reflexivity| |].
  - simpl. set_solver.
  - intros fuel'.
    eapply create_vnode_object_fails; [reflexivity|reflexivity|].
    eapply create_object_mesh_fails; [reflexivity|simpl; eauto|].
    eapply (create_mesh_object_skinning_fails _ _ 2 _ 0);
      [reflexivity|reflexivity|reflexivity|simpl; lia|discriminate|].
    intros obj s.
    erewrite setup_skinning_out_of_range; [simpl; auto|reflexivity|reflexivity].
Qed.

End FailuresAbove.

(** C2, where the code departs from it.  In the document
    [Examples.invalid_refs] (two meshes, one skin) node 1 refers to
    mesh 99 and node 2 to mesh 0 and skin 3.  Whatever the host,
    [create_vnode] on the root does not return; with the example host
    it raises [IndexError]: node 1 has got an object without data (the
    mesh index is tested), node 2 no object (the skin index is not
    tested, [setup_skinning] raises) and its sibling node 3 is never
    visited. *)
Theorem out_of_range_skin_aborts_import :
  (forall (host : BlenderHost) fuel,
     fails (@create_vnode host fuel Examples.invalid_refs (NodeIdx 0))) /\
  match @create_vnode SimpleHost.host 3 Examples.invalid_refs (NodeIdx 0)
                      Examples.initial_state with
  | Raise IndexError s' =>
      (data <$> (blender_object s' !! NodeIdx 1 ≫= fun obj => objects (bpy s') !! obj))
      = Some None /\
      blender_object s' !! NodeIdx 2 = None /\
      blender_object s' !! NodeIdx 3 = None
  | _ => False
  end.
Proof.
  split.
  - intros host fuel. apply invalid_refs_fails.
  - vm_compute. auto.
Qed.

(** The claim C3 fails on [Examples.empty_joints]: the node that uses
    the skin with no joints gets no object, skinned or not, and the
    unrelated node 2 is not built: [create_vnode] raises [IndexError]. *)
Lemma empty_joints_abort_import :
  match @create_vnode SimpleHost.host 3 Examples.empty_joints (NodeIdx 0)
                      Examples.initial_state with
  | Raise IndexError s' =>
      blender_object s' !! NodeIdx 1 = None /\ blender_object s' !! NodeIdx 2 = None
  | _ => False
  end.
Proof. vm_compute. auto. Qed.

(** ** The bones create_bones collects *)

Section BonesTheorem.

Lemma descendants_spec gltf h arma_id arma fuel x :
  (forall p c, child_of gltf p c -> (h c < h p)%nat) ->
  (forall p c, child_of gltf p c ->
     exists vc, vnodes gltf !! c = Some vc /\ parent vc = Some p) ->
  (forall p vp, vnodes gltf !! p = Some vp -> NoDup (children vp)) ->
  vnodes gltf !! arma_id = Some arma -> (h arma_id <= fuel)%nat ->
  x ∈ descendants fuel gltf arma <-> descendant gltf arma_id x /\ x <> arma_id.
Proof.
  intros Hh Hparent Hnodup Hv Hle. unfold descendants.
  rewrite fmap_flat_map, elem_of_flat_map. split.
  - intros (c & Hc & Hx).
    assert (child_of gltf arma_id c) as Hcc by (exists arma; auto).
    destruct (Hparent _ _ Hcc) as (vc & Hvc & _).
    destruct (preorder_subtree gltf h Hh Hparent Hnodup fuel true c) as [Hsub _]; [eauto|].
    destruct (Hsub x Hx) as [Hd _]. split.
    + eapply child_descendant; eassumption.
    + intros ->. apply (descendant_height gltf h Hh) in Hd. apply Hh in Hcc. lia.
  - intros [Hd Hne]. destruct (descendant_unfold gltf _ _ Hd) as [->|(c & Hcc & Hdc)];
      [congruence|].
    pose proof (Hh _ _ Hcc) as Hlt.
    destruct Hcc as (v & Hv' & Hc). rewrite Hv in Hv'. injection Hv' as <-.
    exists c. split; [exact Hc|].
    apply (preorder_complete gltf h Hh); [exact Hdc|lia].
Qed.

(** C6, as the code has it.  On a forest, for the armature [arma_id]
    and any recursion budget of the model above its height: the walk
    of [create_bones] returns, and the list [bone_ids] its three loops
    run over is, in depth-first pre-order with the children in the
    order of the children lists, the Bone-kind descendants that are
    joined to the armature by Bone-kind nodes only; [descendants]
    lists exactly the descendants of the armature; and where every
    Bone-kind descendant has the armature or a bone as parent,
    [bone_ids] is every Bone-kind descendant in that order. *)
Theorem create_bones_collects_joined_bones gltf arma_id arma s :
  forest gltf -> vnodes gltf !! arma_id = Some arma ->
  exists n, forall fuel, (n <= fuel)%nat ->
    find_bones fuel gltf arma s = Ok (linked_bones fuel gltf arma) s /\
    (forall x, x ∈ descendants fuel gltf arma <->
               descendant gltf arma_id x /\ x <> arma_id) /\
    (bones_joined gltf arma_id ->
     linked_bones fuel gltf arma = bone_descendants fuel gltf arma).
Proof.
  intros [Hparent Hnodup [h Hh]] Hv. exists (h arma_id). intros fuel Hle.
  assert (Hexist : forall p c, child_of gltf p c -> is_Some (vnodes gltf !! c)).
  { intros p c Hc. destruct (Hparent _ _ Hc) as (vc & Hvc & _). eauto. }
  split_and!.
  - eapply find_bones_linked; eassumption.
  - intros x. eapply descendants_spec; eassumption.
  - intros Hjoin. eapply linked_bones_all_bones; eassumption.
Qed.

End BonesTheorem.

(** The claim C6 fails on [Examples.bone_below_object]: the bone below
    the object below the armature is a Bone-kind descendant of the
    armature, and [create_bones] does not collect it; the armature is
    created without edit bones. *)
Lemma bone_below_object_not_collected :
  let arma := Examples.arma_vnode "Armature" [NodeIdx 1] None in
  vnodes Examples.bone_below_object !! NodeIdx 0 = Some arma /\
  bone_descendants 3 Examples.bone_below_object arma = [NodeIdx 2] /\
  find_bones 3 Examples.bone_below_object arma Examples.initial_state
  = Ok [] Examples.initial_state /\
  match @create_vnode SimpleHost.host 4 Examples.bone_below_object (NodeIdx 0)
                      Examples.initial_state with
  | Ok _ s' => edit_bones <$> armatures (bpy s') = [[]]
  | _ => False
  end.
Proof. vm_compute. auto. Qed.

(** ** The cache of Blender meshes *)

Section MeshCache.
Context `{host : BlenderHost}.

Lemma bind_ok_inv {St A B} (m : M St A) (k : A -> M St B) s b s' :
  (m ≫= k) s = Ok b s' -> exists a s1, m s = Ok a s1 /\ k a s1 = Ok b s'.
Proof.
  unfold mbind, M_bind, bind. destruct (m s) as [a s1|e s1|]; [eauto|discriminate..].
Qed.

Lemma post_ok {A} P (m : M State A) s a s' : post P m -> m s = Ok a s' -> P s s'.
Proof. intros Hm Hs. specialize (Hm s). rewrite Hs in Hm. exact Hm. Qed.






End MeshCache.

Section MeshCacheRuns.
Context `{host : BlenderHost}.




End MeshCacheRuns.

(** ** The edit bones of an armature after create_bones *)

Section PlacedBones.
Context `{host : BlenderHost}.

#[global] Instance keeps_placement_preorder a : PreOrder (keeps_placement a).
Proof.
  split.
  - intros s arm Harm. exists arm. split_and!; [assumption|reflexivity|].
    intros j eb Hj. exists eb. unfold same_placement. auto.
  - intros s1 s2 s3 H12 H23 arm Harm.
    destruct (H12 arm Harm) as (arm2 & Harm2 & Hlen2 & Hb2).
    destruct (H23 arm2 Harm2) as (arm3 & Harm3 & Hlen3 & Hb3).
    exists arm3. split_and!; [assumption|congruence|].
    intros j eb Hj. destruct (Hb2 j eb Hj) as (eb2 & Hj2 & Hp2 & Hp2' & Hp2'').
    destruct (Hb3 j eb2 Hj2) as (eb3 & Hj3 & Hp3 & Hp3' & Hp3'').
    exists eb3. unfold same_placement. split_and!; [assumption|congruence..].
Qed.

#[global] Instance same_armatures_preorder : PreOrder same_armatures.
Proof.
  split.
  - intros s. reflexivity.
  - intros s1 s2 s3 H1 H2. unfold same_armatures in *. congruence.
Qed.








End PlacedBones.

Section PlacedBonesLoops.
Context `{host : BlenderHost}.




End PlacedBonesLoops.

Section PlacedBonesTheorem.
Context `{host : BlenderHost}.




End PlacedBonesTheorem.

(** ** The pose bones *)

Section PoseBones.
Context `{host : BlenderHost}.

Lemma find_index_Some {A} (p : A -> bool) (l : list A) (i : nat) :
  find_index p l = Some i -> exists x, l !! i = Some x /\ p x = true.
Proof.
  revert i. induction l as [|y l IH]; intros i; simpl; [discriminate|].
  destruct (p y) eqn:Hp.
  - intros [= <-]. eauto.
  - destruct (find_index p l) as [j|]; [|discriminate].
    intros [= <-]. apply IH. reflexivity.
Qed.

(** The third loop of [create_bones], for one bone: the pose bone
    that bears the name of the bone gets the pose location, rotation
    and scale of the node. *)
Lemma set_pose_bone_run gltf obj id s s' :
  set_pose_bone gltf obj id s = Ok tt s' ->
  exists vnode n o' pb,
    vnodes gltf !! id = Some vnode /\
    blender_bone_name s !! id = Some n /\
    objects (bpy s') !! obj = Some o' /\
    pb ∈ pose_bones o' /\
    pb_name pb = n /\
    pb_location pb = pose_location vnode /\
    pb_rotation_mode pb = QUATERNION /\
    pb_rotation_quaternion pb = pose_rotation vnode /\
    pb_scale pb = pose_scale vnode.
Proof.
  intros Hrun. unfold set_pose_bone, lookup_vnode in Hrun.
  apply bind_ok_inv in Hrun as (vnode & ? & Hv & Hrun).
  destruct (vnodes gltf !! id) as [vnode'|] eqn:Hv'; [|discriminate].
  injection Hv as <- <-.
  apply bind_ok_inv in Hrun as (? & ? & [= <- <-] & Hrun).
  apply bind_ok_inv in Hrun as (o & ? & Ho & Hrun).
  destruct (objects (bpy s) !! obj) as [o0|] eqn:Hlook; [|discriminate].
  injection Ho as <- <-.
  apply bind_ok_inv in Hrun as (? & ? & Ha & Hrun).
  unfold armature_of in Ha. destruct (data o0) as [[| | |a]|]; try discriminate.
  injection Ha as _ <-.
  apply bind_ok_inv in Hrun as (n & ? & Hn & Hrun).
  destruct (blender_bone_name s !! id) as [n'|] eqn:Hname; [|discriminate].
  injection Hn as <- <-.
  apply bind_ok_inv in Hrun as (i & ? & Hi & Hrun).
  destruct (find_index _ (pose_bones o0)) as [i'|] eqn:Hfind; [|discriminate].
  injection Hi as <- <-.
  apply find_index_Some in Hfind as (pb0 & Hpb0 & Hpname).
  apply bool_decide_eq_true in Hpname.
  repeat (apply bind_ok_inv in Hrun as (? & ? & ? & Hrun)).
  assert (Hex : forall old s1 ex s2, node_extras gltf id old s1 = Ok ex s2 -> s2 = s1).
  { intros old s1 ex s2. unfold node_extras, lookup_node.
    cbv [mbind M_bind bind from_option ret raise].
    destruct id as [k|]; [destruct (getitem (nodes gltf) k)|]; congruence. }
  repeat match goal with
         | H : node_extras _ _ _ _ = Ok _ _ |- _ => apply Hex in H; subst
         | H : update_pose_bone _ _ _ _ = Ok _ _ |- _ =>
             unfold update_pose_bone, update_object, modify_bpy, modify in H;
             simplify_eq
         end.
  simpl.
  rewrite !list_alter_alter_eq, list_lookup_alter_eq, Hlook. simpl.
  eexists vnode', _, _, _. split_and!; [reflexivity..| | | | | |].
  - eapply (list_elem_of_lookup_2 _ i'). simpl.
    rewrite !list_lookup_alter_eq, Hpb0. reflexivity.
  - reflexivity.
  - reflexivity.
  - reflexivity.
  - reflexivity.
  - reflexivity.
Qed.


End PoseBones.

(** ** The example documents are forests *)

(** Case analysis on the node of an example document an id stands for. *)
Ltac example_nodes H :=
  apply elem_of_list_to_map_2 in H;
  repeat (apply elem_of_cons in H as [H|H]); [..|apply elem_of_nil in H; contradiction];
  injection H as -> ->.

Ltac example_children H :=
  simpl in H;
  repeat (apply elem_of_cons in H as [H|H]); [..|apply elem_of_nil in H; contradiction];
  subst.

Ltac example_forest h :=
  split;
  [ intros p c (vp & Hvp & Hc); example_nodes Hvp; example_children Hc;
    eexists; split; reflexivity
  | intros p vp Hvp; example_nodes Hvp; simpl;
    repeat (apply NoDup_cons; split; [intros Hin; example_children Hin; discriminate|]);
    apply NoDup_nil; exact I
  | exists h; intros p c (vp & Hvp & Hc); example_nodes Hvp; example_children Hc;
    simpl; lia ].

Lemma skeleton_forest : forest Examples.skeleton.
Proof. example_forest Examples.skeleton_height. Qed.

Lemma two_roots_forest : forest Examples.two_roots.
Proof. example_forest Examples.two_roots_height. Qed.

(** ** The properties on the example documents *)


(** C3, as the code has it, on [Examples.empty_joints]. *)
Lemma empty_joints_raise_index_error_witness :
  (forall obj s,
     @setup_skinning SimpleHost.host Examples.empty_joints
       (Examples.mesh_node 0 (Some 0)) obj s = Raise IndexError s) /\
  fails (@create_mesh_object SimpleHost.host Examples.empty_joints
           (Examples.object_vnode "Skinned" [] (Some (NodeIdx 0)) (Some 1))) /\
  forall fuel, fails (@create_vnode SimpleHost.host fuel Examples.empty_joints (NodeIdx 1)).
Proof.
  apply (@empty_joints_raise_index_error SimpleHost.host Examples.empty_joints
           (NodeIdx 1) _ 1 _ 0 0 (mkPySkin [])); try reflexivity.
  simpl. lia.
Defined.


(** C5 on the synthesized root of [Examples.two_roots]. *)
Lemma create_vnode_no_object_witness :
  vnodes Examples.two_roots !! Synthetic "root" = Some Examples.dummy_root /\
  (type Examples.dummy_root = DummyRoot \/ type Examples.dummy_root = Bone) /\
  exists s1,
    bpy s1 = bpy Examples.initial_state /\
    display_current_node s1 = display_current_node Examples.initial_state + 1 /\
    (type Examples.dummy_root = DummyRoot ->
       blender_object s1 !! Synthetic "root" = None /\
       blender_object s1 = delete (Synthetic "root") (blender_object Examples.initial_state)) /\
    (type Examples.dummy_root = Bone ->
       blender_object s1 = blender_object Examples.initial_state) /\
    @create_vnode SimpleHost.host 2 Examples.two_roots (Synthetic "root")
      Examples.initial_state
    = for_each (children Examples.dummy_root)
               (@create_vnode SimpleHost.host 1 Examples.two_roots) s1.
Proof.
  split; [reflexivity|]. split; [left; reflexivity|].
  exact (@create_vnode_no_object SimpleHost.host 1 Examples.two_roots (Synthetic "root")
           Examples.dummy_root Examples.initial_state eq_refl (or_introl eq_refl)).
Defined.

(** C6, as the code has it, on [Examples.skeleton]. *)
Lemma create_bones_collects_joined_bones_witness :
  forest Examples.skeleton /\
  vnodes Examples.skeleton !! NodeIdx 0 = Some Examples.skeleton_root /\
  exists n, forall fuel, (n <= fuel)%nat ->
    find_bones fuel Examples.skeleton Examples.skeleton_root Examples.skeleton_state
    = Ok (linked_bones fuel Examples.skeleton Examples.skeleton_root)
         Examples.skeleton_state /\
    (forall x, x ∈ descendants fuel Examples.skeleton Examples.skeleton_root <->
               descendant Examples.skeleton (NodeIdx 0) x /\ x <> NodeIdx 0) /\
    (bones_joined Examples.skeleton (NodeIdx 0) ->
     linked_bones fuel Examples.skeleton Examples.skeleton_root
     = bone_descendants fuel Examples.skeleton Examples.skeleton_root).
Proof.
  split; [exact skeleton_forest|]. split; [reflexivity|].
  exact (create_bones_collects_joined_bones Examples.skeleton (NodeIdx 0)
           Examples.skeleton_root Examples.skeleton_state skeleton_forest eq_refl).
Defined.

(** C7 on [Examples.two_roots]. *)
Lemma create_vnode_terminates_witness :
  forest Examples.two_roots /\
  exists n, forall fuel, (n <= fuel)%nat ->
    terminated (@create_vnode SimpleHost.host fuel Examples.two_roots (Synthetic "root")
                  Examples.initial_state) /\
    forall s',
      final_state (@create_vnode SimpleHost.host fuel Examples.two_roots (Synthetic "root")
                     Examples.initial_state) = Some s' ->
      display_current_node Examples.initial_state <= display_current_node s' <=
      display_current_node Examples.initial_state
      + Z.of_nat (size (vnodes Examples.two_roots)).
Proof.
  split; [exact two_roots_forest|].
  exact (@create_vnode_terminates SimpleHost.host Examples.two_roots (Synthetic "root")
           Examples.initial_state two_roots_forest).
Defined.





(** On [Examples.skeleton] the import returns: the armature has got the
    two bones in pre-order, the second with the first as parent, and
    the armature object their pose bones. *)
Lemma skeleton_import_runs :
  match @create_vnode SimpleHost.host 4 Examples.skeleton (NodeIdx 0)
                      Examples.initial_state with
  | Ok _ s' =>
      (fun arm => (fun eb => (eb_name eb, eb_parent eb)) <$> edit_bones arm)
        <$> armatures (bpy s')
      = [[("Upper", None); ("Lower", Some 0%nat)]] /\
      (fun o => pb_name <$> pose_bones o) <$> objects (bpy s') = [["Upper"; "Lower"]] /\
      display_current_node s' = 3
  | _ => False
  end.
Proof. vm_compute. auto. Qed.

(** ** More on the functions of BlenderNode *)

Section DisplaySizeOutcome.
Context `{host : BlenderHost}.
Local Open Scope R_scope.

Lemma display_sizes_outcome gltf vids sizes s :
  Forall (fun c => is_Some (vnodes gltf !! c)) vids /\
  display_sizes gltf vids sizes s = Ok (sizes ++ translation_sizes gltf vids) s \/
  (exists c, c ∈ vids /\ vnodes gltf !! c = None) /\
  display_sizes gltf vids sizes s = Raise KeyError s.
Proof.
  revert sizes. induction vids as [|vid vids IH]; intros sizes.
  - left. split; [constructor|]. simpl. rewrite app_nil_r. reflexivity.
  - simpl. unfold lookup_vnode, translation_sizes. simpl.
    destruct (vnodes gltf !! vid) as [v|] eqn:Hv; simpl.
    + cbv [mbind M_bind bind ret].
      destruct (IH (sizes ++ [vlength (trs v).1.1 * 0.4])) as [[Hall Hrun]|[Hmiss Hrun]].
      * left. split; [constructor; eauto|]. rewrite Hrun, <- app_assoc. reflexivity.
      * right. split; [|exact Hrun]. destruct Hmiss as (c & Hc & Hnone).
        exists c. split; [right; exact Hc|exact Hnone].
    + right. split; [|reflexivity]. exists vid. split; [left|exact Hv].
Qed.


End DisplaySizeOutcome.

Section MorphWeights.
Context `{host : BlenderHost}.
Local Open Scope R_scope.

#[global] Instance widens_preorder : PreOrder widens.
Proof.
  split.
  - intros kb. unfold widens. split_and!; [reflexivity|lra|lra|auto].
  - intros k1 k2 k3 (Hn1 & Hmin1 & Hmax1 & Hv1) (Hn2 & Hmin2 & Hmax2 & Hv2).
    unfold widens. split_and!; [congruence|lra|lra|auto].
Qed.

#[global] Instance sliders_widen_preorder : PreOrder sliders_widen.
Proof.
  split.
  - intros s m bm Hm. exists bm. split; [exact Hm|].
    destruct (shape_keys bm); [reflexivity|exact I].
  - intros s1 s2 s3 H12 H23 m bm Hm.
    destruct (H12 m bm Hm) as (bm2 & Hm2 & Hk2).
    destruct (H23 m bm2 Hm2) as (bm3 & Hm3 & Hk3).
    exists bm3. split; [exact Hm3|].
    destruct (shape_keys bm), (shape_keys bm2), (shape_keys bm3); try contradiction;
      [|exact I].
    etrans; eassumption.
Qed.

Lemma sliders_update_object obj f : post sliders_widen (update_object obj f).
Proof.
  apply post_modify. intros s m bm Hm. exists bm. split; [exact Hm|].
  destruct (shape_keys bm); [reflexivity|exact I].
Qed.







End MorphWeights.

Section MorphWeightsBounds.
Context `{host : BlenderHost}.

(** X3.  More weights than shape key names: the subscript
    [pymesh.shapekey_names[i]] runs out of range, so
    [set_morph_weights] does not return; it raises [IndexError] at the
    first weight without a name, if it has not raised before. *)
Theorem set_morph_weights_more_weights_than_names gltf pynode obj mi pymesh names :
  mesh pynode = Some mi -> getitem (meshes gltf) mi = Some pymesh ->
  shapekey_names pymesh = Some names ->
  (length names < length (morph_weights pynode pymesh))%nat ->
  fails (set_morph_weights gltf pynode obj) /\
  forall weight s,
    morph_weights pynode pymesh !! length names = Some weight ->
    set_morph_weight pymesh obj (length names, weight) s = Raise IndexError s.
Proof.
  intros Hm Hmesh Hnames Hlen.
  assert (Hbody : forall weight s,
            set_morph_weight pymesh obj (length names, weight) s = Raise IndexError s).
  { intros weight s. unfold set_morph_weight. rewrite Hnames.
    rewrite (lookup_ge_None_2 names (length names)) by lia. reflexivity. }
  split; [|intros; apply Hbody].
  unfold set_morph_weights, lookup_mesh. rewrite Hm, Hmesh. simpl.
  apply fails_ret_bind.
  destruct (lookup_lt_is_Some_2 (morph_weights pynode pymesh) (length names) Hlen)
    as [weight Hw].
  apply (fails_for_each _ _ (length names, weight)).
  - apply list_elem_of_lookup. exists (length names).
    apply lookup_zip_with_Some. exists (length names), weight.
    split; [reflexivity|]. split; [|exact Hw].
    apply lookup_seq. split; [reflexivity|exact Hlen].
  - intros s. rewrite Hbody. simpl. auto.
Qed.


(** X5.  A mesh index that is out of range, negative indices among them
    (which a Python list would accept), is tested for before the
    mesh is looked up: the node gets a new object without data, named
    after the node or "Invalid Mesh Index"; no mesh is made, logged
    or cached, and the objects there are left as they are. *)
Theorem create_mesh_object_invalid_index_empty_object gltf vnode i pynode mi s :
  mesh_node_idx vnode = Some i -> getitem (nodes gltf) i = Some pynode ->
  mesh pynode = Some mi -> ~ (0 <= mi < Z.of_nat (length (meshes gltf))) ->
  exists o s',
    create_mesh_object gltf vnode s = Ok (length (objects (bpy s))) s' /\
    objects (bpy s') = objects (bpy s) ++ [o] /\
    data o = None /\ modifiers o = [] /\
    ob_name o = unique_name (ob_name <$> objects (bpy s))
                            (str_or (name vnode) "Invalid Mesh Index") /\
    bmeshes (bpy s') = bmeshes (bpy s) /\ log s' = log s /\
    blender_name s' = blender_name s /\ blender_object s' = blender_object s.
Proof.
  intros Hi Hn Hm Hrange. unfold create_mesh_object, lookup_node.
  rewrite Hi, Hn. cbv [mbind M_bind bind from_option ret]. rewrite Hm.
  rewrite bool_decide_false by assumption. simpl.
  unfold objects_new. cbv [mbind M_bind bind get modify_bpy modify ret].
  do 2 eexists. split; [reflexivity|]. simpl. split_and!; reflexivity.
Qed.

End MorphWeightsBounds.

(** ** What a computation that returns has done *)

Section ReturnsFacts.
Context (P : State -> State -> Prop) `{!PreOrder P}.

Lemma returns_post {A} (m : M State A) : post P m -> returns P m.
Proof. intros Hm s a s' Hrun. specialize (Hm s). rewrite Hrun in Hm. exact Hm. Qed.

Lemma returns_ret {A} (a : A) : returns P (ret a).
Proof. intros s a' s' [= <- <-]. reflexivity. Qed.

Lemma returns_mret {A} (a : A) : returns P (mret a).
Proof. apply returns_ret. Qed.

Lemma returns_raise {A} (e : exn) : returns P (raise e : M State A).
Proof. intros s a s' Hrun. discriminate. Qed.

Lemma returns_out_of_fuel {A} : returns P (out_of_fuel : M State A).
Proof. intros s a s' Hrun. discriminate. Qed.

Lemma returns_get : returns P get.
Proof. intros s a s' [= <- <-]. reflexivity. Qed.

Lemma returns_from_option {A} (e : exn) (o : option A) : returns P (from_option e o).
Proof. destruct o; [apply returns_ret|apply returns_raise]. Qed.

Lemma returns_modify (f : State -> State) : (forall s, P s (f s)) -> returns P (modify f).
Proof. intros Hf s a s' Hrun. injection Hrun as _ <-. apply Hf. Qed.

Lemma returns_bind {A B} (m : M State A) (k : A -> M State B) :
  returns P m -> (forall a, returns P (k a)) -> returns P (m ≫= k).
Proof.
  intros Hm Hk s b s' Hrun. apply bind_ok_inv in Hrun as (a & s1 & H1 & H2).
  etrans; [eapply Hm, H1|eapply Hk, H2].
Qed.

Lemma returns_for_each {A} (l : list A) (body : A -> M State unit) :
  (forall x, x ∈ l -> returns P (body x)) -> returns P (for_each l body).
Proof.
  induction l as [|x l IH]; intros Hb; simpl.
  - apply returns_ret.
  - apply (returns_bind (body x)).
    + apply Hb. left.
    + intros _. apply IH. intros y Hy. apply Hb. right. exact Hy.
Qed.

End ReturnsFacts.

(** What the steps that change only the data of the host keep. *)
Section HostSteps.
Context `{host : BlenderHost} (P : State -> State -> Prop) `{!PreOrder P}.
Hypothesis blind : forall s b, P s (set_bpy b s).

Lemma returns_modify_bpy (f : Bpy -> Bpy) : returns P (modify_bpy f).
Proof. apply returns_modify; [assumption..|]. intros s. apply blind. Qed.

Lemma returns_update_object obj f : returns P (update_object obj f).
Proof. apply returns_modify_bpy. Qed.

Lemma returns_lift_host {A} (f : Bpy -> (exn + A) * Bpy) : returns P (lift_host f).
Proof.
  intros s a s'. unfold lift_host. destruct (f (bpy s)) as [[e|a'] b]; [discriminate|].
  intros [= <- <-]. apply blind.
Qed.

Lemma returns_objects_new n d : returns P (objects_new n d).
Proof.
  unfold objects_new. apply returns_bind; [assumption..|apply returns_get; assumption|].
  intros s. apply returns_bind; [assumption..|apply returns_modify_bpy|].
  intros _. apply returns_ret; assumption.
Qed.

Lemma returns_armatures_new n : returns P (armatures_new n).
Proof.
  unfold armatures_new. apply returns_bind; [assumption..|apply returns_get; assumption|].
  intros s. apply returns_bind; [assumption..|apply returns_modify_bpy|].
  intros _. apply returns_ret; assumption.
Qed.

Lemma returns_display_sizes gltf vids sizes : returns P (display_sizes gltf vids sizes).
Proof.
  revert sizes. induction vids as [|vid vids IH]; intros sizes; simpl.
  - apply returns_ret; assumption.
  - apply returns_bind; [assumption..|apply returns_from_option; assumption|].
    intros v. apply IH.
Qed.

Lemma returns_find_bones fuel gltf arma : returns P (find_bones fuel gltf arma).
Proof.
  intros s a s'. unfold find_bones.
  destruct (for_each (children arma) (visit fuel gltf) []); [|discriminate..].
  intros [= <- <-]. reflexivity.
Qed.

End HostSteps.

(** One step, or all steps, of a proof that a computation satisfies
    [returns P], for a relation [P] that the changes of the data of
    the host keep; [leaf] proves that an assignment keeps [P]. *)
Ltac returns_step blind leaf :=
  lazymatch goal with
  | |- returns _ (_ ≫= _) => apply returns_bind; [typeclasses eauto..| |intros ?]
  | |- returns _ (ret _) => apply returns_ret; typeclasses eauto
  | |- returns _ (mret _) => apply returns_mret; typeclasses eauto
  | |- returns _ (raise _) => apply returns_raise
  | |- returns _ out_of_fuel => apply returns_out_of_fuel
  | |- returns _ get => apply returns_get; typeclasses eauto
  | |- returns _ (from_option _ _) => apply returns_from_option; typeclasses eauto
  | |- returns _ (for_each _ _) => apply returns_for_each; [typeclasses eauto..|intros ? ?]
  | |- returns _ (modify_bpy _) => apply returns_modify_bpy; [typeclasses eauto..|exact blind]
  | |- returns _ (update_object _ _) =>
      apply returns_update_object; [typeclasses eauto..|exact blind]
  | |- returns _ (update_edit_bone _ _ _) =>
      apply returns_modify_bpy; [typeclasses eauto..|exact blind]
  | |- returns _ (update_pose_bone _ _ _) =>
      apply returns_update_object; [typeclasses eauto..|exact blind]
  | |- returns _ (store_key_block _ _ _) =>
      apply returns_modify_bpy; [typeclasses eauto..|exact blind]
  | |- returns _ (lift_host _) => apply returns_lift_host; exact blind
  | |- returns _ (objects_new _ _) =>
      apply returns_objects_new; [typeclasses eauto..|exact blind]
  | |- returns _ (armatures_new _) =>
      apply returns_armatures_new; [typeclasses eauto..|exact blind]
  | |- returns _ (find_bones _ _ _) => apply returns_find_bones; typeclasses eauto
  | |- returns _ (modify _) => apply returns_modify; [typeclasses eauto..|intros ?; leaf]
  | |- returns _ (let _ := _ in _) => cbv zeta
  | |- returns _ (match ?x with _ => _ end) => destruct x
  | |- returns _ (lookup_vnode _ _) => unfold lookup_vnode
  | |- returns _ (lookup_vnode_opt _ _) => unfold lookup_vnode_opt
  | |- returns _ (lookup_node _ _) => unfold lookup_node
  | |- returns _ (lookup_mesh _ _) => unfold lookup_mesh
  | |- returns _ (lookup_key_block _ _) => unfold lookup_key_block
  | |- returns _ (light_of _) => unfold light_of
  | |- returns _ (armature_of _) => unfold armature_of
  | |- returns _ (edit_bone_named _ _) => unfold edit_bone_named
  | |- returns _ (node_extras _ _ _) => unfold node_extras
  | |- returns _ (scene_link _ _) => unfold scene_link
  | |- returns _ (mode_set _) => unfold mode_set
  | |- returns _ (set_morph_weight _ _ _) => unfold set_morph_weight
  | |- returns _ (set_morph_weights _ _ _) => unfold set_morph_weights
  | |- returns _ (setup_skinning _ _ _) => unfold setup_skinning
  | |- returns _ (create_mesh_object _ _) => unfold create_mesh_object
  | |- returns _ (create_edit_bone _ _ _) => unfold create_edit_bone
  | |- returns _ (set_bone_parent _ _ _) => unfold set_bone_parent
  | |- returns _ (set_pose_bone _ _ _) => unfold set_pose_bone
  | |- returns _ (create_bones _ _ _) => unfold create_bones
  | |- returns _ (calc_empty_display_size _ _) => unfold calc_empty_display_size
  | |- returns _ (display_sizes _ _ _) =>
      apply returns_display_sizes; typeclasses eauto
  end.

Ltac returns_steps blind leaf := repeat (returns_step blind leaf).

Section HandlesFacts.
Context `{host : BlenderHost}.

#[global] Instance same_handles_preorder : PreOrder same_handles.
Proof.
  split.
  - intros s. split; reflexivity.
  - intros s1 s2 s3 [H1 H1'] [H2 H2']. split; congruence.
Qed.

Lemma same_handles_blind s b : same_handles s (set_bpy b s).
Proof. split; reflexivity. Qed.

Lemma handles_create_object_branches gltf vnode_id vnode :
  returns same_handles
    (match mesh_node_idx vnode, camera_node_idx vnode, light_node_idx vnode with
     | Some _, _, _ => create_mesh_object gltf vnode
     | None, Some ci, _ =>
         pynode ← lookup_node gltf ci;
         cam ← lift_host (BlenderCamera_create gltf vnode (camera pynode));
         objects_new (str_or (name vnode) cam) (Some (CameraData cam))
     | None, None, Some li =>
         pynode ← lookup_node gltf li;
         l ← light_of pynode;
         light ← lift_host (BlenderLight_create gltf vnode l);
         objects_new (str_or (name vnode) light) (Some (LightData light))
     | None, None, None =>
         if is_arma vnode then
           armature ← armatures_new (arma_name vnode);
           s ← get;
           let an := default "" (arm_name <$> armatures (bpy s) !! armature) in
           objects_new (str_or (name vnode) an) (Some (ArmatureData armature))
         else
           obj ← objects_new (str_or (name vnode) (default_name vnode)) None;
           size ← calc_empty_display_size gltf vnode_id;
           update_object obj (set_empty_display_size size);;
           ret obj
     end).
Proof.
  returns_steps same_handles_blind ltac:(split; reflexivity).
Qed.

End HandlesFacts.

Section CreateObject.
Context `{host : BlenderHost}.

#[global] Instance keeps_parents_preorder : PreOrder keeps_parents.
Proof.
  split.
  - intros s i o Hi. exists o. auto.
  - intros s1 s2 s3 H12 H23 i o Hi.
    destruct (H12 i o Hi) as (o2 & Hi2 & Ha & Hb & Hc).
    destruct (H23 i o2 Hi2) as (o3 & Hi3 & Ha' & Hb' & Hc').
    exists o3. split_and!; [assumption|congruence..].
Qed.

Lemma parents_update_object obj (f : BObject -> BObject) :
  (forall o, ob_parent (f o) = ob_parent o /\ parent_type (f o) = parent_type o /\
             parent_bone (f o) = parent_bone o) ->
  post keeps_parents (update_object obj f).
Proof.
  intros Hf. apply post_modify. intros s i o Hi. simpl.
  destruct (decide (i = obj)) as [->|Hne].
  - exists (f o). rewrite list_lookup_alter_eq, Hi. split; [reflexivity|apply Hf].
  - exists o. rewrite list_lookup_alter_ne by congruence. auto.
Qed.

Lemma parents_store_key_block m i kb : post keeps_parents (store_key_block m i kb).
Proof. apply post_modify. intros s j o Hj. exists o. auto. Qed.

Lemma parents_set_morph_weights gltf pynode obj :
  post keeps_parents (set_morph_weights gltf pynode obj).
Proof.
  unfold set_morph_weights, lookup_mesh.
  repeat first [post_step | apply post_for_each; [typeclasses eauto|intros ? ?]].
  all: unfold set_morph_weight;
    repeat first [post_step | apply parents_store_key_block
                 | apply parents_update_object; intros ?; auto ].
  all: unfold lookup_key_block; repeat post_step.
Qed.

Lemma parents_setup_skinning gltf pynode obj :
  post keeps_parents (setup_skinning gltf pynode obj).
Proof.
  unfold setup_skinning, lookup_vnode.
  repeat first [post_step | apply parents_update_object; intros ?; auto ].
Qed.

(** A new object has no parent. *)
Lemma objects_new_run n d s obj s' :
  objects_new n d s = Ok obj s' ->
  obj = length (objects (bpy s)) /\
  s' = set_bpy (set_objects
                  (objects (bpy s)
                   ++ [default_object (unique_name (ob_name <$> objects (bpy s)) n) d])
                  (bpy s)) s.
Proof.
  unfold objects_new. cbv [mbind M_bind bind get modify_bpy modify ret].
  intros [= <- <-]. auto.
Qed.

Lemma objects_new_fresh n d s obj s' :
  objects_new n d s = Ok obj s' ->
  exists o, objects (bpy s') !! obj = Some o /\
            ob_parent o = None /\ parent_type o = PARENT_OBJECT /\ parent_bone o = None.
Proof.
  intros Hrun. apply objects_new_run in Hrun as [-> ->]. simpl.
  eexists. rewrite lookup_app_r by lia. rewrite Nat.sub_diag. simpl.
  split; [reflexivity|]. auto.
Qed.

Lemma create_mesh_object_fresh gltf vnode s obj s' :
  create_mesh_object gltf vnode s = Ok obj s' ->
  exists o, objects (bpy s') !! obj = Some o /\
            ob_parent o = None /\ parent_type o = PARENT_OBJECT /\ parent_bone o = None.
Proof.
  intros Hrun. unfold create_mesh_object in Hrun.
  apply bind_ok_inv in Hrun as (pynode & s0 & _ & Hrun).
  apply bind_ok_inv in Hrun as (mi & s1 & _ & Hrun).
  destruct (negb _); [eapply objects_new_fresh; eassumption|].
  apply bind_ok_inv in Hrun as (pymesh & s2 & _ & Hrun).
  apply bind_ok_inv in Hrun as (? & s3 & _ & Hrun).
  apply bind_ok_inv in Hrun as (m & s4 & _ & Hrun).
  apply bind_ok_inv in Hrun as (obj' & s5 & Hnew & Hrun).
  apply objects_new_fresh in Hnew as (o & Ho & Hp).
  assert (Hpost : post keeps_parents
            ((if list_truthy (shapekey_names pymesh)
              then set_morph_weights gltf pynode obj' else ret tt);;
             (if bool_decide (skin pynode ≠ None)
              then setup_skinning gltf pynode obj' else ret tt);;
             ret obj')).
  { repeat first [post_step | apply parents_set_morph_weights
                 | apply parents_setup_skinning]. }
  pose proof Hrun as Hobj.
  apply bind_ok_inv in Hobj as (? & ? & _ & Hobj).
  apply bind_ok_inv in Hobj as (? & ? & _ & Hobj). injection Hobj as <- <-.
  apply (post_ok _ _ _ _ _ Hpost) in Hrun.
  destruct (Hrun _ _ Ho) as (o' & Ho' & Ha & Hb & Hc).
  exists o'. split; [exact Ho'|]. destruct Hp as (? & ? & ?). split_and!; congruence.
Qed.

Lemma create_object_branches_fresh gltf vnode_id vnode s obj s' :
  match mesh_node_idx vnode, camera_node_idx vnode, light_node_idx vnode with
  | Some _, _, _ => create_mesh_object gltf vnode
  | None, Some ci, _ =>
      pynode ← lookup_node gltf ci;
      cam ← lift_host (BlenderCamera_create gltf vnode (camera pynode));
      objects_new (str_or (name vnode) cam) (Some (CameraData cam))
  | None, None, Some li =>
      pynode ← lookup_node gltf li;
      l ← light_of pynode;
      light ← lift_host (BlenderLight_create gltf vnode l);
      objects_new (str_or (name vnode) light) (Some (LightData light))
  | None, None, None =>
      if is_arma vnode then
        armature ← armatures_new (arma_name vnode);
        s ← get;
        let an := default "" (arm_name <$> armatures (bpy s) !! armature) in
        objects_new (str_or (name vnode) an) (Some (ArmatureData armature))
      else
        obj ← objects_new (str_or (name vnode) (default_name vnode)) None;
        size ← calc_empty_display_size gltf vnode_id;
        update_object obj (set_empty_display_size size);;
        ret obj
  end s = Ok obj s' ->
  exists o, objects (bpy s') !! obj = Some o /\
            ob_parent o = None /\ parent_type o = PARENT_OBJECT /\ parent_bone o = None.
Proof.
  destruct (mesh_node_idx vnode) as [mi|]; [apply create_mesh_object_fresh|].
  destruct (camera_node_idx vnode) as [ci|].
  { intros Hrun. apply bind_ok_inv in Hrun as (? & ? & _ & Hrun).
    apply bind_ok_inv in Hrun as (? & ? & _ & Hrun).
    eapply objects_new_fresh; eassumption. }
  destruct (light_node_idx vnode) as [li|].
  { intros Hrun. apply bind_ok_inv in Hrun as (? & ? & _ & Hrun).
    apply bind_ok_inv in Hrun as (? & ? & _ & Hrun).
    apply bind_ok_inv in Hrun as (? & ? & _ & Hrun).
    eapply objects_new_fresh; eassumption. }
  destruct (is_arma vnode).
  { intros Hrun. apply bind_ok_inv in Hrun as (? & ? & _ & Hrun).
    apply bind_ok_inv in Hrun as (? & ? & _ & Hrun).
    eapply objects_new_fresh; eassumption. }
  intros Hrun. apply bind_ok_inv in Hrun as (obj' & s1 & Hnew & Hrun).
  apply objects_new_fresh in Hnew as (o & Ho & Hp).
  apply bind_ok_inv in Hrun as (size & s2 & Hsize & Hrun).
  assert (s2 = s1) as ->.
  { unfold calc_empty_display_size in Hsize.
    apply bind_ok_inv in Hsize as (? & ? & Hv & Hsize).
    unfold lookup_vnode in Hv. destruct (vnodes gltf !! vnode_id); [|discriminate].
    injection Hv as <- <-.
    apply bind_ok_inv in Hsize as (? & ? & Hd & [= <- <-]).
    match type of Hd with
    | display_sizes ?g ?v ?z ?s = _ =>
        destruct (display_sizes_outcome g v z s) as [[_ Hr]|[_ Hr]];
          rewrite Hr in Hd; [|discriminate]
    end.
    injection Hd as _ <-. reflexivity. }
  apply bind_ok_inv in Hrun as ([] & s3 & Hupd & [= <- <-]).
  unfold update_object, modify_bpy, modify in Hupd. injection Hupd as <-.
  simpl. rewrite list_lookup_alter_eq, Ho. simpl. eexists. split; [reflexivity|].
  exact Hp.
Qed.

Lemma node_extras_state gltf id old s ex s' :
  node_extras gltf id old s = Ok ex s' -> s' = s.
Proof.
  unfold node_extras, lookup_node. cbv [mbind M_bind bind from_option ret raise].
  destruct id as [k|]; [destruct (getitem (nodes gltf) k)|]; congruence.
Qed.

Lemma object_updated_run obj f s s' :
  update_object obj f s = Ok tt s' -> object_updated obj f s s'.
Proof.
  unfold update_object, modify_bpy, modify. intros [= <-].
  unfold object_updated. simpl. rewrite list_lookup_alter_eq. auto.
Qed.

Lemma object_updated_refl obj s : object_updated obj (fun o => o) s s.
Proof.
  unfold object_updated. destruct (objects (bpy s) !! obj); simpl; auto.
Qed.

Lemma object_updated_trans obj f g s1 s2 s3 :
  object_updated obj f s1 s2 -> object_updated obj g s2 s3 ->
  object_updated obj (g ∘ f) s1 s3.
Proof.
  intros (H1 & H2 & H3 & H4) (H1' & H2' & H3' & H4'). unfold object_updated.
  rewrite H1', H2', H3', H4', H4, option_fmap_compose. auto.
Qed.

(** The step "Set parent" of [create_object]. *)
Lemma set_parent_run gltf vnode obj s s' :
  match parent vnode with
  | Some p =>
      parent_vnode ← lookup_vnode gltf p;
      match type parent_vnode with
      | Object =>
          s ← get;
          update_object obj (set_ob_parent (blender_object s !! p))
      | Bone =>
          arma_id ← from_option KeyError (bone_arma parent_vnode);
          _ ← lookup_vnode gltf arma_id;
          s ← get;
          update_object obj (set_ob_parent (blender_object s !! arma_id));;
          update_object obj (set_parent_type PARENT_BONE);;
          update_object obj (set_parent_bone (blender_bone_name s !! p));;
          update_object obj (fun o =>
            set_location (vadd (location o) (Vec 0 (- bone_length parent_vnode) 0)) o)
      | DummyRoot => ret tt
      end
  | None => ret tt
  end s = Ok tt s' ->
  exists f,
    object_updated obj f s s' /\
    match parent vnode with
    | Some p =>
        exists parent_vnode,
          vnodes gltf !! p = Some parent_vnode /\
          match type parent_vnode with
          | Object => f = set_ob_parent (blender_object s !! p)
          | Bone =>
              exists arma_id,
                bone_arma parent_vnode = Some arma_id /\
                f = (fun o =>
                       set_location
                         (vadd (location o) (Vec 0 (- bone_length parent_vnode) 0))
                         (set_parent_bone (blender_bone_name s !! p)
                            (set_parent_type PARENT_BONE
                               (set_ob_parent (blender_object s !! arma_id) o))))
          | DummyRoot => f = (fun o => o)
          end
    | None => f = (fun o => o)
    end.
Proof.
  destruct (parent vnode) as [p|].
  - intros Hrun. apply bind_ok_inv in Hrun as (pv & ? & Hv & Hrun).
    unfold lookup_vnode in Hv. destruct (vnodes gltf !! p) as [pv'|]; [|discriminate].
    injection Hv as <- <-.
    destruct (type pv') eqn:Ht.
    + apply bind_ok_inv in Hrun as (? & ? & [= <- <-] & Hrun).
      apply object_updated_run in Hrun.
      eexists. split; [exact Hrun|]. exists pv'. rewrite Ht. auto.
    + apply bind_ok_inv in Hrun as (arma_id & ? & Ha & Hrun).
      destruct (bone_arma pv') as [aid|] eqn:Haid; [|discriminate].
      injection Ha as <- <-.
      apply bind_ok_inv in Hrun as (? & ? & Hav & Hrun).
      unfold lookup_vnode in Hav. destruct (vnodes gltf !! aid); [|discriminate].
      injection Hav as _ <-.
      apply bind_ok_inv in Hrun as (? & ? & [= <- <-] & Hrun).
      apply bind_ok_inv in Hrun as ([] & s1 & H1 & Hrun).
      apply bind_ok_inv in Hrun as ([] & s2 & H2 & Hrun).
      apply bind_ok_inv in Hrun as ([] & s3 & H3 & H4).
      apply object_updated_run in H1, H2, H3, H4.
      pose proof (object_updated_trans _ _ _ _ _ _
                    (object_updated_trans _ _ _ _ _ _
                       (object_updated_trans _ _ _ _ _ _ H1 H2) H3) H4) as Hall.
      eexists. split; [exact Hall|]. exists pv'. rewrite Ht.
      split; [reflexivity|]. exists aid. split; [exact Haid|reflexivity].
    + injection Hrun as <-. exists (fun o => o). split; [apply object_updated_refl|].
      exists pv'. rewrite Ht. auto.
  - intros [= <-]. exists (fun o => o). split; [apply object_updated_refl|reflexivity].
Qed.

(** One run of [create_object] that returns. *)
Lemma create_object_run gltf vnode_id s obj s' :
  create_object gltf vnode_id s = Ok obj s' ->
  exists vnode o linked,
    vnodes gltf !! vnode_id = Some vnode /\
    blender_object s' = <[vnode_id := obj]> (blender_object s) /\
    blender_bone_name s' = blender_bone_name s /\
    objects (bpy s') !! obj = Some o /\
    scenes (bpy s') !! blender_scene gltf = Some (linked ++ [obj]) /\
    rotation_mode o = QUATERNION /\
    rotation_quaternion o = (trs vnode).1.2 /\
    scale o = (trs vnode).2 /\
    location o = match bone_parent gltf vnode with
                 | Some parent_vnode =>
                     vadd (trs vnode).1.1 (Vec 0 (- bone_length parent_vnode) 0)
                 | None => (trs vnode).1.1
                 end /\
    (has_gltf2_animation_rest = true ->
     gltf2_animation_rest o
     = Some (LocRotScale (location o) (rotation_quaternion o) (scale o))) /\
    match parent vnode with
    | Some p =>
        exists parent_vnode,
          vnodes gltf !! p = Some parent_vnode /\
          match type parent_vnode with
          | Object =>
              ob_parent o = blender_object s' !! p /\
              parent_type o = PARENT_OBJECT /\ parent_bone o = None
          | Bone =>
              exists arma_id,
                bone_arma parent_vnode = Some arma_id /\
                ob_parent o = blender_object s' !! arma_id /\
                parent_type o = PARENT_BONE /\
                parent_bone o = blender_bone_name s' !! p
          | DummyRoot =>
              ob_parent o = None /\ parent_type o = PARENT_OBJECT /\ parent_bone o = None
          end
    | None => ob_parent o = None /\ parent_type o = PARENT_OBJECT /\ parent_bone o = None
    end.
Proof.
  intros Hrun. unfold create_object in Hrun.
  apply bind_ok_inv in Hrun as (vnode & ? & Hv & Hrun).
  unfold lookup_vnode in Hv.
  destruct (vnodes gltf !! vnode_id) as [vnode'|] eqn:Hvn; [|discriminate].
  injection Hv as <- <-.
  apply bind_ok_inv in Hrun as (obj0 & s1 & Hbranch & Hrun).
  pose proof (handles_create_object_branches gltf vnode_id vnode' _ _ _ Hbranch)
    as [Hbo Hbbn].
  apply create_object_branches_fresh in Hbranch as (o1 & Ho1 & Hpa & Hpt & Hpb).
  apply bind_ok_inv in Hrun as ([] & s2 & [= <-] & Hrun).
  apply bind_ok_inv in Hrun as (? & ? & [= <- <-] & Hrun).
  apply bind_ok_inv in Hrun as (ex & s3 & Hex & Hrun).
  apply node_extras_state in Hex as ->.
  set (s2 := set_blender_object (<[vnode_id:=obj0]> (blender_object s1)) s1) in *.
  assert (Ho2 : objects (bpy s2) !! obj0 = Some o1) by exact Ho1.
  assert (Hbo2 : blender_object s2 = <[vnode_id:=obj0]> (blender_object s)).
  { unfold s2. simpl. rewrite Hbo. reflexivity. }
  assert (Hbbn2 : blender_bone_name s2 = blender_bone_name s) by exact Hbbn.
  clearbody s2. clear Ho1 Hbo Hbbn s1.
  apply bind_ok_inv in Hrun as ([] & s4 & H4 & Hrun).
  unfold bone_parent.
  destruct (trs vnode') as [[trans rot] scl] eqn:Htrs.
  apply bind_ok_inv in Hrun as ([] & s5 & H5 & Hrun).
  apply bind_ok_inv in Hrun as ([] & s6 & H6 & Hrun).
  apply bind_ok_inv in Hrun as ([] & s7 & H7 & Hrun).
  apply bind_ok_inv in Hrun as ([] & s8 & H8 & Hrun).
  apply bind_ok_inv in Hrun as ([] & s9 & Hparent & Hrun).
  apply bind_ok_inv in Hrun as ([] & s10 & Hrest & Hrun).
  apply bind_ok_inv in Hrun as ([] & s11 & Hlink & [= <- <-]).
  apply object_updated_run in H4, H5, H6, H7, H8.
  pose proof (object_updated_trans _ _ _ _ _ _
                (object_updated_trans _ _ _ _ _ _
                   (object_updated_trans _ _ _ _ _ _
                      (object_updated_trans _ _ _ _ _ _ H4 H5) H6) H7) H8) as H48.
  clear H4 H5 H6 H7 H8.
  apply set_parent_run in Hparent as (fp & Hfp & Hcase).
  pose proof (object_updated_trans _ _ _ _ _ _ H48 Hfp) as H49.
  assert (Hfr : exists fr,
            object_updated obj0 fr s9 s10 /\
            (forall o, location (fr o) = location o /\
                       rotation_mode (fr o) = rotation_mode o /\
                       rotation_quaternion (fr o) = rotation_quaternion o /\
                       scale (fr o) = scale o /\ ob_parent (fr o) = ob_parent o /\
                       parent_type (fr o) = parent_type o /\
                       parent_bone (fr o) = parent_bone o /\
                       (has_gltf2_animation_rest = true ->
                        gltf2_animation_rest (fr o)
                        = Some (LocRotScale (location o) (rotation_quaternion o)
                                            (scale o))))).
  { destruct has_gltf2_animation_rest.
    - apply object_updated_run in Hrest. eexists. split; [exact Hrest|].
      intros o. simpl. auto 10.
    - injection Hrest as <-. exists (fun o => o). split; [apply object_updated_refl|].
      intros o. simpl. split_and!; try reflexivity. discriminate. }
  destruct Hfr as (fr & Hfr & Hfields).
  pose proof (object_updated_trans _ _ _ _ _ _ H49 Hfr) as (Hbo & Hbbn & Hsc & Hobj).
  rewrite Ho2 in Hobj. cbn [fmap option_fmap option_map compose] in Hobj.
  unfold scene_link in Hlink.
  apply bind_ok_inv in Hlink as (? & ? & [= <- <-] & Hlink).
  apply bind_ok_inv in Hlink as (linked & ? & Hscene & Hlink).
  destruct (scenes (bpy s10) !! blender_scene gltf) as [linked'|]; [|discriminate].
  injection Hscene as <- <-.
  unfold modify_bpy, modify in Hlink. injection Hlink as <-.
  destruct Hfp as (Hbo9 & Hbbn9 & _ & _). destruct H48 as (Hbo8 & Hbbn8 & _ & _).
  eexists vnode', _, linked'. rewrite Htrs. simpl.
  split; [reflexivity|]. split; [congruence|]. split; [congruence|].
  split; [exact Hobj|]. split; [apply lookup_insert_eq|].
  match goal with
  | |- context [fr ?o] => destruct (Hfields o) as (Hl & Hm & Hq & Hs & Hpa' & Hpt' & Hpb' & Hr)
  end.
  rewrite Hl, Hm, Hq, Hs, Hpa', Hpt', Hpb'.
  assert (Hbo' : blender_object s10 = blender_object s8) by congruence.
  assert (Hbbn' : blender_bone_name s10 = blender_bone_name s8) by congruence.
  rewrite Hbo', Hbbn'.
  destruct (parent vnode') as [p|]; simpl.
  - destruct Hcase as (pv & Hpv & Hcase). rewrite Hpv. simpl.
    destruct (type pv) eqn:Ht; simpl.
    + subst fp. simpl. split_and!; try reflexivity; try assumption.
      exists pv. rewrite Ht. split; [reflexivity|]. simpl. auto.
    + destruct Hcase as (aid & Haid & ->). simpl.
      split_and!; try reflexivity; try assumption.
      exists pv. rewrite Ht. split; [reflexivity|]. exists aid. auto.
    + subst fp. simpl. split_and!; try reflexivity; try assumption.
      exists pv. rewrite Ht. split; [reflexivity|]. simpl. auto.
  - subst fp. simpl. split_and!; try reflexivity; try assumption.
Qed.

(** X6.  When [create_object] returns, the object it returns is the
    [blender_object] of the node, it is the last object linked to the
    collection of the scene, its rotation mode is QUATERNION, its
    rotation and scale are those of the TRS of the node, and its
    location is the translation of the node, moved back along Y by
    the length of the parent bone when the parent is a bone; the rest
    matrix, where the property is registered, is made from this final
    location, rotation and scale. *)
Theorem create_object_sets_transform gltf vnode_id s obj s' :
  create_object gltf vnode_id s = Ok obj s' ->
  exists vnode o linked,
    vnodes gltf !! vnode_id = Some vnode /\
    blender_object s' = <[vnode_id := obj]> (blender_object s) /\
    objects (bpy s') !! obj = Some o /\
    scenes (bpy s') !! blender_scene gltf = Some (linked ++ [obj]) /\
    rotation_mode o = QUATERNION /\
    rotation_quaternion o = (trs vnode).1.2 /\
    scale o = (trs vnode).2 /\
    location o = match bone_parent gltf vnode with
                 | Some parent_vnode =>
                     vadd (trs vnode).1.1 (Vec 0 (- bone_length parent_vnode) 0)
                 | None => (trs vnode).1.1
                 end /\
    (has_gltf2_animation_rest = true ->
     gltf2_animation_rest o
     = Some (LocRotScale (location o) (rotation_quaternion o) (scale o))).
Proof.
  intros Hrun.
  destruct (create_object_run _ _ _ _ _ Hrun)
    as (vnode & o & linked & Hv & Hbo & _ & Ho & Hsc & Hm & Hq & Hs & Hl & Hr & _).
  exists vnode, o, linked. auto 10.
Qed.


End CreateObject.

(** ** The handles of the nodes after create_vnode *)

Section ReturnsMore.
Context (P : State -> State -> Prop) `{!PreOrder P}.

Lemma returns_bind_from_option {A B} (e : exn) (o : option A) (k : A -> M State B) :
  (forall a, o = Some a -> returns P (k a)) -> returns P (from_option e o ≫= k).
Proof.
  intros Hk s b s' Hrun. destruct o as [a|]; [|discriminate].
  exact (Hk a eq_refl s b s' Hrun).
Qed.

(** What each run of the body gives at [x0] and every later run keeps
    holds after the loop. *)
Lemma for_each_established {A} (Q : State -> Prop) (l : list A)
      (body : A -> M State unit) (x0 : A) s s' :
  for_each l body s = Ok tt s' -> x0 ∈ l ->
  (forall s1 s2, body x0 s1 = Ok tt s2 -> Q s2) ->
  (forall y s1 s2, y ∈ l -> body y s1 = Ok tt s2 -> Q s1 -> Q s2) ->
  Q s'.
Proof.
  intros Hrun Hx Hest Hkeep. revert s Hrun.
  assert (Hafter : forall l' s1, (forall y, y ∈ l' -> y ∈ l) ->
            for_each l' body s1 = Ok tt s' -> Q s1 -> Q s').
  { induction l' as [|y l' IH]; intros s1 Hsub Hrun Hq.
    - injection Hrun as <-. exact Hq.
    - simpl in Hrun. apply (bind_ok_inv (body y)) in Hrun as ([] & s2 & Hy & Hrun).
      apply (IH s2); [intros z Hz; apply Hsub; right; exact Hz|exact Hrun|].
      eapply Hkeep; [apply Hsub; left|exact Hy|exact Hq]. }
  assert (Hgen : forall l', (forall y, y ∈ l' -> y ∈ l) -> x0 ∈ l' ->
            forall s, for_each l' body s = Ok tt s' -> Q s').
  { induction l' as [|y l' IH]; intros Hsub Hin s Hrun; [inversion Hin|].
    simpl in Hrun. apply (bind_ok_inv (body y)) in Hrun as ([] & s2 & Hy & Hrun).
    apply elem_of_cons in Hin as [->|Hin].
    - apply (Hafter l' s2); [intros z Hz; apply Hsub; right; exact Hz|exact Hrun|].
      eapply Hest, Hy.
    - apply (IH (fun z Hz => Hsub z (list_elem_of_further _ _ _ Hz)) Hin s2 Hrun). }
  intros s Hrun. apply (Hgen l (fun y Hy => Hy) Hx s Hrun).
Qed.

End ReturnsMore.

Section ObjectHandles.
Context `{host : BlenderHost} (gltf : Gltf).

#[global] Instance keeps_object_handles_preorder : PreOrder (keeps_object_handles gltf).
Proof.
  split.
  - intros s x v _ _ H. exact H.
  - intros s1 s2 s3 H12 H23 x v Hv Ht H. eapply H23, H12; eassumption.
Qed.

Lemma handles_blind s b : keeps_object_handles gltf s (set_bpy b s).
Proof. intros x v _ _ H. exact H. Qed.

Lemma handles_same s s' :
  blender_object s' = blender_object s -> keeps_object_handles gltf s s'.
Proof. intros Heq x v _ _ H. rewrite Heq. exact H. Qed.

Lemma handles_insert s id obj :
  keeps_object_handles gltf s (set_blender_object (<[id := obj]> (blender_object s)) s).
Proof.
  intros x v _ _ H. simpl. destruct (decide (x = id)) as [->|Hne].
  - rewrite lookup_insert_eq. eauto.
  - rewrite lookup_insert_ne by congruence. exact H.
Qed.

Lemma handles_delete s id vnode :
  vnodes gltf !! id = Some vnode -> type vnode <> Object ->
  keeps_object_handles gltf s (set_blender_object (delete id (blender_object s)) s).
Proof.
  intros Hv Ht x v Hx Hxt H. simpl.
  rewrite lookup_delete_ne; [exact H|]. intros ->. congruence.
Qed.

Lemma handles_create_object id :
  returns (keeps_object_handles gltf) (create_object gltf id).
Proof.
  unfold create_object.
  returns_steps handles_blind
    ltac:(first [apply handles_insert | apply handles_same; reflexivity]).
Qed.

Lemma handles_create_bones fuel id :
  returns (keeps_object_handles gltf) (create_bones fuel gltf id).
Proof.
  returns_steps handles_blind ltac:(apply handles_same; reflexivity).
Qed.

Lemma handles_create_vnode fuel id :
  returns (keeps_object_handles gltf) (create_vnode fuel gltf id).
Proof.
  revert id. induction fuel as [|fuel IH]; intros id; simpl;
    [apply returns_out_of_fuel|].
  unfold lookup_vnode. apply returns_bind_from_option; [typeclasses eauto..|].
  intros vnode Hv.
  apply returns_bind; [typeclasses eauto..| |intros _].
  { apply returns_modify; [typeclasses eauto..|]. intros s.
    apply handles_same. reflexivity. }
  apply returns_bind; [typeclasses eauto..| |intros _].
  { destruct (bool_decide _); [|apply returns_ret; typeclasses eauto].
    apply returns_modify; [typeclasses eauto..|]. intros s.
    apply handles_same. reflexivity. }
  apply returns_bind; [typeclasses eauto..| |intros _].
  - destruct (type vnode) eqn:Ht.
    + apply returns_bind; [typeclasses eauto..| |intros _].
      { returns_steps handles_blind ltac:(apply handles_same; reflexivity). }
      apply returns_bind; [typeclasses eauto..|apply handles_create_object|intros _].
      destruct (is_arma vnode); [apply handles_create_bones|].
      apply returns_ret; typeclasses eauto.
    + apply returns_ret; typeclasses eauto.
    + apply returns_modify; [typeclasses eauto..|]. intros s.
      eapply handles_delete; [exact Hv|congruence].
  - apply returns_for_each; [typeclasses eauto..|]. intros c _. apply IH.
Qed.

(** The ids of the walk do not depend on the flag. *)
Lemma preorder_ids fuel linked linked' id :
  (preorder fuel gltf linked id).*1 = (preorder fuel gltf linked' id).*1.
Proof.
  revert linked linked' id. induction fuel as [|fuel IH]; intros l l' id; simpl;
    [reflexivity|].
  destruct (vnodes gltf !! id) as [v|]; [|reflexivity]. simpl. f_equal.
  rewrite !fmap_flat_map.
  induction (children v) as [|c cs IHcs]; simpl; [reflexivity|].
  rewrite IHcs. f_equal. apply IH.
Qed.

(** Every node of kind Object that the walk enters has a
    [blender_object] when [create_vnode] returns. *)
Lemma create_vnode_handles fuel id s s' :
  create_vnode fuel gltf id s = Ok tt s' ->
  forall x v, x ∈ (preorder fuel gltf true id).*1 ->
    vnodes gltf !! x = Some v -> type v = Object ->
    is_Some (blender_object s' !! x).
Proof.
  revert id s s'. induction fuel as [|fuel IH]; intros id s s' Hrun x v Hx Hxv Hxt;
    [discriminate|].
  simpl in Hrun, Hx. unfold lookup_vnode in Hrun.
  destruct (vnodes gltf !! id) as [vnode|] eqn:Hv; [|discriminate].
  apply bind_ok_inv in Hrun as (? & ? & [= <- <-] & Hrun).
  apply bind_ok_inv in Hrun as ([] & s1 & _ & Hrun).
  apply bind_ok_inv in Hrun as ([] & s2 & _ & Hrun).
  apply bind_ok_inv in Hrun as ([] & s3 & Hnode & Hloop).
  simpl in Hx. apply elem_of_cons in Hx as [->|Hx].
  - (* the node itself *)
    rewrite Hv in Hxv. injection Hxv as <-. rewrite Hxt in Hnode.
    apply bind_ok_inv in Hnode as (? & s4 & _ & Hnode).
    apply bind_ok_inv in Hnode as (obj & s5 & Hobj & Hbones).
    apply create_object_run in Hobj as (? & ? & ? & _ & Hbo & _).
    assert (H5 : is_Some (blender_object s5 !! id)).
    { rewrite Hbo, lookup_insert_eq. eauto. }
    assert (H3 : is_Some (blender_object s3 !! id)).
    { destruct (is_arma vnode).
      - eapply (handles_create_bones _ _ _ _ _ Hbones); eassumption.
      - injection Hbones as <-. exact H5. }
    assert (Hkeep : returns (keeps_object_handles gltf)
                      (for_each (children vnode) (create_vnode fuel gltf))).
    { apply returns_for_each; [typeclasses eauto..|]. intros c _.
      apply handles_create_vnode. }
    eapply (Hkeep _ _ _ Hloop); eassumption.
  - (* a node below a child *)
    rewrite fmap_flat_map in Hx. apply elem_of_flat_map in Hx as (c & Hc & Hx).
    rewrite (preorder_ids fuel _ true) in Hx.
    apply (for_each_established (fun s => is_Some (blender_object s !! x))
             (children vnode) (create_vnode fuel gltf) c s3 s' Hloop Hc).
    + intros s1' s2' Hone. eapply IH; eassumption.
    + intros y s1' s2' _ Hone Hq.
      eapply (handles_create_vnode _ _ _ _ _ Hone); eassumption.
Qed.

End ObjectHandles.

Section WalkTheorems.
Context `{host : BlenderHost}.

(** X8.  On a forest, when [create_vnode] returns, every node of kind
    Object in the subtree it was started at has a [blender_object];
    and a node of kind Object that had one before still has one: the
    only handle that [create_vnode] takes away is that of a
    DummyRoot. *)
Theorem create_vnode_gives_objects_handles gltf id s :
  forest gltf ->
  exists n, forall fuel, (n <= fuel)%nat -> forall s',
    create_vnode fuel gltf id s = Ok tt s' ->
    (forall x v, descendant gltf id x -> vnodes gltf !! x = Some v -> type v = Object ->
                 is_Some (blender_object s' !! x)) /\
    keeps_object_handles gltf s s'.
Proof.
  intros [Hparent Hnodup [h Hh]]. exists (S (h id)). intros fuel Hfuel s' Hrun. split.
  - intros x v Hd Hv Ht. eapply create_vnode_handles; [exact Hrun| |exact Hv|exact Ht].
    apply (preorder_complete gltf h Hh); [exact Hd|lia].
  - eapply handles_create_vnode, Hrun.
Qed.

End WalkTheorems.

Section ExactCount.
Context `{host : BlenderHost} (gltf : Gltf) (h : VNodeId -> nat).
Hypothesis h_decreases : forall p c, child_of gltf p c -> (h c < h p)%nat.

Lemma for_each_counts {A B} (g : A -> list B) (l : list A) (body : A -> M State unit) s s' :
  (forall x s1 s2, x ∈ l -> body x s1 = Ok tt s2 ->
     display_current_node s2 = display_current_node s1 + Z.of_nat (length (g x))) ->
  for_each l body s = Ok tt s' ->
  display_current_node s' = display_current_node s + Z.of_nat (length (flat_map g l)).
Proof.
  revert s. induction l as [|x l IH]; intros s Hb Hrun; simpl in *.
  - injection Hrun as <-. lia.
  - apply (bind_ok_inv (body x)) in Hrun as ([] & s1 & Hx & Hrun).
    rewrite length_app, (IH s1); [|intros; apply Hb; [right|]; assumption|exact Hrun].
    rewrite (Hb x s s1); [lia|left|exact Hx].
Qed.

(** When [create_vnode] returns it has counted each node of the walk
    once. *)
Lemma create_vnode_counts fuel linked id s s' :
  (h id < fuel)%nat ->
  create_vnode fuel gltf id s = Ok tt s' ->
  display_current_node s'
  = display_current_node s + Z.of_nat (length (preorder fuel gltf linked id)).
Proof.
  revert linked id s s'. induction fuel as [|fuel IH]; intros linked id s s' Hlt Hrun;
    [lia|].
  simpl in Hrun. unfold lookup_vnode in Hrun. simpl.
  destruct (vnodes gltf !! id) as [vnode|] eqn:Hv; [|discriminate].
  apply bind_ok_inv in Hrun as (? & ? & [= <- <-] & Hrun).
  apply bind_ok_inv in Hrun as ([] & s1 & [= <-] & Hrun).
  apply bind_ok_inv in Hrun as ([] & s2 & H2 & Hrun).
  apply bind_ok_inv in Hrun as ([] & s3 & H3 & Hloop).
  assert (C2 : same_counter (set_display_current_node (display_current_node s + 1) s) s2).
  { eapply post_ok; [|exact H2]. counter. }
  assert (C3 : same_counter s2 s3).
  { eapply post_ok; [|exact H3]. unfold lookup_node. counter.
    - apply counter_create_object.
    - apply (counter_create_bones gltf h h_decreases). lia. }
  unfold same_counter in C2, C3. simpl in C2.
  pose proof (for_each_counts (preorder fuel gltf (linked && bool_decide (type vnode = Bone)))
                (children vnode) (create_vnode fuel gltf) s3 s') as Hcount.
  rewrite Hcount; [| |exact Hloop].
  - simpl. lia.
  - intros c sa sb Hc Hone. apply IH; [|exact Hone].
    assert (child_of gltf id c) as Hcc by (exists vnode; auto).
    apply h_decreases in Hcc. lia.
Qed.

End ExactCount.

Section ExactCountTheorem.
Context `{host : BlenderHost}.

(** X9.  On a forest, when [create_vnode] returns it has entered every
    node of the subtree it was started at exactly once: the nodes it
    has counted in [display_current_node] are, without repetition,
    the node and its descendants. *)
Theorem create_vnode_counts_each_node_once gltf id s :
  forest gltf ->
  exists n, forall fuel, (n <= fuel)%nat -> forall s',
    create_vnode fuel gltf id s = Ok tt s' ->
    exists visited,
      NoDup visited /\
      (forall x, x ∈ visited <-> descendant gltf id x) /\
      display_current_node s' = display_current_node s + Z.of_nat (length visited).
Proof.
  intros [Hparent Hnodup [h Hh]]. exists (S (h id)). intros fuel Hfuel s' Hrun.
  assert (Hid : is_Some (vnodes gltf !! id)).
  { destruct fuel as [|fuel]; [discriminate|]. simpl in Hrun. unfold lookup_vnode in Hrun.
    destruct (vnodes gltf !! id); [eauto|discriminate]. }
  destruct (preorder_subtree gltf h Hh Hparent Hnodup fuel true id Hid) as [Hsub Hnd].
  exists (preorder fuel gltf true id).*1. split_and!.
  - exact Hnd.
  - intros x. split.
    + intros Hx. apply Hsub, Hx.
    + intros Hd. apply (preorder_complete gltf h Hh); [exact Hd|lia].
  - rewrite length_fmap. apply (create_vnode_counts gltf h Hh); [lia|exact Hrun].
Qed.

End ExactCountTheorem.

(** ** The bones of an armature after create_bones *)

(** A proof that a computation which assigns to the state, and to
    the data of the host by assignments only, satisfies [returns P];
    [leaf] proves that an assignment keeps [P]. *)
Ltac returns_walk leaf :=
  repeat lazymatch goal with
  | |- returns _ (_ ≫= _) => apply returns_bind; [typeclasses eauto..| |intros ?]
  | |- returns _ (ret _) => apply returns_ret; typeclasses eauto
  | |- returns _ (mret _) => apply returns_mret; typeclasses eauto
  | |- returns _ (raise _) => apply returns_raise
  | |- returns _ get => apply returns_get; typeclasses eauto
  | |- returns _ (from_option _ _) => apply returns_from_option; typeclasses eauto
  | |- returns _ (for_each _ _) => apply returns_for_each; [typeclasses eauto..|intros ? ?]
  | |- returns _ (find_bones _ _ _) => apply returns_find_bones; typeclasses eauto
  | |- returns _ (modify _) => apply returns_modify; [typeclasses eauto..|intros ?; leaf]
  | |- returns _ (modify_bpy _) => unfold modify_bpy
  | |- returns _ (update_object _ _) => unfold update_object
  | |- returns _ (update_edit_bone _ _ _) => unfold update_edit_bone
  | |- returns _ (update_pose_bone _ _ _) => unfold update_pose_bone
  | |- returns _ (let _ := _ in _) => cbv zeta
  | |- returns _ (match ?x with _ => _ end) => destruct x
  | |- returns _ (lookup_vnode _ _) => unfold lookup_vnode
  | |- returns _ (lookup_vnode_opt _ _) => unfold lookup_vnode_opt
  | |- returns _ (lookup_node _ _) => unfold lookup_node
  | |- returns _ (armature_of _) => unfold armature_of
  | |- returns _ (edit_bone_named _ _) => unfold edit_bone_named
  | |- returns _ (node_extras _ _ _) => unfold node_extras
  | |- returns _ (mode_set _) => unfold mode_set
  | |- returns _ (create_edit_bone _ _ _) => unfold create_edit_bone
  | |- returns _ (set_bone_parent _ _ _) => unfold set_bone_parent
  | |- returns _ (set_pose_bone _ _ _) => unfold set_pose_bone
  end.

Section FindBonesOnce.
Context `{host : BlenderHost} (gltf : Gltf).

Lemma preorder_linked_bone fuel linked id x :
  (x, true) ∈ preorder fuel gltf linked id -> is_bone gltf x.
Proof.
  revert linked id. induction fuel as [|fuel IH]; intros linked id; simpl.
  - intros H. inversion H.
  - destruct (vnodes gltf !! id) as [v|] eqn:Hv.
    + intros H. apply elem_of_cons in H as [[= -> Hl]|H].
      * unfold is_bone. rewrite Hv. symmetry in Hl.
        apply andb_true_iff in Hl as [_ Hl]. rewrite Hl. exact I.
      * apply elem_of_flat_map in H as (c & _ & H). eapply IH, H.
    + intros H. apply list_elem_of_singleton in H. discriminate.
Qed.

Lemma linked_ids_elem l x : x ∈ linked_ids l <-> (x, true) ∈ l.
Proof.
  unfold linked_ids. rewrite list_elem_of_fmap. split.
  - intros ([y b] & -> & H). apply list_elem_of_filter in H as [Hb H].
    simpl in Hb. destruct b; [exact H|contradiction].
  - intros H. exists (x, true). split; [reflexivity|].
    apply list_elem_of_filter. split; [exact I|exact H].
Qed.

Lemma linked_ids_NoDup l : NoDup l.*1 -> NoDup (linked_ids l).
Proof.
  intros Hnd. unfold linked_ids. eapply sublist_NoDup; [exact Hnd|].
  apply fmap_sublist, sublist_filter.
Qed.

End FindBonesOnce.

Section FindBonesOnceTheorem.
Context `{host : BlenderHost}.

(** X10.  On a forest, the list [bone_ids] that [create_bones] collects
    holds no id twice, only nodes of kind Bone, and only descendants
    of the armature other than the armature itself: each bone gets
    one edit bone in the first loop and is visited once in the other
    two. *)
Theorem find_bones_collects_each_bone_once gltf arma_id arma s :
  forest gltf -> vnodes gltf !! arma_id = Some arma ->
  exists n, forall fuel, (n <= fuel)%nat ->
    exists bone_ids,
      find_bones fuel gltf arma s = Ok bone_ids s /\
      NoDup bone_ids /\
      forall x, x ∈ bone_ids ->
        is_bone gltf x /\ descendant gltf arma_id x /\ x <> arma_id.
Proof.
  intros [Hparent Hnodup [h Hh]] Hv. exists (h arma_id). intros fuel Hle.
  assert (Hexist : forall p c, child_of gltf p c -> is_Some (vnodes gltf !! c)).
  { intros p c Hc. destruct (Hparent _ _ Hc) as (vc & Hvc & _). eauto. }
  exists (linked_bones fuel gltf arma). split_and!.
  - eapply find_bones_linked; eassumption.
  - apply linked_ids_NoDup. rewrite fmap_flat_map. apply NoDup_flat_map.
    + eapply Hnodup, Hv.
    + intros c Hc. apply (preorder_subtree gltf h Hh Hparent Hnodup).
      apply (Hexist arma_id). exists arma. auto.
    + intros c1 c2 x Hc1 Hc2 Hx1 Hx2.
      assert (Hcc1 : child_of gltf arma_id c1) by (exists arma; auto).
      assert (Hcc2 : child_of gltf arma_id c2) by (exists arma; auto).
      destruct (preorder_subtree gltf h Hh Hparent Hnodup fuel true c1 (Hexist _ _ Hcc1))
        as [Hsub1 _].
      destruct (preorder_subtree gltf h Hh Hparent Hnodup fuel true c2 (Hexist _ _ Hcc2))
        as [Hsub2 _].
      eapply (sibling_subtrees_disjoint gltf h Hh Hparent);
        [exact Hcc1|exact Hcc2|apply Hsub1, Hx1|apply Hsub2, Hx2].
  - intros x Hx. apply linked_ids_elem in Hx.
    apply elem_of_flat_map in Hx as (c & Hc & Hx).
    assert (Hcc : child_of gltf arma_id c) by (exists arma; auto).
    split; [eapply preorder_linked_bone, Hx|].
    destruct (preorder_subtree gltf h Hh Hparent Hnodup fuel true c (Hexist _ _ Hcc))
      as [Hsub _].
    destruct (Hsub x) as [Hd _].
    { apply list_elem_of_fmap. exists (x, true). auto. }
    split; [eapply child_descendant; eassumption|].
    intros ->. apply (descendant_height gltf h Hh) in Hd. apply Hh in Hcc. lia.
Qed.

End FindBonesOnceTheorem.

Section BonesAfter.
Context `{host : BlenderHost}.

#[global] Instance keeps_bone_names_preorder : PreOrder keeps_bone_names.
Proof.
  split.
  - intros s x H. exact H.
  - intros s1 s2 s3 H12 H23 x H. apply H23, H12, H.
Qed.

#[global] Instance keeps_pose_names_preorder obj : PreOrder (keeps_pose_names obj).
Proof.
  split.
  - intros s o Ho. exists o. auto.
  - intros s1 s2 s3 H12 H23 o Ho.
    destruct (H12 o Ho) as (o2 & Ho2 & Hn2). destruct (H23 o2 Ho2) as (o3 & Ho3 & Hn3).
    exists o3. split; [exact Ho3|congruence].
Qed.

#[global] Instance same_context_preorder : PreOrder same_context.
Proof.
  split.
  - intros s. unfold same_context. auto.
  - intros s1 s2 s3 (A & B & C & D) (A' & B' & C' & D'). unfold same_context.
    split_and!; congruence.
Qed.

Lemma bone_names_same s s' :
  blender_bone_name s' = blender_bone_name s -> keeps_bone_names s s'.
Proof. intros Heq x H. rewrite Heq. exact H. Qed.

Lemma bone_names_insert s id n :
  keeps_bone_names s (set_blender_bone_name (<[id := n]> (blender_bone_name s)) s).
Proof.
  intros x H. simpl. destruct (decide (x = id)) as [->|Hne].
  - rewrite lookup_insert_eq. eauto.
  - rewrite lookup_insert_ne by congruence. exact H.
Qed.

Lemma names_create_edit_bone gltf armature id :
  returns keeps_bone_names (create_edit_bone gltf armature id).
Proof.
  returns_walk ltac:(first [apply bone_names_insert | apply bone_names_same; reflexivity]).
Qed.

Lemma handles_set_bone_parent gltf armature id :
  returns same_handles (set_bone_parent gltf armature id).
Proof. returns_walk ltac:(split; reflexivity). Qed.

Lemma handles_set_pose_bone gltf obj id :
  returns same_handles (set_pose_bone gltf obj id).
Proof. returns_walk ltac:(split; reflexivity). Qed.

Lemma handles_mode_set m : returns same_handles (mode_set m).
Proof. returns_walk ltac:(split; reflexivity). Qed.

(** The first loop of [create_bones] names the bone. *)
Lemma create_edit_bone_names gltf armature id s s' :
  create_edit_bone gltf armature id s = Ok tt s' -> is_Some (blender_bone_name s' !! id).
Proof.
  intros Hrun. unfold create_edit_bone in Hrun.
  apply bind_ok_inv in Hrun as (vnode & ? & _ & Hrun).
  apply bind_ok_inv in Hrun as (a & ? & _ & Hrun).
  apply bind_ok_inv in Hrun as (? & ? & _ & Hrun).
  apply bind_ok_inv in Hrun as (arm & ? & _ & Hrun).
  apply bind_ok_inv in Hrun as ([] & s1 & _ & Hrun).
  apply bind_ok_inv in Hrun as ([] & s2 & [= <-] & Hrun).
  match type of Hrun with
  | ?m _ = _ => assert (Hrest : returns same_handles m)
  end.
  { returns_walk ltac:(split; reflexivity). }
  apply Hrest in Hrun as [_ Hbbn]. rewrite Hbbn. simpl.
  rewrite lookup_insert_eq. eauto.
Qed.

Lemma fmap_alter_same {A B} (g : A -> B) (f : A -> A) (i : nat) (l : list A) :
  (forall x, g (f x) = g x) -> g <$> alter f i l = g <$> l.
Proof.
  intros Hf. apply list_eq. intros j. rewrite !list_lookup_fmap.
  destruct (decide (j = i)) as [->|Hne].
  - rewrite list_lookup_alter_eq. destruct (l !! i); simpl; [rewrite Hf|]; reflexivity.
  - rewrite list_lookup_alter_ne by congruence. reflexivity.
Qed.

Lemma pose_names_update s obj0 obj i (f : PoseBone -> PoseBone) :
  (forall pb, pb_name (f pb) = pb_name pb) ->
  keeps_pose_names obj0 s
    (set_bpy (set_objects
                (alter (fun o => set_pose_bones (alter f i (pose_bones o)) o) obj
                       (objects (bpy s))) (bpy s)) s).
Proof.
  intros Hf o Ho. simpl. destruct (decide (obj0 = obj)) as [->|Hne].
  - rewrite list_lookup_alter_eq, Ho. simpl. eexists. split; [reflexivity|]. simpl.
    apply fmap_alter_same, Hf.
  - rewrite list_lookup_alter_ne by congruence. exists o. auto.
Qed.

Lemma pose_names_set_pose_bone obj0 gltf obj id :
  returns (keeps_pose_names obj0) (set_pose_bone gltf obj id).
Proof.
  returns_walk ltac:(apply pose_names_update; intros ?; reflexivity).
Qed.

Lemma context_set_pose_bone gltf obj id : returns same_context (set_pose_bone gltf obj id).
Proof. returns_walk ltac:(unfold same_context; simpl; auto). Qed.

Lemma context_create_edit_bone gltf armature id :
  returns same_context (create_edit_bone gltf armature id).
Proof. returns_walk ltac:(unfold same_context; simpl; auto). Qed.

Lemma context_set_bone_parent gltf armature id :
  returns same_context (set_bone_parent gltf armature id).
Proof. returns_walk ltac:(unfold same_context; simpl; auto). Qed.

(** [bpy.ops.object.mode_set(mode=m)] *)
Lemma mode_set_run m s s' :
  mode_set m s = Ok tt s' ->
  mode (bpy s') = m /\ active_object (bpy s') = active_object (bpy s) /\
  window_scene (bpy s') = window_scene (bpy s) /\ scenes (bpy s') = scenes (bpy s).
Proof.
  intros Hrun. unfold mode_set in Hrun.
  apply bind_ok_inv in Hrun as (? & ? & [= <- <-] & Hrun).
  apply bind_ok_inv in Hrun as ([] & s1 & H1 & Hrun).
  unfold modify_bpy, modify in Hrun. injection Hrun as <-. simpl.
  match type of H1 with
  | ?m _ = _ => assert (Hsync : returns same_context m)
  end.
  { returns_walk ltac:(unfold same_context; simpl; auto). }
  apply Hsync in H1 as (_ & A & B & C). auto.
Qed.

Lemma find_bones_state fuel gltf arma s bone_ids s' :
  find_bones fuel gltf arma s = Ok bone_ids s' -> s' = s.
Proof.
  unfold find_bones. destruct (for_each _ _ _); [|discriminate..]. congruence.
Qed.

(** The steps of a run of [create_bones] that returns. *)
Lemma create_bones_run fuel gltf arma_id s s' :
  create_bones fuel gltf arma_id s = Ok tt s' ->
  exists arma obj o bone_ids s5 s6 s7 s8,
    vnodes gltf !! arma_id = Some arma /\
    blender_object s !! arma_id = Some obj /\
    objects (bpy s) !! obj = Some o /\
    find_bones fuel gltf arma s = Ok bone_ids s /\
    same_handles s s5 /\
    active_object (bpy s5) = Some obj /\
    window_scene (bpy s5) = Some (blender_scene gltf) /\
    for_each bone_ids (create_edit_bone gltf (data o)) s5 = Ok tt s6 /\
    for_each bone_ids (set_bone_parent gltf (data o)) s6 = Ok tt s7 /\
    mode_set MODE_OBJECT s7 = Ok tt s8 /\
    for_each bone_ids (set_pose_bone gltf obj) s8 = Ok tt s'.
Proof.
  intros Hrun. unfold create_bones, lookup_vnode in Hrun.
  apply bind_ok_inv in Hrun as (arma & ? & Hv & Hrun).
  destruct (vnodes gltf !! arma_id) as [arma'|] eqn:Hv'; [|discriminate].
  injection Hv as <- <-.
  apply bind_ok_inv in Hrun as (? & ? & [= <- <-] & Hrun).
  apply bind_ok_inv in Hrun as (obj & ? & Hobj & Hrun).
  destruct (blender_object s !! arma_id) as [obj'|] eqn:Hobj'; [|discriminate].
  injection Hobj as <- <-.
  apply bind_ok_inv in Hrun as (o & ? & Ho & Hrun).
  destruct (objects (bpy s) !! obj') as [o'|] eqn:Ho'; [|discriminate].
  injection Ho as <- <-.
  apply bind_ok_inv in Hrun as (bone_ids & s0 & Hfind & Hrun).
  pose proof (find_bones_state _ _ _ _ _ _ Hfind) as ->.
  apply bind_ok_inv in Hrun as ([] & s1 & H1 & Hrun).
  assert (A1 : same_handles s s1).
  { destruct (bool_decide _); [eapply handles_mode_set, H1|].
    injection H1 as <-. reflexivity. }
  apply bind_ok_inv in Hrun as (? & s2 & H2 & Hrun).
  destruct (scenes (bpy s) !! blender_scene gltf); [|discriminate].
  injection H2 as _ <-.
  apply bind_ok_inv in Hrun as ([] & s3 & [= <-] & Hrun).
  apply bind_ok_inv in Hrun as ([] & s4 & [= <-] & Hrun).
  apply bind_ok_inv in Hrun as ([] & s5 & H5 & Hrun).
  apply bind_ok_inv in Hrun as ([] & s6 & HL1 & Hrun).
  apply bind_ok_inv in Hrun as ([] & s7 & HL2 & Hrun).
  apply bind_ok_inv in Hrun as ([] & s8 & H8 & HL3).
  pose proof (handles_mode_set _ _ _ _ H5) as A5.
  apply mode_set_run in H5 as (_ & Hact & Hwin & _). simpl in Hact, Hwin.
  exists arma', obj', o', bone_ids, s5, s6, s7, s8.
  split_and!; try reflexivity; try assumption.
  etrans; [exact A1|]. destruct A5 as [A5 A5']. simpl in A5, A5'. split; assumption.
Qed.

(** X11.  When [create_bones] returns, every bone it has collected has a
    [blender_bone_name], the name of the edit bone made for it, and
    the armature object has a pose bone of this name; the handles of
    the nodes are left as they are. *)
Theorem create_bones_names_every_bone fuel gltf arma_id s s' :
  create_bones fuel gltf arma_id s = Ok tt s' ->
  exists arma obj bone_ids,
    vnodes gltf !! arma_id = Some arma /\
    blender_object s !! arma_id = Some obj /\
    find_bones fuel gltf arma s = Ok bone_ids s /\
    blender_object s' = blender_object s /\
    forall x, x ∈ bone_ids ->
      exists n o',
        blender_bone_name s' !! x = Some n /\
        objects (bpy s') !! obj = Some o' /\
        n ∈ pb_name <$> pose_bones o'.
Proof.
  intros Hrun.
  destruct (create_bones_run _ _ _ _ _ Hrun)
    as (arma & obj & o & bone_ids & s5 & s6 & s7 & s8 & Hv & Hobj & Ho & Hfind & A5 &
        _ & _ & HL1 & HL2 & H8 & HL3).
  assert (A7 : same_handles s6 s7).
  { eapply (returns_for_each same_handles); [|exact HL2].
    intros x _. apply handles_set_bone_parent. }
  assert (A8 : same_handles s7 s8) by (eapply handles_mode_set, H8).
  assert (A9 : same_handles s8 s').
  { eapply (returns_for_each same_handles); [|exact HL3].
    intros x _. apply handles_set_pose_bone. }
  assert (A6 : blender_object s6 = blender_object s5).
  { assert (Hk : returns (fun s s' => blender_object s' = blender_object s)
                   (for_each bone_ids (create_edit_bone gltf (data o)))).
    { assert (PreOrder (fun s s' : State => blender_object s' = blender_object s)).
      { split; [intros ?; reflexivity|intros ? ? ? H1 H2; congruence]. }
      apply returns_for_each; [assumption|]. intros x _.
      returns_walk ltac:(reflexivity). }
    eapply Hk, HL1. }
  exists arma, obj, bone_ids. split_and!; try assumption.
  - destruct A5 as [A5 _], A7 as [A7 _], A8 as [A8 _], A9 as [A9 _]. congruence.
  - intros x Hx.
    assert (H6 : is_Some (blender_bone_name s6 !! x)).
    { apply (for_each_established (fun s => is_Some (blender_bone_name s !! x))
               bone_ids (create_edit_bone gltf (data o)) x s5 s6 HL1 Hx).
      - intros s1 s2 Hone. eapply create_edit_bone_names, Hone.
      - intros y s1 s2 _ Hone Hq. eapply names_create_edit_bone; eassumption. }
    destruct H6 as [n Hn].
    assert (Hn8 : blender_bone_name s8 !! x = Some n).
    { destruct A7 as [_ A7], A8 as [_ A8]. rewrite A8, A7. exact Hn. }
    assert (Hn' : blender_bone_name s' !! x = Some n).
    { destruct A9 as [_ A9]. rewrite A9. exact Hn8. }
    assert (Hpose : exists o', objects (bpy s') !! obj = Some o' /\
                               n ∈ pb_name <$> pose_bones o').
    { apply (for_each_established
               (fun s => blender_bone_name s !! x = Some n ->
                         exists o', objects (bpy s) !! obj = Some o' /\
                                    n ∈ pb_name <$> pose_bones o')
               bone_ids (set_pose_bone gltf obj) x s8 s' HL3 Hx); [| |exact Hn'].
      - intros s1 s2 Hone Hname.
        destruct (set_pose_bone_run _ _ _ _ _ Hone)
          as (vn & n' & o' & pb & _ & Hn1 & Ho' & Hin & Hpn & _).
        pose proof (handles_set_pose_bone _ _ _ _ _ _ Hone) as [_ Hsame].
        rewrite Hsame, Hn1 in Hname. injection Hname as ->.
        exists o'. split; [exact Ho'|]. apply list_elem_of_fmap. exists pb. auto.
      - intros y s1 s2 _ Hone Hq Hname.
        pose proof (handles_set_pose_bone _ _ _ _ _ _ Hone) as [_ Hsame].
        rewrite Hsame in Hname. destruct (Hq Hname) as (o1 & Ho1 & Hin1).
        destruct (pose_names_set_pose_bone obj _ _ _ _ _ _ Hone o1 Ho1) as (o2 & Ho2 & Hnames).
        exists o2. split; [exact Ho2|]. rewrite Hnames. exact Hin1. }
    destruct Hpose as (o' & Ho' & Hin). exists n, o'. auto.
Qed.

(** X12.  When [create_bones] returns, the host is in object mode, the
    armature object is the active object and the scene of the import
    is the scene of the window. *)
Theorem create_bones_returns_in_object_mode fuel gltf arma_id s s' :
  create_bones fuel gltf arma_id s = Ok tt s' ->
  mode (bpy s') = MODE_OBJECT /\
  active_object (bpy s') = blender_object s !! arma_id /\
  is_Some (active_object (bpy s')) /\
  window_scene (bpy s') = Some (blender_scene gltf).
Proof.
  intros Hrun.
  destruct (create_bones_run _ _ _ _ _ Hrun)
    as (arma & obj & o & bone_ids & s5 & s6 & s7 & s8 & Hv & Hobj & Ho & Hfind & A5 &
        Hact & Hwin & HL1 & HL2 & H8 & HL3).
  assert (C6 : same_context s5 s6).
  { eapply (returns_for_each same_context); [|exact HL1].
    intros x _. apply context_create_edit_bone. }
  assert (C7 : same_context s6 s7).
  { eapply (returns_for_each same_context); [|exact HL2].
    intros x _. apply context_set_bone_parent. }
  assert (C9 : same_context s8 s').
  { eapply (returns_for_each same_context); [|exact HL3].
    intros x _. apply context_set_pose_bone. }
  apply mode_set_run in H8 as (Hm8 & Ha8 & Hw8 & _).
  destruct C6 as (_ & Ha6 & Hw6 & _), C7 as (_ & Ha7 & Hw7 & _),
    C9 as (Hm9 & Ha9 & Hw9 & _).
  rewrite Hobj.
  assert (Hactive : active_object (bpy s') = Some obj) by congruence.
  split_and!; [congruence|exact Hactive|rewrite Hactive; eauto|congruence].
Qed.

End BonesAfter.

(** ** The camera exporter *)

Section CameraFacts.
Import Specular Cameras.
Local Open Scope R_scope.
Context (generate_extras : BlenderCamera -> option string).
Context (_render : RenderSettings) (blender_camera : BlenderCamera)
        (export_settings : ExportSettings).

Lemma py_div_zero (x y : R) : y = 0 -> py_div x y tt = Raise ZeroDivisionError tt.
Proof. intros Hy. unfold py_div. destruct (Req_EM_T y 0); [reflexivity|contradiction]. Qed.

Lemma gather_type_persp :
  type blender_camera = "PERSP" ->
  __gather_type blender_camera export_settings = Some "perspective".
Proof. intros Ht. unfold __gather_type. rewrite Ht. reflexivity. Qed.

Lemma gather_type_ortho :
  type blender_camera = "ORTHO" ->
  __gather_type blender_camera export_settings = Some "orthographic".
Proof. intros Ht. unfold __gather_type. rewrite Ht. reflexivity. Qed.

(** X13.  A camera is exported when its type is PERSP or ORTHO, and then
    with exactly one of [perspective] and [orthographic], the one its
    [type] names; a camera of another type gives [None]; the only
    exception raised is [ZeroDivisionError]. *)
Theorem gather_camera_one_projection :
  match gather_camera generate_extras _render blender_camera export_settings tt with
  | Ok None _ => type blender_camera <> "PERSP" /\ type blender_camera <> "ORTHO"
  | Ok (Some camera) _ =>
      camera_name camera = name blender_camera /\
      (type blender_camera = "PERSP" /\ camera_type camera = Some "perspective" /\
       is_Some (perspective camera) /\ orthographic camera = None \/
       type blender_camera = "ORTHO" /\ camera_type camera = Some "orthographic" /\
       is_Some (orthographic camera) /\ perspective camera = None)
  | Raise e _ =>
      e = ZeroDivisionError /\
      (type blender_camera = "PERSP" \/ type blender_camera = "ORTHO")
  | OutOfFuel => False
  end.
Proof.
  unfold gather_camera, __filter_camera, __gather_orthographic, __gather_perspective,
    __gather_name.
  destruct (decide (type blender_camera = "PERSP")) as [Hp|Hp].
  - rewrite (gather_type_persp Hp). simpl.
    cbv [mbind M_bind bind ret]. unfold py_div.
    repeat (destruct (Req_EM_T _ _); simpl; auto).
    all: destruct (fits_width _ _ _); simpl; auto 10.
    all: repeat (destruct (Req_EM_T _ _); simpl; auto 10).
  - destruct (decide (type blender_camera = "ORTHO")) as [Ho|Ho].
    + rewrite (gather_type_ortho Ho). simpl.
      cbv [mbind M_bind bind ret]. unfold py_div.
      repeat (destruct (Req_EM_T _ _); simpl; auto 10).
    + unfold __gather_type, String_eqb.
      rewrite !bool_decide_false by assumption. simpl. auto.
Qed.

(** The perspective of a PERSP camera, given the two quotients. *)
Lemma gather_perspective_run :
  type blender_camera = "PERSP" ->
  render_height _render <> 0 ->
  (fits_width (render_width _render) (render_height _render) blender_camera = true ->
   render_width _render <> 0) ->
  __gather_perspective _render blender_camera export_settings tt
  = Ok (Some (mkCameraPerspective
                (render_width _render / render_height _render)
                (if fits_width (render_width _render) (render_height _render) blender_camera
                 then 2.0 * atan (tan (angle blender_camera * 0.5)
                                  / (render_width _render / render_height _render))
                 else angle blender_camera)
                (clip_end blender_camera) (clip_start blender_camera))) tt.
Proof.
  intros Ht Hh Hw. unfold __gather_perspective. rewrite (gather_type_persp Ht). simpl.
  fold (render_width _render) (render_height _render).
  cbv [mbind M_bind bind]. rewrite (py_div_ok _ _ Hh).
  destruct (fits_width _ _ _).
  - rewrite py_div_ok; [reflexivity|].
    specialize (Hw eq_refl). unfold Rdiv. apply Rmult_integral_contrapositive_currified;
      [exact Hw|apply Rinv_neq_0_compat, Hh].
  - reflexivity.
Qed.

(** X14.  The aspect ratio is [width / height]: for a PERSP camera
    [ZeroDivisionError] is raised exactly when the height of the image
    is zero, or its width is zero where the field of view is fitted to
    the width. *)
Theorem gather_perspective_zero_division :
  type blender_camera = "PERSP" ->
  __gather_perspective _render blender_camera export_settings tt
  = Raise ZeroDivisionError tt <->
  render_height _render = 0 \/
  render_width _render = 0 /\
  fits_width (render_width _render) (render_height _render) blender_camera = true.
Proof.
  intros Ht. split.
  - intros Hrun.
    destruct (Req_EM_T (render_height _render) 0) as [Hh|Hh]; [left; exact Hh|right].
    destruct (Req_EM_T (render_width _render) 0) as [Hw|Hw].
    + split; [exact Hw|].
      destruct (fits_width _ _ _) eqn:Hfit; [reflexivity|].
      rewrite gather_perspective_run in Hrun; [discriminate|assumption..|].
      rewrite Hfit. discriminate.
    + rewrite gather_perspective_run in Hrun; [discriminate|assumption..|auto].
  - unfold __gather_perspective. rewrite (gather_type_persp Ht). simpl.
    fold (render_width _render) (render_height _render).
    cbv [mbind M_bind bind]. intros [Hh|[Hw Hfit]].
    + rewrite (py_div_zero _ _ Hh). reflexivity.
    + destruct (Req_EM_T (render_height _render) 0) as [Hh|Hh].
      * rewrite (py_div_zero _ _ Hh). reflexivity.
      * rewrite (py_div_ok _ _ Hh), Hfit.
        rewrite py_div_zero; [reflexivity|]. rewrite Hw. unfold Rdiv. ring.
Qed.

(** X15.  Where the field of view is fitted to the width of the image, the
    exported [yfov] is the vertical angle that goes with the angle of
    the camera taken horizontally:
    [tan(yfov / 2) * aspect_ratio = tan(angle / 2)]. *)
Theorem gather_perspective_keeps_horizontal_fov :
  type blender_camera = "PERSP" ->
  render_width _render <> 0 -> render_height _render <> 0 ->
  fits_width (render_width _render) (render_height _render) blender_camera = true ->
  exists perspective,
    __gather_perspective _render blender_camera export_settings tt
    = Ok (Some perspective) tt /\
    aspect_ratio perspective = render_width _render / render_height _render /\
    tan (yfov perspective / 2) * aspect_ratio perspective
    = tan (angle blender_camera / 2) /\
    znear perspective = clip_start blender_camera /\
    zfar perspective = clip_end blender_camera.
Proof.
  intros Ht Hw Hh Hfit. eexists. split; [apply gather_perspective_run; auto|].
  rewrite Hfit. simpl. split_and!; try reflexivity.
  replace (2.0 * atan (tan (angle blender_camera * 0.5)
                       / (render_width _render / render_height _render)) / 2)
    with (atan (tan (angle blender_camera * 0.5)
                / (render_width _render / render_height _render))) by lra.
  rewrite tan_atan.
  replace (angle blender_camera * 0.5) with (angle blender_camera / 2) by lra.
  field. split; assumption.
Qed.

(** X16.  For an image of positive size and a camera angle between 0 and pi
    the exported [yfov] lies strictly between 0 and pi, as glTF asks;
    it is the angle of the camera itself where the field of view is
    fitted to the height, and also for a square image. *)
Theorem gather_perspective_yfov_range :
  type blender_camera = "PERSP" ->
  0 < render_width _render -> 0 < render_height _render ->
  0 < angle blender_camera < PI ->
  exists perspective,
    __gather_perspective _render blender_camera export_settings tt
    = Ok (Some perspective) tt /\
    0 < yfov perspective < PI /\
    (fits_width (render_width _render) (render_height _render) blender_camera = false ->
     yfov perspective = angle blender_camera) /\
    (render_width _render = render_height _render ->
     yfov perspective = angle blender_camera).
Proof.
  intros Ht Hw Hh Ha. eexists. split; [apply gather_perspective_run; auto; lra|].
  simpl.
  set (w := render_width _render) in *. set (h := render_height _render) in *.
  assert (Hhalf : - (PI / 2) < angle blender_camera * 0.5 < PI / 2) by lra.
  assert (Htan : 0 < tan (angle blender_camera * 0.5)) by (apply tan_gt_0; lra).
  assert (Hq : 0 < tan (angle blender_camera * 0.5) / (w / h)).
  { apply Rdiv_lt_0_compat; [exact Htan|]. apply Rdiv_lt_0_compat; assumption. }
  destruct (fits_width w h blender_camera).
  - split; [|split].
    + pose proof (atan_bound (tan (angle blender_camera * 0.5) / (w / h))) as Hb.
      pose proof (atan_increasing _ _ Hq) as Hinc. rewrite atan_0 in Hinc. lra.
    + discriminate.
    + intros Heq. rewrite Heq.
      replace (tan (angle blender_camera * 0.5) / (h / h))
        with (tan (angle blender_camera * 0.5)) by (field; lra).
      rewrite atan_tan by exact Hhalf. lra.
  - split; [lra|split; reflexivity].
Qed.

(** The magnitudes of an ORTHO camera, given the two quotients. *)
Lemma gather_orthographic_run :
  type blender_camera = "ORTHO" ->
  py_max2 (render_scene_x _render) (render_scene_y _render) <> 0 ->
  __gather_orthographic _render blender_camera export_settings tt
  = Ok (Some (mkCameraOrthographic
                (ortho_scale blender_camera
                 * (render_scene_x _render
                    / py_max2 (render_scene_x _render) (render_scene_y _render)) / 2)
                (ortho_scale blender_camera
                 * (render_scene_y _render
                    / py_max2 (render_scene_x _render) (render_scene_y _render)) / 2)
                (clip_end blender_camera) (clip_start blender_camera))) tt.
Proof.
  intros Ht Hmax. unfold __gather_orthographic. rewrite (gather_type_ortho Ht). simpl.
  fold (render_scene_x _render) (render_scene_y _render).
  cbv [mbind M_bind bind]. rewrite !(py_div_ok _ _ Hmax). reflexivity.
Qed.

(** X17.  [ortho_scale] spans the longer side of the image: for an image
    whose longer side is positive, the greater of [xmag] and [ymag] is
    half of [ortho_scale], and the two are in the proportion of the
    sides of the image. *)
Theorem gather_orthographic_magnitudes :
  type blender_camera = "ORTHO" ->
  0 < Rmax (render_scene_x _render) (render_scene_y _render) ->
  0 <= ortho_scale blender_camera ->
  exists orthographic,
    __gather_orthographic _render blender_camera export_settings tt
    = Ok (Some orthographic) tt /\
    Rmax (xmag orthographic) (ymag orthographic) = ortho_scale blender_camera / 2 /\
    xmag orthographic * render_scene_y _render
    = ymag orthographic * render_scene_x _render /\
    ortho_znear orthographic = clip_start blender_camera /\
    ortho_zfar orthographic = clip_end blender_camera.
Proof.
  intros Ht Hmax Hs.
  rewrite Rmax_comm, <- py_max2_Rmax in Hmax.
  eexists. split; [apply gather_orthographic_run; [exact Ht|lra]|].
  simpl. set (x := render_scene_x _render) in *. set (y := render_scene_y _render) in *.
  set (m := py_max2 x y) in *. set (k := ortho_scale blender_camera) in *.
  split_and!; try reflexivity.
  - assert (Hm : (m = x /\ y <= x) \/ (m = y /\ x < y)).
    { unfold m, py_max2. destruct (Rlt_dec x y); [right|left]; split; lra. }
    assert (Hinv : 0 < / m) by (apply Rinv_0_lt_compat; exact Hmax).
    destruct Hm as [[Hm Hle]|[Hm Hlt]].
    + replace (k * (x / m) / 2) with (k / 2) by (rewrite Hm; field; lra).
      apply Rmax_left. apply Rmult_le_compat_r; [lra|].
      rewrite <- (Rmult_1_r k) at 2. apply Rmult_le_compat_l; [exact Hs|].
      apply Rmult_le_reg_r with m; [exact Hmax|].
      unfold Rdiv. rewrite Rmult_assoc, Rinv_l by lra. lra.
    + replace (k * (y / m) / 2) with (k / 2) by (rewrite Hm; field; lra).
      apply Rmax_right. apply Rmult_le_compat_r; [lra|].
      rewrite <- (Rmult_1_r k) at 2. apply Rmult_le_compat_l; [exact Hs|].
      apply Rmult_le_reg_r with m; [exact Hmax|].
      unfold Rdiv. rewrite Rmult_assoc, Rinv_l by lra. lra.
  - field. lra.
Qed.

(** X18.  For an ORTHO camera [ZeroDivisionError] is raised exactly when the
    longer side of the image is zero. *)
Theorem gather_orthographic_zero_division :
  type blender_camera = "ORTHO" ->
  __gather_orthographic _render blender_camera export_settings tt
  = Raise ZeroDivisionError tt <->
  Rmax (render_scene_x _render) (render_scene_y _render) = 0.
Proof.
  intros Ht. rewrite Rmax_comm, <- py_max2_Rmax. split.
  - intros Hrun.
    destruct (Req_EM_T (py_max2 (render_scene_x _render) (render_scene_y _render)) 0)
      as [Hm|Hm]; [exact Hm|].
    rewrite gather_orthographic_run in Hrun by assumption. discriminate.
  - intros Hm. unfold __gather_orthographic. rewrite (gather_type_ortho Ht). simpl.
    fold (render_scene_x _render) (render_scene_y _render).
    cbv [mbind M_bind bind]. rewrite (py_div_zero _ _ Hm). reflexivity.
Qed.

End CameraFacts.

(** ** The exporter of punctual lights *)

Section LightFacts.
Import Lights.
Local Open Scope R_scope.
Context (PBR_WATTS_TO_LUMENS : R) (LightSpot : Type)
        (gather_light_spot : BlenderLamp -> ExportSettings -> option LightSpot)
        (generate_extras : BlenderLamp -> option string).
Context (blender_lamp : BlenderLamp).

Lemma emission_of_nodes_Some nodes emission_node :
  emission_of_nodes nodes = Some emission_node <->
  exists before currentNode after,
    nodes = before ++ currentNode :: after /\
    is_shadernode_output currentNode = true /\
    is_active_output currentNode = true /\
    head (Surface_emission_nodes currentNode) = Some emission_node /\
    Forall (fun n => is_shadernode_output n = true -> is_active_output n = true ->
                     Surface_emission_nodes n = []) before.
Proof.
  induction nodes as [|n nodes IH]; simpl.
  - split; [discriminate|]. intros (before & c & after & Hn & _).
    destruct before; discriminate.
  - split.
    + intros Hrun.
      assert (Hnext : emission_of_nodes nodes = Some emission_node ->
                (is_shadernode_output n = true -> is_active_output n = true ->
                 Surface_emission_nodes n = []) ->
                exists before currentNode after,
                  n :: nodes = before ++ currentNode :: after /\
                  is_shadernode_output currentNode = true /\
                  is_active_output currentNode = true /\
                  head (Surface_emission_nodes currentNode) = Some emission_node /\
                  Forall (fun n => is_shadernode_output n = true ->
                                   is_active_output n = true ->
                                   Surface_emission_nodes n = []) before).
      { intros Hrest Hn.
        apply IH in Hrest as (before & c & after & -> & Hc1 & Hc2 & Hc3 & Hall).
        exists (n :: before), c, after. split_and!; try reflexivity; try assumption.
        constructor; assumption. }
      destruct (is_shadernode_output n) eqn:Ho; [|apply Hnext; [exact Hrun|discriminate]].
      destruct (is_active_output n) eqn:Ha; [|apply Hnext; [exact Hrun|discriminate]].
      destruct (Surface_emission_nodes n) as [|e l] eqn:He; simpl in Hrun.
      * apply Hnext; [exact Hrun|reflexivity].
      * exists [], n, nodes. rewrite He. simpl.
        split_and!; try reflexivity; try assumption. constructor.
    + intros (before & c & after & Hn & Hc1 & Hc2 & Hc3 & Hall).
      destruct before as [|b before]; simpl in Hn; injection Hn as -> ->.
      * rewrite Hc1, Hc2. simpl.
        destruct (Surface_emission_nodes c); simpl in Hc3; congruence.
      * apply Forall_cons in Hall as [Hb Hall].
        assert (Hrest : emission_of_nodes (before ++ c :: after) = Some emission_node).
        { apply IH. exists before, c, after. auto. }
        destruct (is_shadernode_output b); [|exact Hrest].
        destruct (is_active_output b); [|exact Hrest].
        rewrite Hb by reflexivity. exact Hrest.
Qed.

(** X19.  The emission node of a lamp is the first that is found from the
    input [Surface] of an output node that is the active output, in
    the order of the nodes of the tree: outputs that are not active
    are passed over, and so are active outputs from which no emission
    node is found; a lamp that does not use nodes has none. *)
Theorem get_cycles_emission_node_active_output emission_node :
  __get_cycles_emission_node blender_lamp = Some emission_node <->
  use_nodes blender_lamp = true /\
  exists before currentNode after,
    node_tree blender_lamp = Some (before ++ currentNode :: after) /\
    is_shadernode_output currentNode = true /\
    is_active_output currentNode = true /\
    head (Surface_emission_nodes currentNode) = Some emission_node /\
    Forall (fun n => is_shadernode_output n = true -> is_active_output n = true ->
                     Surface_emission_nodes n = []) before.
Proof.
  unfold __get_cycles_emission_node. split.
  - destruct (node_tree blender_lamp) as [nodes|]; [|discriminate].
    destruct (use_nodes blender_lamp); [|discriminate].
    intros Hrun. split; [reflexivity|].
    apply emission_of_nodes_Some in Hrun as (before & c & after & -> & H).
    exists before, c, after. split; [reflexivity|exact H].
  - intros (-> & before & c & after & -> & H).
    apply emission_of_nodes_Some. exists before, c, after. split; [reflexivity|exact H].
Qed.

(** The strength in watts, as the mode RAW exports it. *)
Lemma gather_intensity_raw (extras : bool) :
  exists w raw,
    __gather_intensity PBR_WATTS_TO_LUMENS blender_lamp (mkExportSettings extras "RAW")
    = (w, Return raw) /\
    forall mode,
      mode <> "RAW" ->
      __gather_intensity PBR_WATTS_TO_LUMENS blender_lamp (mkExportSettings extras mode)
      = (w, if bool_decide (mode = "SPEC") then
              Return ((if bool_decide (type blender_lamp = "SUN") then raw
                       else raw / (4 * PI)) * PBR_WATTS_TO_LUMENS)
            else if bool_decide (mode = "COMPAT") then
              Return (if bool_decide (type blender_lamp = "SUN") then raw
                      else raw / (4 * PI))
            else Raise (ValueError mode)).
Proof.
  unfold __gather_intensity, String_eqb. simpl.
  set (strength :=
    match __get_cycles_emission_node blender_lamp with
    | Some emission_node => _
    | None => _
    end).
  assert (Hs : exists w raw, strength = (w, Return raw)).
  { unfold strength. destruct (__get_cycles_emission_node blender_lamp) as [e|];
      [|eexists _, _; reflexivity].
    destruct (bool_decide (type blender_lamp = "SUN")); simpl;
      [eexists _, _; reflexivity|].
    destruct (Strength_falloff_nodes e); eexists _, _; reflexivity. }
  destruct Hs as (w & raw & ->). exists w, raw.
  cbv [mbind L_bind bind mret L_ret ret raise]. rewrite app_nil_r. split; [reflexivity|].
  intros mode Hmode. rewrite (bool_decide_false _ Hmode).
  repeat case_bool_decide; simpl; rewrite ?app_nil_r; reflexivity.
Qed.

(** X20.  The three lighting modes: RAW exports the strength in watts;
    COMPAT divides it by [4 pi], except for a sun; SPEC multiplies
    what COMPAT exports by [PBR_WATTS_TO_LUMENS]; the same warnings
    are printed in the three modes, and none of them raises. *)
Theorem gather_intensity_lighting_modes (extras : bool) :
  exists w raw,
    __gather_intensity PBR_WATTS_TO_LUMENS blender_lamp (mkExportSettings extras "RAW")
    = (w, Return raw) /\
    __gather_intensity PBR_WATTS_TO_LUMENS blender_lamp (mkExportSettings extras "COMPAT")
    = (w, Return (if bool_decide (type blender_lamp = "SUN") then raw
                  else raw / (4 * PI))) /\
    __gather_intensity PBR_WATTS_TO_LUMENS blender_lamp (mkExportSettings extras "SPEC")
    = (w, Return ((if bool_decide (type blender_lamp = "SUN") then raw
                   else raw / (4 * PI)) * PBR_WATTS_TO_LUMENS)).
Proof.
  destruct (gather_intensity_raw extras) as (w & raw & Hraw & Hmode).
  exists w, raw. split; [exact Hraw|].
  split; rewrite Hmode by discriminate; reflexivity.
Qed.

(** X21.  For a lamp that is not a sun and has an emission node, the input
    [Strength] of the emission node itself is not read: with a
    quadratic falloff node found from it, the strength of that node
    is divided by [4 pi] for the falloff and, in the mode COMPAT,
    once more for the unit, so by [16 pi^2] in all; with none found,
    a warning is printed and the energy of the lamp is exported. *)
Theorem gather_intensity_quadratic_falloff (extras : bool) emission_node :
  type blender_lamp <> "SUN" ->
  __get_cycles_emission_node blender_lamp = Some emission_node ->
  __gather_intensity PBR_WATTS_TO_LUMENS blender_lamp (mkExportSettings extras "COMPAT")
  = match Strength_falloff_nodes emission_node with
    | quadratic_falloff_node :: _ =>
        ([], Return (quadratic_falloff_node / (16 * (PI * PI))))
    | [] =>
        ([("WARNING",
           "No quadratic light falloff node attached to emission strength property")],
         Return (energy blender_lamp / (4 * PI)))
    end.
Proof.
  intros Hsun Hnode. unfold __gather_intensity, String_eqb. rewrite Hnode.
  rewrite (bool_decide_false _ Hsun). simpl.
  destruct (Strength_falloff_nodes emission_node) as [|f l]; simpl.
  - reflexivity.
  - cbv [mbind L_bind bind mret L_ret ret]. simpl.
    replace (f / (PI * 4.0) / (4 * PI)) with (f / (16 * (PI * PI)));
      [reflexivity|replace 4.0 with 4 by lra; field; apply PI_neq0].
Qed.

(** X22.  What [gather_lights_punctual] gives, by the type of the lamp and
    the lighting mode: a lamp of type HEMI or AREA gives [None], with
    a warning, whatever the mode; for another lamp a lighting mode
    that is none of RAW, SPEC and COMPAT raises [ValueError], before
    the type is looked at; a type that is none of POINT, SUN and SPOT
    then raises [KeyError]; and a POINT, SUN or SPOT lamp gives a
    light of type point, directional or spot, with a spot only for
    SPOT and a range only with [use_custom_distance]. *)
Theorem gather_lights_punctual_outcome (export_settings : ExportSettings) :
  let out := gather_lights_punctual PBR_WATTS_TO_LUMENS LightSpot gather_light_spot
               generate_extras blender_lamp export_settings in
  let mode := gltf_lighting_mode export_settings in
  (type blender_lamp ∈ ["HEMI"; "AREA"] ->
   out = ([("WARNING", "Unsupported light source " +:+ type blender_lamp)], Return None)) /\
  (type blender_lamp ∉ ["HEMI"; "AREA"] -> mode ∉ ["RAW"; "SPEC"; "COMPAT"] ->
   out.2 = Raise (ValueError mode)) /\
  (type blender_lamp ∉ ["HEMI"; "AREA"; "POINT"; "SUN"; "SPOT"] ->
   mode ∈ ["RAW"; "SPEC"; "COMPAT"] ->
   out.2 = Raise (KeyError (type blender_lamp))) /\
  (forall t, (type blender_lamp, t) ∈ [("POINT", "point"); ("SUN", "directional");
                                       ("SPOT", "spot")] ->
   mode ∈ ["RAW"; "SPEC"; "COMPAT"] ->
   exists light,
     out.2 = Return (Some light) /\
     light_type LightSpot light = t /\
     light_spot LightSpot light
     = (if bool_decide (type blender_lamp = "SPOT")
        then gather_light_spot blender_lamp export_settings else None) /\
     light_range LightSpot light
     = (if use_custom_distance blender_lamp
        then Some (cutoff_distance blender_lamp) else None) /\
     light_name LightSpot light = name blender_lamp /\
     light_color LightSpot light = __gather_color blender_lamp export_settings).
Proof.
  intros out mode. destruct export_settings as [extras md]. simpl in mode.
  destruct (gather_intensity_raw extras) as (w & raw & Hraw & Hmode).
  assert (Hint : exists r,
            __gather_intensity PBR_WATTS_TO_LUMENS blender_lamp (mkExportSettings extras md)
            = (w, r) /\
            (md ∉ ["RAW"; "SPEC"; "COMPAT"] -> r = Raise (ValueError md)) /\
            (md ∈ ["RAW"; "SPEC"; "COMPAT"] -> exists x, r = Return x)).
  { destruct (decide (md = "RAW")) as [->|Hne].
    - eexists. split; [exact Hraw|]. split; [|eauto].
      intros H. exfalso. apply H. left.
    - eexists. split; [apply Hmode, Hne|]. split.
      + intros Hnot. rewrite !bool_decide_false; [reflexivity|..];
          intros ->; apply Hnot; [right; right; left|right; left].
      + intros Hin. apply elem_of_cons in Hin as [->|Hin]; [contradiction|].
        apply elem_of_cons in Hin as [->|Hin]; [simpl; eauto|].
        apply list_elem_of_singleton in Hin as ->. simpl. eauto. }
  destruct Hint as (r & Hint & Hbad & Hgood).
  unfold out, mode, gather_lights_punctual, __filter_lights_punctual.
  split_and!.
  - intros Hin. rewrite bool_decide_true by exact Hin. reflexivity.
  - intros Hnot Hmd. rewrite bool_decide_false by exact Hnot.
    cbv [mbind L_bind bind mret L_ret ret negb]. rewrite Hint, (Hbad Hmd). reflexivity.
  - intros Hnot Hmd.
    rewrite bool_decide_false
      by (intros Hin; apply Hnot; apply elem_of_cons in Hin as [->|Hin];
          [left|right; apply list_elem_of_singleton in Hin as ->; left]).
    destruct (Hgood Hmd) as [x ->].
    cbv [mbind L_bind bind mret L_ret ret negb]. rewrite Hint.
    unfold __gather_type. simpl dict_get.
    repeat (destruct (decide _) as [Heq|_];
            [exfalso; apply Hnot; rewrite <- Heq; repeat first [left|right]|]).
    reflexivity.
  - intros t Ht Hmd.
    assert (Hnot : type blender_lamp ∉ ["HEMI"; "AREA"]).
    { intros Hin.
      repeat (apply elem_of_cons in Ht as [[= Ht _]|Ht];
              [rewrite Ht in Hin;
               repeat (apply elem_of_cons in Hin as [Hin|Hin]; [discriminate|]);
               apply elem_of_nil in Hin; contradiction|]).
      apply elem_of_nil in Ht. contradiction. }
    rewrite bool_decide_false by exact Hnot.
    destruct (Hgood Hmd) as [x ->].
    cbv [mbind L_bind bind mret L_ret ret negb]. rewrite Hint.
    unfold __gather_type, __gather_spot, __gather_range, __gather_name, String_eqb.
    assert (Hget : dict_get [("POINT", "point"); ("SUN", "directional"); ("SPOT", "spot")]
                            (type blender_lamp) = Some t).
    { repeat (apply elem_of_cons in Ht as [[= -> ->]|Ht]; [reflexivity|]).
      apply elem_of_nil in Ht. contradiction. }
    rewrite Hget. simpl. eexists. split; [reflexivity|]. simpl. auto 10.
Qed.

End LightFacts.

(** ** The specular extension *)

Section SpecularExportFacts.
Import Specular SpecularExtension.
Local Open Scope R_scope.
Context (GLTF_IOR : R) (Texture : Type)
        (gather_texture_info :
           option socket -> list (option socket) -> ExportSettings ->
           option Texture * bool * option (list R)).

Lemma normalize_times_run c0 c1 c2 x :
  luminance c0 c1 c2 <> 0 ->
  normalize_times [c0; c1; c2] x tt
  = Ok [c0 / luminance c0 c1 c2 * x; c1 / luminance c0 c1 c2 * x;
        c2 / luminance c0 c1 c2 * x] tt.
Proof.
  intros Hl. unfold normalize_times, normalize.
  destruct (Req_EM_T (luminance c0 c1 c2) 0) as [|_]; [contradiction|].
  cbv [mbind M_bind bind]. rewrite !py_div_ok by assumption.
  simpl. destruct (Req_EM_T (luminance c0 c1 c2) 0) as [|_]; [contradiction|].
  reflexivity.
Qed.


Lemma f0_from_ior_zero ior : ior + 1 <> 0 -> (((ior - 1) / (ior + 1)) ^ 2 = 0 <-> ior = 1).
Proof.
  intros H1. split.
  - intros H0. simpl in H0. rewrite Rmult_1_r in H0.
    assert (Hq : (ior - 1) / (ior + 1) = 0)
      by (apply Rmult_integral in H0; destruct H0; assumption).
    unfold Rdiv in Hq. apply Rmult_integral in Hq as [Hq|Hq]; [lra|].
    exfalso. revert Hq. apply Rinv_neq_0_compat, H1.
  - intros ->. unfold Rdiv. simpl. ring.
Qed.

(** The factor without texture, where nothing is divided by zero. *)
Lemma specular_color_factor_run specular tint transmission ior c0 c1 c2 :
  luminance c0 c1 c2 <> 0 -> ior <> -1 -> ior <> 1 ->
  specular_color_factor (Some specular) (Some tint) (Some transmission) ior [c0; c1; c2] tt
  = Ok (specular_channel specular tint transmission ior
          <$> [c0 / luminance c0 c1 c2; c1 / luminance c0 c1 c2;
               c2 / luminance c0 c1 c2]) tt.
Proof.
  intros Hl Hm Hp. unfold specular_color_factor.
  assert (H1 : ior + 1 <> 0) by lra.
  cbv [mbind M_bind bind float_of from_option ret].
  rewrite (py_div_ok _ _ H1), (normalize_times_run _ _ _ _ Hl).
  rewrite py_div_ok by (rewrite f0_from_ior_zero by exact H1; exact Hp).
  reflexivity.
Qed.

Lemma specular_color_factor_zero_division specular tint transmission ior c0 c1 c2 :
  luminance c0 c1 c2 <> 0 -> ior = -1 \/ ior = 1 ->
  specular_color_factor (Some specular) (Some tint) (Some transmission) ior [c0; c1; c2] tt
  = Raise ZeroDivisionError tt.
Proof.
  intros Hl Hior. unfold specular_color_factor.
  cbv [mbind M_bind bind float_of from_option ret].
  destruct Hior as [->| ->].
  - rewrite py_div_zero by lra. reflexivity.
  - rewrite py_div_ok by lra. rewrite (normalize_times_run _ _ _ _ Hl).
    rewrite py_div_zero; [reflexivity|]. apply f0_from_ior_zero; lra.
Qed.

(** The branch [no_texture] is taken for a material whose three
    sockets are not linked, when the tint is zero or the base color
    is not linked either. *)
Lemma no_texture_unlinked specular tint transmission base_color ior_socket :
  tint = 0 \/ is_linked base_color = false ->
  no_texture (unlinked_material specular tint transmission base_color ior_socket) = true.
Proof.
  intros Hcase. unfold no_texture, unlinked_material, float_ne, float_eq. simpl.
  replace 0.0 with 0 by lra.
  destruct Hcase as [->| ->].
  - rewrite bool_decide_true by reflexivity. reflexivity.
  - destruct (bool_decide (tint = 0)); reflexivity.
Qed.

(** X23.  Without texture: the factor is computed channel by channel from
    the base color divided by its luminance, as long as this
    luminance is not zero; [ZeroDivisionError] is raised exactly for
    an index of refraction of [1] (then [f0_from_ior] is zero) or of
    [-1]; the list of UV maps is empty. *)
Theorem export_specular_untextured export_settings specular tint transmission
        linked c0 c1 c2 alpha socket_ior :
  tint = 0 \/ linked = false ->
  luminance c0 c1 c2 <> 0 ->
  let blender_material :=
    unlinked_material specular tint transmission
      (mkNodeSocket linked (c0 :: c1 :: c2 :: alpha)) socket_ior in
  let ior := ior_of GLTF_IOR socket_ior in
  let l := luminance c0 c1 c2 in
  (ior = -1 \/ ior = 1 ->
   export_specular GLTF_IOR Texture gather_texture_info blender_material export_settings tt
   = Raise ZeroDivisionError tt) /\
  (ior <> -1 -> ior <> 1 ->
   export_specular GLTF_IOR Texture gather_texture_info blender_material export_settings tt
   = Ok (Some (mkExtension "KHR_materials_specular"
                 (mkSpecularDict
                    (Some (specular_channel specular tint transmission ior
                             <$> [c0 / l; c1 / l; c2 / l]))
                    None) false),
         Some []) tt).
Proof.
  intros Hcase Hl blender_material ior l.
  assert (Hnt : no_texture blender_material = true)
    by (apply no_texture_unlinked; exact Hcase).
  assert (Hior : (if not_linked socket_ior
                  then default GLTF_IOR (default_value <$> socket_ior)
                  else GLTF_IOR) = ior).
  { unfold ior, ior_of, not_linked. destruct socket_ior as [[[] v]|]; reflexivity. }
  unfold export_specular. rewrite Hnt. unfold blender_material.
  cbn [SpecularExtension.ior_socket unlinked_material]. rewrite Hior.
  cbn [base_color_socket unlinked_material specular_socket specular_tint_socket
       transmission_socket not_linked is_linked negb default_value fmap option_fmap
       option_map take].
  cbv [mbind M_bind bind]. split.
  - intros Hz. rewrite specular_color_factor_zero_division by assumption. reflexivity.
  - intros Hm Hp. rewrite specular_color_factor_run by assumption. reflexivity.
Qed.




Lemma specular_color_factor_outcome specular tint transmission ior base_color :
  match specular_color_factor specular tint transmission ior base_color tt with
  | Ok _ _ => True
  | Raise e _ => e = ZeroDivisionError \/ e = TypeError \/ e = AssertionError
  | OutOfFuel => False
  end.
Proof.
  unfold specular_color_factor, normalize_times, normalize, float_of, py_div.
  cbv [mbind M_bind bind from_option ret raise].
  repeat first
    [ progress simpl
    | match goal with
      | |- context [match ?x with _ => _ end] =>
          lazymatch x with
          | Req_EM_T _ _ => destruct x
          | _ => is_var x; destruct x
          end
      end ]; auto.
Qed.

(** X27.  What [export_specular] returns: [(None, None)], or the extension
    KHR_materials_specular, not required, which holds a factor and no
    texture in the branch without texture and a texture in the other
    branch, with at most the one UV map [specularColorTexture];
    an exception is raised only in the branch without texture, and it
    is [ZeroDivisionError], [TypeError] or [AssertionError]. *)
Theorem export_specular_result blender_material export_settings :
  match export_specular GLTF_IOR Texture gather_texture_info blender_material
          export_settings tt with
  | Ok (None, use_actives_uvmaps) _ => use_actives_uvmaps = None
  | Ok (Some specular_extension, use_actives_uvmaps) _ =>
      extension_name specular_extension = "KHR_materials_specular" /\
      required specular_extension = false /\
      (no_texture blender_material = true /\
       is_Some (specularColorFactor (extension specular_extension)) /\
       specularColorTexture (extension specular_extension) = None /\
       use_actives_uvmaps = Some []
       \/
       no_texture blender_material = false /\
       is_Some (specularColorTexture (extension specular_extension)) /\
       (use_actives_uvmaps = Some [] \/
        use_actives_uvmaps = Some ["specularColorTexture"]))
  | Raise e _ =>
      no_texture blender_material = true /\
      (e = ZeroDivisionError \/ e = TypeError \/ e = AssertionError)
  | OutOfFuel => False
  end.
Proof.
  unfold export_specular.
  destruct (base_color_socket blender_material) as [bc|]; [|reflexivity].
  destruct (no_texture blender_material) eqn:Hnt.
  - cbv [mbind M_bind bind].
    match goal with
    | |- context [specular_color_factor ?a ?b ?c ?d ?e tt] =>
        pose proof (specular_color_factor_outcome a b c d e) as Hout;
        destruct (specular_color_factor a b c d e tt) as [f []|e' []|]
    end; simpl; [|auto|contradiction].
    split_and!; [reflexivity..|]. left. split_and!; [reflexivity|eauto|reflexivity..].
  - destruct (gather_texture_info _ _ _) as [[[tex|] uv] fac]; simpl; [|reflexivity].
    split_and!; [reflexivity..|]. right. split_and!; [reflexivity|eauto|].
    destruct uv; auto.
Qed.

End SpecularExportFacts.

(** ** The importer on the examples *)

Section ImporterWitnesses.
Import Examples MoreExamples.


Lemma set_morph_weights_more_weights_than_names_witness :
  (length [Some "Smile"] < length (morph_weights two_weights smile))%nat /\
  fails (@set_morph_weights SimpleHost.host face two_weights 0).
Proof.
  assert (H : (length [Some "Smile"] < length (morph_weights two_weights smile))%nat)
    by (simpl; lia).
  split; [exact H|].
  exact (proj1 (@set_morph_weights_more_weights_than_names SimpleHost.host face two_weights
                  0%nat 0 smile [Some "Smile"] eq_refl eq_refl eq_refl H)).
Defined.


Lemma create_mesh_object_invalid_index_empty_object_witness :
  ~ (0 <= 99 < Z.of_nat (length (meshes invalid_refs))) /\
  exists o s',
    @create_mesh_object SimpleHost.host invalid_refs
      (object_vnode "A" [] (Some (NodeIdx 0)) (Some 1)) initial_state
    = Ok 0%nat s' /\
    objects (bpy s') = [o] /\ data o = None.
Proof.
  assert (H : ~ (0 <= 99 < Z.of_nat (length (meshes invalid_refs)))) by (simpl; lia).
  split; [exact H|].
  destruct (@create_mesh_object_invalid_index_empty_object SimpleHost.host invalid_refs
              (object_vnode "A" [] (Some (NodeIdx 0)) (Some 1)) 1 (mesh_node 99 None) 99
              initial_state eq_refl eq_refl eq_refl H)
    as (o & s' & Hrun & Hobjs & Hdata & _).
  exists o, s'. auto.
Defined.

Lemma create_object_sets_transform_witness :
  exists obj s' o,
    @create_object SimpleHost.host two_roots (NodeIdx 0) initial_state = Ok obj s' /\
    blender_object s' !! NodeIdx 0 = Some obj /\
    objects (bpy s') !! obj = Some o /\
    rotation_mode o = QUATERNION.
Proof.
  destruct (@create_object SimpleHost.host two_roots (NodeIdx 0) initial_state)
    as [obj s'| |] eqn:Hrun; [|vm_compute in Hrun; discriminate..].
  destruct (@create_object_sets_transform SimpleHost.host _ _ _ _ _ Hrun)
    as (vnode & o & linked & _ & Hbo & Ho & _ & Hm & _).
  exists obj, s', o. split; [reflexivity|]. rewrite Hbo, lookup_insert_eq. auto.
Defined.


Lemma create_vnode_gives_objects_handles_witness :
  forest two_roots /\
  exists n, forall fuel, (n <= fuel)%nat -> forall s',
    @create_vnode SimpleHost.host fuel two_roots (Synthetic "root") initial_state
    = Ok tt s' ->
    (forall x v, descendant two_roots (Synthetic "root") x ->
                 vnodes two_roots !! x = Some v -> type v = Object ->
                 is_Some (blender_object s' !! x)) /\
    keeps_object_handles two_roots initial_state s'.
Proof.
  split; [exact two_roots_forest|].
  exact (@create_vnode_gives_objects_handles SimpleHost.host two_roots (Synthetic "root")
           initial_state two_roots_forest).
Defined.

Lemma create_vnode_counts_each_node_once_witness :
  forest two_roots /\
  exists n, forall fuel, (n <= fuel)%nat -> forall s',
    @create_vnode SimpleHost.host fuel two_roots (Synthetic "root") initial_state
    = Ok tt s' ->
    exists visited,
      NoDup visited /\
      (forall x, x ∈ visited <-> descendant two_roots (Synthetic "root") x) /\
      display_current_node s'
      = display_current_node initial_state + Z.of_nat (length visited).
Proof.
  split; [exact two_roots_forest|].
  exact (@create_vnode_counts_each_node_once SimpleHost.host two_roots (Synthetic "root")
           initial_state two_roots_forest).
Defined.

Lemma find_bones_collects_each_bone_once_witness :
  forest skeleton /\
  vnodes skeleton !! NodeIdx 0 = Some skeleton_root /\
  exists n, forall fuel, (n <= fuel)%nat ->
    exists bone_ids,
      find_bones fuel skeleton skeleton_root skeleton_state = Ok bone_ids skeleton_state /\
      NoDup bone_ids /\
      forall x, x ∈ bone_ids ->
        is_bone skeleton x /\ descendant skeleton (NodeIdx 0) x /\ x <> NodeIdx 0.
Proof.
  split; [exact skeleton_forest|]. split; [reflexivity|].
  exact (find_bones_collects_each_bone_once skeleton (NodeIdx 0) skeleton_root
           skeleton_state skeleton_forest eq_refl).
Defined.

Lemma create_bones_names_every_bone_witness :
  exists s',
    @create_bones SimpleHost.host 3 skeleton (NodeIdx 0) skeleton_state = Ok tt s' /\
    exists arma obj bone_ids,
      vnodes skeleton !! NodeIdx 0 = Some arma /\
      blender_object skeleton_state !! NodeIdx 0 = Some obj /\
      find_bones 3 skeleton arma skeleton_state = Ok bone_ids skeleton_state /\
      blender_object s' = blender_object skeleton_state /\
      forall x, x ∈ bone_ids ->
        exists n o',
          blender_bone_name s' !! x = Some n /\
          objects (bpy s') !! obj = Some o' /\
          n ∈ pb_name <$> pose_bones o'.
Proof.
  destruct (@create_bones SimpleHost.host 3 skeleton (NodeIdx 0) skeleton_state)
    as [[] s'| |] eqn:Hrun; [|vm_compute in Hrun; discriminate..].
  exists s'. split; [reflexivity|].
  exact (@create_bones_names_every_bone SimpleHost.host _ _ _ _ _ Hrun).
Defined.

Lemma create_bones_returns_in_object_mode_witness :
  exists s',
    @create_bones SimpleHost.host 3 skeleton (NodeIdx 0) skeleton_state = Ok tt s' /\
    mode (bpy s') = MODE_OBJECT /\
    active_object (bpy s') = blender_object skeleton_state !! NodeIdx 0 /\
    is_Some (active_object (bpy s')) /\
    window_scene (bpy s') = Some (blender_scene skeleton).
Proof.
  destruct (@create_bones SimpleHost.host 3 skeleton (NodeIdx 0) skeleton_state)
    as [[] s'| |] eqn:Hrun; [|vm_compute in Hrun; discriminate..].
  exists s'. split; [reflexivity|].
  exact (@create_bones_returns_in_object_mode SimpleHost.host _ _ _ _ _ Hrun).
Defined.

End ImporterWitnesses.

(** ** The exporters on the examples *)

Section ExporterWitnesses.
Import Specular ExporterExamples.
Local Open Scope R_scope.

Lemma gather_perspective_zero_division_witness :
  Cameras.type persp_camera = "PERSP" /\
  Cameras.__gather_perspective flat_image persp_camera settings tt
  = Raise ZeroDivisionError tt.
Proof.
  split; [reflexivity|].
  apply (gather_perspective_zero_division flat_image persp_camera settings eq_refl).
  left. unfold render_height. simpl. lra.
Defined.

Lemma full_hd_fits_width :
  Cameras.fits_width (render_width full_hd) (render_height full_hd) persp_camera = true.
Proof.
  unfold Cameras.fits_width, py_ge, render_width, render_height. simpl.
  destruct (Rle_dec (1 * 1080) (1 * 1920)) as [_|H]; [reflexivity|exfalso; lra].
Qed.

Lemma gather_perspective_keeps_horizontal_fov_witness :
  Cameras.type persp_camera = "PERSP" /\
  exists perspective,
    Cameras.__gather_perspective full_hd persp_camera settings tt
    = Ok (Some perspective) tt /\
    Cameras.aspect_ratio perspective = render_width full_hd / render_height full_hd /\
    tan (Cameras.yfov perspective / 2) * Cameras.aspect_ratio perspective
    = tan (Cameras.angle persp_camera / 2) /\
    Cameras.znear perspective = Cameras.clip_start persp_camera /\
    Cameras.zfar perspective = Cameras.clip_end persp_camera.
Proof.
  split; [reflexivity|].
  apply (gather_perspective_keeps_horizontal_fov full_hd persp_camera settings eq_refl).
  - unfold render_width. simpl. lra.
  - unfold render_height. simpl. lra.
  - exact full_hd_fits_width.
Defined.

Lemma gather_perspective_yfov_range_witness :
  0 < Cameras.angle persp_camera < PI /\
  exists perspective,
    Cameras.__gather_perspective full_hd persp_camera settings tt
    = Ok (Some perspective) tt /\
    0 < Cameras.yfov perspective < PI.
Proof.
  assert (Ha : 0 < Cameras.angle persp_camera < PI).
  { simpl. pose proof PI2_3_2. lra. }
  split; [exact Ha|].
  destruct (gather_perspective_yfov_range full_hd persp_camera settings eq_refl)
    as (p & Hrun & Hrange & _); [| |exact Ha|eauto].
  - unfold render_width. simpl. lra.
  - unfold render_height. simpl. lra.
Defined.

Lemma gather_orthographic_magnitudes_witness :
  Cameras.type ortho_camera = "ORTHO" /\
  exists orthographic,
    Cameras.__gather_orthographic full_hd ortho_camera settings tt
    = Ok (Some orthographic) tt /\
    Rmax (Cameras.xmag orthographic) (Cameras.ymag orthographic)
    = Cameras.ortho_scale ortho_camera / 2.
Proof.
  split; [reflexivity|].
  destruct (gather_orthographic_magnitudes full_hd ortho_camera settings eq_refl)
    as (o & Hrun & Hmax & _); [| |eauto].
  - unfold render_scene_x, render_scene_y. simpl.
    eapply Rlt_le_trans; [|apply Rmax_l]. lra.
  - simpl. lra.
Defined.

Lemma gather_orthographic_zero_division_witness :
  Cameras.type ortho_camera = "ORTHO" /\
  Cameras.__gather_orthographic empty_image ortho_camera settings tt
  = Raise ZeroDivisionError tt.
Proof.
  split; [reflexivity|].
  apply (gather_orthographic_zero_division empty_image ortho_camera settings eq_refl).
  unfold render_scene_x, render_scene_y. simpl.
  rewrite Rmult_0_l. apply Rmax_left. lra.
Defined.

Lemma point_lamp_emission :
  Lights.__get_cycles_emission_node point_lamp = Some emission.
Proof. reflexivity. Qed.

Lemma gather_intensity_quadratic_falloff_witness :
  Lights.type point_lamp <> "SUN" /\
  Lights.__gather_intensity 683 point_lamp (mkExportSettings false "COMPAT")
  = ([], Lights.Return (50 / (16 * (PI * PI)))).
Proof.
  assert (H : Lights.type point_lamp <> "SUN") by discriminate.
  split; [exact H|].
  exact (gather_intensity_quadratic_falloff 683 point_lamp false emission H
           point_lamp_emission).
Defined.

Lemma export_specular_untextured_witness :
  luminance 1 1 1 <> 0 /\
  SpecularExtension.export_specular 1.5 unit no_texture_info
    (unlinked_material 0.5 0 0 white None) settings tt
  = Ok (Some (SpecularExtension.mkExtension "KHR_materials_specular"
                (SpecularExtension.mkSpecularDict
                   (Some (specular_channel 0.5 0 0 1.5
                            <$> [1 / luminance 1 1 1; 1 / luminance 1 1 1;
                                 1 / luminance 1 1 1]))
                   None) false),
        Some []) tt.
Proof.
  assert (Hl : luminance 1 1 1 <> 0) by (unfold luminance; lra).
  split; [exact Hl|].
  apply (export_specular_untextured 1.5 unit no_texture_info settings 0.5 0 0 false
           1 1 1 [1] None (or_introl eq_refl) Hl); unfold ior_of; lra.
Defined.




End ExporterWitnesses.
